(** * PSCI power-state core of the Rockchip rk322x platform

    A shallow embedding of [core/arch/arm/plat-rockchip/psci_rk322x.c]
    and the properties its specification states about it.

    Embedded are the functions the properties below are about:
    everything in the file but [psci_system_reset] and the boot-time
    [reset_nonboot_cores].

    The C code drives memory-mapped hardware.  The embedding keeps a
    machine state (register file, on-chip SRAM, the two global tables of
    the C file, and a chronological log of every observable action) and
    runs the C functions in a small state monad with two abnormal
    outcomes: [Halt] for [panic()] and [Spin] for a loop that is still
    running when the step budget given to the model is used up. *)

From Stdlib Require Import ZArith List Lia Bool.
From stdpp Require Import base decidable numbers list functions.
Import ListNotations.
#[local] Open Scope Z_scope.

(** ** Machine words *)

Definition u32 (x : Z) : Z := x mod 2 ^ 32.

(** [util.h]: [SHIFT_U32(v, shift)] is [(uint32_t)(v) << (shift)]. *)
Definition SHIFT_U32 (v shift : Z) : Z := u32 (Z.shiftl v shift).

(** A C integer used as a condition. *)
Definition nonzero (x : Z) : bool := negb (x =? 0).

(** ** Write-masked registers *)

(** Modelled from the spec: the headers [common.h] and [cru.h] of the
    platform are not among the sources.  The specification describes
    [BITS_WITH_WMASK] as the helper that turns (value, mask, shift) into
    the hardware write word, and the registers it is used on as
    protected by a write-mask field: the upper half-word of a written
    word selects which bits of the lower half-word the hardware
    updates. *)
Definition REG_MSK_SHIFT : Z := 16.

Definition BITS_WMSK (msk shift : Z) : Z := SHIFT_U32 msk (shift + REG_MSK_SHIFT).

Definition BITS_WITH_WMASK (bits msk shift : Z) : Z :=
  Z.lor (SHIFT_U32 bits shift) (BITS_WMSK msk shift).

(** Modelled from the spec: what the hardware does with a word [w]
    written to a write-masked register holding [old].  Bits of the lower
    half-word whose write-enable bit is set take the value given in [w];
    every other bit keeps its value. *)
Definition wmask_of (w : Z) : Z := Z.land (Z.shiftr w REG_MSK_SHIFT) 0xffff.

Definition masked_write (old w : Z) : Z :=
  Z.lor (Z.land old (Z.lnot (wmask_of w))) (Z.land w (wmask_of w)).

(** ** Addresses *)

(** Registers are named as the C code names them ([va_base + MACRO(i)]);
    the numeric offsets live in the absent headers, and distinct names
    are distinct registers. *)
Inductive cru_reg : Type :=
| CRU_MODE_CON
| CRU_CLKSEL_CON (i : Z)
| CRU_CLKGATE_CON (i : Z)
| CRU_PLL_CON1 (pll : Z)
| CRU_SOFTRST_CON (i : Z).

Inductive grf_reg : Type :=
| GRF_CPU_STATUS1.

Inductive isram_word : Type :=
| BOOT_ADDR_OFFSET
| LOCK_ADDR_OFFSET.

Inductive addr : Type :=
| CRU_BASE (r : cru_reg)
| GRF_BASE (r : grf_reg)
| ISRAM_BASE (w : isram_word).

#[global] Instance cru_reg_eq_dec : EqDecision cru_reg.
Proof. solve_decision. Defined.
#[global] Instance grf_reg_eq_dec : EqDecision grf_reg.
Proof. solve_decision. Defined.
#[global] Instance isram_word_eq_dec : EqDecision isram_word.
Proof. solve_decision. Defined.
#[global] Instance addr_eq_dec : EqDecision addr.
Proof. solve_decision. Defined.

(** ** Observable actions *)

Inductive event : Type :=
| EvRead (a : addr) (v : Z)          (* read32 and the value it returned *)
| EvWrite (a : addr) (v : Z)         (* write32 *)
| EvStoreEntry (core : Z) (entry : Z)(* ns_entry_addrs[core] = entry *)
| EvDsb
| EvSev
| EvWfi
| EvUdelay (us : Z)
| EvCacheOp                          (* cache_op_inner(DCACHE_CLEAN_INV, ..) *)
| EvArmv7CpuOff                      (* psci_armv7_cpu_off() *)
| EvMaskExceptions (m : Z)           (* thread_mask_exceptions(m) *)
| EvPanic.

#[global] Instance event_eq_dec : EqDecision event.
Proof. solve_decision. Defined.

(** ** Return codes *)

Inductive psci_ret : Type :=
| PSCI_RET_SUCCESS
| PSCI_RET_NOT_SUPPORTED
| PSCI_RET_INVALID_PARAMETERS
| PSCI_RET_DENIED
| PSCI_RET_INTERNAL_FAILURE.

Inductive psci_affinity : Type :=
| PSCI_AFFINITY_LEVEL_ON
| PSCI_AFFINITY_LEVEL_OFF.

#[global] Instance psci_ret_eq_dec : EqDecision psci_ret.
Proof. solve_decision. Defined.
#[global] Instance psci_affinity_eq_dec : EqDecision psci_affinity.
Proof. solve_decision. Defined.

(** ** Build-time constants of the platform

    Every constant and macro below is used by the C file and defined in
    a header that is not among the sources; the development is
    parametric in them. *)
Class Platform : Type := {
  CFG_TEE_CORE_NB_CORE : Z;
  MPIDR_CPU_MASK : Z;
  CFG_TEE_LOAD_ADDR : Z;
  LOCK_TAG : Z;
  THREAD_EXCP_ALL : Z;
  (* whether the trace level of the build compiles DMSG() in *)
  TRACE_DEBUG_ENABLED : bool;
  (* cru.h *)
  APLL_ID : Z;
  CPLL_ID : Z;
  GPLL_ID : Z;
  PLL_LOCK : Z;
  PLL_POWER_UP : Z;
  PLL_POWER_DOWN : Z;
  PLL_MODE_BIT : Z -> Z;
  PLL_SLOW_MODE : Z -> Z;
  CORE_SOFT_RESET : Z -> Z;
  CORE_SOFT_RELEASE : Z -> Z;
  CORE_HELD_IN_RESET : Z -> Z;
  (* grf.h *)
  CORE_WFE_I_MASK : Z -> Z;
  CORE_WFI_MASK : Z -> Z;
  (* sm/psci.h *)
  PSCI_VERSION_1_0 : Z;
  PSCI_VERSION : Z;
  PSCI_CPU_OFF : Z;
  PSCI_CPU_ON : Z;
  PSCI_SYSTEM_RESET : Z;
  PSCI_PSCI_FEATURES : Z;
  PSCI_SYSTEM_SUSPEND : Z
}.

(** Modelled from the spec: [CRU_CLKGATE_CON_CNT] comes from [cru.h];
    the specification counts sixteen clock-gate domains, and the gating
    table of the C file has sixteen initialisers. *)
Definition CRU_CLKGATE_CON_CNT : nat := 16.

(** ** Hardware-driven register values

    The core-status register and the PLL status words are driven by the
    hardware, not by what software stored.  The device is deterministic:
    the word a read returns is a function of everything that has
    happened so far. *)
Class Device : Type := {
  grf_cpu_status1 : list event -> Z;
  cru_pll_con1 : Z -> list event -> Z
}.

(** ** Machine state *)

Record dram_data : Type := mk_dram_data {
  cru_mode_con : Z;
  cru_clksel0 : Z;
  cru_clksel1 : Z;
  cru_clksel10 : Z;
  cru_clksel21 : Z;
  cru_clkgate : list Z
}.

Record machine : Type := mk_machine {
  cru : cru_reg -> Z;          (* write-masked CRU registers *)
  isram : isram_word -> Z;     (* secure handoff record *)
  ns_entry_addrs : list Z;     (* one slot per core *)
  dram_d : dram_data;          (* saved clock and PLL snapshot *)
  core_pos : Z;                (* what get_core_pos() returns *)
  trace : list event           (* oldest action first *)
}.

Definition set_cru (c : cru_reg -> Z) (s : machine) : machine :=
  mk_machine c (isram s) (ns_entry_addrs s) (dram_d s) (core_pos s) (trace s).
Definition set_isram (m : isram_word -> Z) (s : machine) : machine :=
  mk_machine (cru s) m (ns_entry_addrs s) (dram_d s) (core_pos s) (trace s).
Definition set_ns_entry_addrs (l : list Z) (s : machine) : machine :=
  mk_machine (cru s) (isram s) l (dram_d s) (core_pos s) (trace s).
Definition set_dram_d (d : dram_data) (s : machine) : machine :=
  mk_machine (cru s) (isram s) (ns_entry_addrs s) d (core_pos s) (trace s).
Definition set_trace (t : list event) (s : machine) : machine :=
  mk_machine (cru s) (isram s) (ns_entry_addrs s) (dram_d s) (core_pos s) t.

Definition emit (t : list event) (s : machine) : machine :=
  set_trace (trace s ++ t) s.

Definition set_cru_mode_con (v : Z) (d : dram_data) : dram_data :=
  mk_dram_data v (cru_clksel0 d) (cru_clksel1 d) (cru_clksel10 d) (cru_clksel21 d)
               (cru_clkgate d).
Definition set_cru_clksel0 (v : Z) (d : dram_data) : dram_data :=
  mk_dram_data (cru_mode_con d) v (cru_clksel1 d) (cru_clksel10 d) (cru_clksel21 d)
               (cru_clkgate d).
Definition set_cru_clksel1 (v : Z) (d : dram_data) : dram_data :=
  mk_dram_data (cru_mode_con d) (cru_clksel0 d) v (cru_clksel10 d) (cru_clksel21 d)
               (cru_clkgate d).
Definition set_cru_clksel10 (v : Z) (d : dram_data) : dram_data :=
  mk_dram_data (cru_mode_con d) (cru_clksel0 d) (cru_clksel1 d) v (cru_clksel21 d)
               (cru_clkgate d).
Definition set_cru_clksel21 (v : Z) (d : dram_data) : dram_data :=
  mk_dram_data (cru_mode_con d) (cru_clksel0 d) (cru_clksel1 d) (cru_clksel10 d) v
               (cru_clkgate d).
(** [dram_d.cru_clkgate[i] = v]; the code only uses indices below
    [CRU_CLKGATE_CON_CNT], the size of the array. *)
Definition set_cru_clkgate (i : nat) (v : Z) (d : dram_data) : dram_data :=
  mk_dram_data (cru_mode_con d) (cru_clksel0 d) (cru_clksel1 d)
               (cru_clksel10 d) (cru_clksel21 d) (<[i := v]> (cru_clkgate d)).

(** ** The monad *)

Inductive outcome (A : Type) : Type :=
| Done (a : A) (s : machine)   (* the function returned [a] *)
| Halt (s : machine)           (* panic(): the system stopped in [s] *)
| Spin (s : machine).          (* still looping when the budget ran out *)
Arguments Done {A} a s.
Arguments Halt {A} s.
Arguments Spin {A} s.

Definition final {A} (o : outcome A) : machine :=
  match o with Done _ s | Halt s | Spin s => s end.

Definition M (A : Type) : Type := machine -> outcome A.

Definition ret {A} (a : A) : M A := fun s => Done a s.

Definition bind {A B} (m : M A) (k : A -> M B) : M B := fun s =>
  match m s with
  | Done a s' => k a s'
  | Halt s' => Halt s'
  | Spin s' => Spin s'
  end.

Notation "x <- m ;; k" := (bind m (fun x => k))
  (at level 100, m at next level, right associativity).
Notation "m ;; k" := (bind m (fun _ => k))
  (at level 100, right associativity).

(** [while (cond) body], with the loop-carried locals in [a].  [fuel]
    bounds the number of times the condition is evaluated. *)
Fixpoint while_loop {A} (fuel : nat) (cond : A -> M bool) (body : A -> M A)
    (a : A) : M A :=
  match fuel with
  | O => fun s => Spin s
  | S n => b <- cond a ;;
           if b : bool then a' <- body a ;; while_loop n cond body a'
           else ret a
  end.

(** [for (i = lo; i < lo + n; i++) body(i)] with compile-time bounds. *)
Fixpoint for_range (lo n : nat) (body : nat -> M unit) : M unit :=
  match n with
  | O => ret tt
  | S k => body lo ;; for_range (S lo) k body
  end.

Section Model.
Context {P : Platform} {D : Device}.

(** ** Primitives *)

Definition log (e : event) : M unit := fun s => Done tt (emit [e] s).

(** The word the hardware presents at address [a] in state [s]. *)
Definition load (a : addr) (s : machine) : Z :=
  match a with
  | CRU_BASE (CRU_PLL_CON1 pll) => cru_pll_con1 pll (trace s)
  | CRU_BASE r => cru s r
  | GRF_BASE GRF_CPU_STATUS1 => grf_cpu_status1 (trace s)
  | ISRAM_BASE w => isram s w
  end.

Definition read32 (a : addr) : M Z := fun s =>
  let v := load a s in Done v (emit [EvRead a v] s).

(** What a write of [v] to [a] does to the hardware: the CRU registers
    are write-masked, the status register is read-only, the SRAM is
    plain memory. *)
Definition store (a : addr) (v : Z) (s : machine) : machine :=
  match a with
  | CRU_BASE r => set_cru (<[r := masked_write (cru s r) v]> (cru s)) s
  | GRF_BASE _ => s
  | ISRAM_BASE w => set_isram (<[w := v]> (isram s)) s
  end.

Definition write32 (v : Z) (a : addr) : M unit := fun s =>
  Done tt (emit [EvWrite a v] (store a v s)).

Definition dsb : M unit := log EvDsb.
Definition sev : M unit := log EvSev.
Definition wfi : M unit := log EvWfi.
Definition udelay (us : Z) : M unit := log (EvUdelay us).
Definition cache_op_inner : M unit := log EvCacheOp.
Definition psci_armv7_cpu_off : M unit := log EvArmv7CpuOff.
Definition thread_mask_exceptions (m : Z) : M unit := log (EvMaskExceptions m).
Definition panic {A} : M A := fun s => Halt (emit [EvPanic] s).
Definition get_core_pos : M Z := fun s => Done (core_pos s) s.

(** [DMSG(...)]: the message goes to the console, which is outside the
    model; its arguments are evaluated only in a debug build.  [EMSG]
    arguments in this file have no effect of their own. *)
Definition DMSG (args : M unit) : M unit :=
  if TRACE_DEBUG_ENABLED then args else ret tt.
Definition EMSG : M unit := ret tt.

(** Access to the C file's global [dram_d]. *)
Definition get_dram_d : M dram_data := fun s => Done (dram_d s) s.
Definition modify_dram_d (f : dram_data -> dram_data) : M unit := fun s =>
  Done tt (set_dram_d (f (dram_d s)) s).

(** ** psci_rk322x.c *)

Definition clks_gating_table : list Z :=
  [ 0xefb8; 0x0ff7; 0xfff4; 0x887f;
    0x0030; 0x00f8; 0x07e0; 0xc000;
    0xff84; 0xb047; 0x1ca0; 0x57ff;
    0x0000; 0x00ff; 0x1cc0; 0x000f ].

Definition clks_disable : M unit :=
  for_range 0 CRU_CLKGATE_CON_CNT (fun i =>
    v <- read32 (CRU_BASE (CRU_CLKGATE_CON (Z.of_nat i))) ;;
    modify_dram_d (set_cru_clkgate i v) ;;
    write32 (BITS_WITH_WMASK (clks_gating_table !!! i) 0xffff 0)
            (CRU_BASE (CRU_CLKGATE_CON (Z.of_nat i)))).

Definition clks_restore : M unit :=
  for_range 0 CRU_CLKGATE_CON_CNT (fun i =>
    d <- get_dram_d ;;
    write32 (BITS_WITH_WMASK (cru_clkgate d !!! i) 0xffff 0)
            (CRU_BASE (CRU_CLKGATE_CON (Z.of_nat i)))).

Definition pll_power_down (pll : Z) : M unit :=
  write32 (PLL_SLOW_MODE pll) (CRU_BASE CRU_MODE_CON) ;;
  write32 PLL_POWER_DOWN (CRU_BASE (CRU_PLL_CON1 pll)).

Definition pll_power_up (pll : Z) : M unit :=
  write32 PLL_POWER_UP (CRU_BASE (CRU_PLL_CON1 pll)).

Definition pll_wait_lock (fuel : nat) (pll : Z) : M unit :=
  while_loop fuel
    (fun loop => v <- read32 (CRU_BASE (CRU_PLL_CON1 pll)) ;;
                 ret (negb (nonzero (Z.land v PLL_LOCK)) && (loop <? 500)))
    (fun loop => udelay 2 ;; ret (u32 (loop + 1)))
    0 ;;
  v <- read32 (CRU_BASE (CRU_PLL_CON1 pll)) ;;
  if negb (nonzero (Z.land v PLL_LOCK)) then EMSG ;; panic else ret tt.

Definition plls_power_down : M unit :=
  v <- read32 (CRU_BASE (CRU_CLKSEL_CON 0)) ;; modify_dram_d (set_cru_clksel0 v) ;;
  v <- read32 (CRU_BASE (CRU_CLKSEL_CON 1)) ;; modify_dram_d (set_cru_clksel1 v) ;;
  v <- read32 (CRU_BASE (CRU_CLKSEL_CON 10)) ;; modify_dram_d (set_cru_clksel10 v) ;;
  v <- read32 (CRU_BASE (CRU_CLKSEL_CON 21)) ;; modify_dram_d (set_cru_clksel21 v) ;;
  v <- read32 (CRU_BASE CRU_MODE_CON) ;; modify_dram_d (set_cru_mode_con v) ;;
  pll_power_down GPLL_ID ;;
  pll_power_down CPLL_ID ;;
  pll_power_down APLL_ID ;;
  (* core *)
  write32 (BITS_WITH_WMASK 0 0x1f 0) (CRU_BASE (CRU_CLKSEL_CON 0)) ;;
  write32 (Z.lor (BITS_WITH_WMASK 0 0xf 0) (BITS_WITH_WMASK 0 0x7 4))
          (CRU_BASE (CRU_CLKSEL_CON 1)) ;;
  (* peri aclk, hclk, pclk *)
  write32 (Z.lor (Z.lor (BITS_WITH_WMASK 0 0x1f 0) (BITS_WITH_WMASK 0 0x3 8))
                 (BITS_WITH_WMASK 0 0x7 12))
          (CRU_BASE (CRU_CLKSEL_CON 10)) ;;
  (* pdbus *)
  write32 (BITS_WITH_WMASK 0 0x1f 8) (CRU_BASE (CRU_CLKSEL_CON 0)) ;;
  write32 (Z.lor (BITS_WITH_WMASK 0 0x3 8) (BITS_WITH_WMASK 0 0x7 12))
          (CRU_BASE (CRU_CLKSEL_CON 1)) ;;
  (* hdmi cec 32k *)
  write32 (Z.lor (BITS_WITH_WMASK 732 0x3fff 0) (BITS_WITH_WMASK 2 0x3 14))
          (CRU_BASE (CRU_CLKSEL_CON 21)).

Definition plls_restore (fuel : nat) : M unit :=
  (* power up plls *)
  pll_power_up APLL_ID ;;
  pll_power_up GPLL_ID ;;
  pll_power_up CPLL_ID ;;
  udelay 200 ;;
  (* wait lock *)
  pll_wait_lock fuel APLL_ID ;;
  pll_wait_lock fuel GPLL_ID ;;
  pll_wait_lock fuel CPLL_ID ;;
  d <- get_dram_d ;;
  (* hdmi cec 32k *)
  write32 (Z.lor (Z.lor (cru_clksel21 d) (BITS_WMSK 0x3fff 0)) (BITS_WMSK 0x3 14))
          (CRU_BASE (CRU_CLKSEL_CON 21)) ;;
  (* pdbus *)
  write32 (Z.lor (cru_clksel0 d) (BITS_WMSK 0x1f 8)) (CRU_BASE (CRU_CLKSEL_CON 0)) ;;
  write32 (Z.lor (Z.lor (cru_clksel1 d) (BITS_WMSK 0x3 8)) (BITS_WMSK 0x7 12))
          (CRU_BASE (CRU_CLKSEL_CON 1)) ;;
  (* peri aclk, hclk, pclk *)
  write32 (Z.lor (Z.lor (Z.lor (cru_clksel10 d) (BITS_WMSK 0x1f 0)) (BITS_WMSK 0x3 8))
                 (BITS_WMSK 0x7 12))
          (CRU_BASE (CRU_CLKSEL_CON 10)) ;;
  (* core *)
  write32 (Z.lor (cru_clksel0 d) (BITS_WMSK 0x1f 0)) (CRU_BASE (CRU_CLKSEL_CON 0)) ;;
  write32 (Z.lor (Z.lor (cru_clksel1 d) (BITS_WMSK 0xf 0)) (BITS_WMSK 0x7 4))
          (CRU_BASE (CRU_CLKSEL_CON 1)) ;;
  (* resume plls mode *)
  write32 (Z.lor (cru_mode_con d) (BITS_WMSK 0x1 (PLL_MODE_BIT APLL_ID)))
          (CRU_BASE CRU_MODE_CON) ;;
  write32 (Z.lor (cru_mode_con d) (BITS_WMSK 0x1 (PLL_MODE_BIT CPLL_ID)))
          (CRU_BASE CRU_MODE_CON) ;;
  write32 (Z.lor (cru_mode_con d) (BITS_WMSK 0x1 (PLL_MODE_BIT GPLL_ID)))
          (CRU_BASE CRU_MODE_CON).

Definition wait_core_wfe_i (fuel : nat) (core : Z) : M bool :=
  let wfei_mask := CORE_WFE_I_MASK core in
  while_loop fuel
    (fun loop => v <- read32 (GRF_BASE GRF_CPU_STATUS1) ;;
                 ret (negb (nonzero (Z.land v wfei_mask)) && (loop <? 500)))
    (fun loop => udelay 2 ;; ret (u32 (loop + 1)))
    0 ;;
  v <- read32 (GRF_BASE GRF_CPU_STATUS1) ;;
  ret (nonzero (Z.land v wfei_mask)).

Definition core_held_in_reset (core : Z) : M bool :=
  val <- read32 (CRU_BASE (CRU_SOFTRST_CON 0)) ;;
  ret (nonzero (Z.land val (CORE_HELD_IN_RESET core))).

Definition psci_version : Z := PSCI_VERSION_1_0.

Definition psci_features (psci_fid : Z) : psci_ret :=
  if (psci_fid =? PSCI_PSCI_FEATURES) || (psci_fid =? PSCI_VERSION)
     || (psci_fid =? PSCI_CPU_ON) || (psci_fid =? PSCI_CPU_OFF)
     || (psci_fid =? PSCI_SYSTEM_SUSPEND) || (psci_fid =? PSCI_SYSTEM_RESET)
  then PSCI_RET_SUCCESS
  else PSCI_RET_NOT_SUPPORTED.

(** [ns_entry_addrs[core_idx] = entry].  The guard of [psci_cpu_on]
    keeps the index below [CFG_TEE_CORE_NB_CORE], the size of the C
    array; on a shorter list the update has no effect. *)
Definition store_ns_entry (core_idx entry : Z) : M unit := fun s =>
  Done tt (emit [EvStoreEntry core_idx entry]
             (set_ns_entry_addrs (<[Z.to_nat core_idx := entry]> (ns_entry_addrs s)) s)).

Definition psci_cpu_on (fuel : nat) (core_idx entry context_id : Z) : M psci_ret :=
  let core_idx := Z.land core_idx MPIDR_CPU_MASK in
  if (core_idx =? 0) || (CFG_TEE_CORE_NB_CORE <=? core_idx)
  then ret PSCI_RET_INVALID_PARAMETERS
  else
    DMSG (ret tt) ;;
    (* set secondary cores' NS entry addresses *)
    store_ns_entry core_idx entry ;;
    let after_first_wait : M psci_ret :=
      (* soft reset core *)
      write32 (CORE_SOFT_RESET core_idx) (CRU_BASE (CRU_SOFTRST_CON 0)) ;;
      dsb ;;
      udelay 2 ;;
      (* soft release core *)
      write32 (CORE_SOFT_RELEASE core_idx) (CRU_BASE (CRU_SOFTRST_CON 0)) ;;
      dsb ;;
      (* wait *)
      wfei <- wait_core_wfe_i fuel core_idx ;;
      if negb wfei then EMSG ;; ret PSCI_RET_DENIED
      else
        (* set secondary secure entry address and lock tag *)
        write32 CFG_TEE_LOAD_ADDR (ISRAM_BASE BOOT_ADDR_OFFSET) ;;
        write32 LOCK_TAG (ISRAM_BASE LOCK_ADDR_OFFSET) ;;
        dsb ;;
        sev ;;
        dsb ;;
        ret PSCI_RET_SUCCESS in
    (* wait *)
    held <- core_held_in_reset core_idx ;;
    if negb held then
      wfei <- wait_core_wfe_i fuel core_idx ;;
      if negb wfei then EMSG ;; ret PSCI_RET_DENIED
      else after_first_wait
    else after_first_wait.

Definition psci_cpu_off (fuel : nat) : M psci_ret :=
  core <- get_core_pos ;;
  if (core =? 0) || (CFG_TEE_CORE_NB_CORE <=? core)
  then ret PSCI_RET_INVALID_PARAMETERS
  else
    DMSG (ret tt) ;;
    psci_armv7_cpu_off ;;
    thread_mask_exceptions THREAD_EXCP_ALL ;;
    while_loop fuel (fun _ => ret true) (fun _ => wfi) tt ;;
    ret PSCI_RET_INTERNAL_FAILURE.

Definition psci_affinity_info (affinity lowest_affnity_level : Z) : M psci_affinity :=
  let core_idx := Z.land affinity MPIDR_CPU_MASK in
  let wfi_mask := CORE_WFI_MASK core_idx in
  DMSG (_ <- read32 (GRF_BASE GRF_CPU_STATUS1) ;; ret tt) ;;
  v <- read32 (GRF_BASE GRF_CPU_STATUS1) ;;
  ret (if nonzero (Z.land v wfi_mask)
       then PSCI_AFFINITY_LEVEL_OFF else PSCI_AFFINITY_LEVEL_ON).

Definition psci_system_suspend (fuel : nat) (entry context_id : Z) : M psci_ret :=
  DMSG (ret tt) ;;
  clks_disable ;;
  plls_power_down ;;
  cache_op_inner ;;
  wfi ;;
  plls_restore fuel ;;
  clks_restore ;;
  ret PSCI_RET_SUCCESS.

End Model.

(** ** The rk322x build

    The values the absent headers give these constants on rk322x
    ([arm.h], [conf.mk], [common.h], [cru.h], [grf.h], [sm/psci.h]);
    used to run the model on concrete inputs. *)
Definition rk322x : Platform := {|
  CFG_TEE_CORE_NB_CORE := 4;
  MPIDR_CPU_MASK := 0xff;
  CFG_TEE_LOAD_ADDR := 0x68400000;
  LOCK_TAG := 0xdeadbeaf;
  THREAD_EXCP_ALL := 7;
  TRACE_DEBUG_ENABLED := false;
  APLL_ID := 0;
  CPLL_ID := 2;
  GPLL_ID := 3;
  PLL_LOCK := SHIFT_U32 1 10;
  PLL_POWER_UP := BITS_WITH_WMASK 0 1 13;
  PLL_POWER_DOWN := BITS_WITH_WMASK 1 1 13;
  PLL_MODE_BIT := fun id => id * 4;
  PLL_SLOW_MODE := fun id => BITS_WITH_WMASK 0 1 (id * 4);
  CORE_SOFT_RESET := fun core => SHIFT_U32 0x100010 core;
  CORE_SOFT_RELEASE := fun core => SHIFT_U32 0x100000 core;
  CORE_HELD_IN_RESET := fun core => SHIFT_U32 0x000010 core;
  CORE_WFE_I_MASK := fun core => Z.lor (SHIFT_U32 0x20 core) (SHIFT_U32 0x02 core);
  CORE_WFI_MASK := fun core => SHIFT_U32 0x20 core;
  PSCI_VERSION_1_0 := 0x00010000;
  PSCI_VERSION := 0x84000000;
  PSCI_CPU_OFF := 0x84000002;
  PSCI_CPU_ON := 0x84000003;
  PSCI_SYSTEM_RESET := 0x84000009;
  PSCI_PSCI_FEATURES := 0x8400000a;
  PSCI_SYSTEM_SUSPEND := 0x8400000e
|}.

(** The same build with debug traces compiled in. *)
Definition rk322x_debug : Platform := {|
  CFG_TEE_CORE_NB_CORE := 4;
  MPIDR_CPU_MASK := 0xff;
  CFG_TEE_LOAD_ADDR := 0x68400000;
  LOCK_TAG := 0xdeadbeaf;
  THREAD_EXCP_ALL := 7;
  TRACE_DEBUG_ENABLED := true;
  APLL_ID := 0;
  CPLL_ID := 2;
  GPLL_ID := 3;
  PLL_LOCK := SHIFT_U32 1 10;
  PLL_POWER_UP := BITS_WITH_WMASK 0 1 13;
  PLL_POWER_DOWN := BITS_WITH_WMASK 1 1 13;
  PLL_MODE_BIT := fun id => id * 4;
  PLL_SLOW_MODE := fun id => BITS_WITH_WMASK 0 1 (id * 4);
  CORE_SOFT_RESET := fun core => SHIFT_U32 0x100010 core;
  CORE_SOFT_RELEASE := fun core => SHIFT_U32 0x100000 core;
  CORE_HELD_IN_RESET := fun core => SHIFT_U32 0x000010 core;
  CORE_WFE_I_MASK := fun core => Z.lor (SHIFT_U32 0x20 core) (SHIFT_U32 0x02 core);
  CORE_WFI_MASK := fun core => SHIFT_U32 0x20 core;
  PSCI_VERSION_1_0 := 0x00010000;
  PSCI_VERSION := 0x84000000;
  PSCI_CPU_OFF := 0x84000002;
  PSCI_CPU_ON := 0x84000003;
  PSCI_SYSTEM_RESET := 0x84000009;
  PSCI_PSCI_FEATURES := 0x8400000a;
  PSCI_SYSTEM_SUSPEND := 0x8400000e
|}.

(** Every secondary core sits in wait-for-event/interrupt and every PLL
    reports lock. *)
Definition parked_device : Device := {|
  grf_cpu_status1 := fun _ => 0xffffffff;
  cru_pll_con1 := fun _ _ => 0x400
|}.

(** No core ever reaches wait-for-event and no PLL ever locks. *)
Definition wedged_device : Device := {|
  grf_cpu_status1 := fun _ => 0;
  cru_pll_con1 := fun _ _ => 0
|}.

(** A core is seen waiting only while no reset-control write has been
    issued: it is lost once the reset sequence has run. *)
Definition is_softrst_write (e : event) : bool :=
  match e with
  | EvWrite (CRU_BASE (CRU_SOFTRST_CON _)) _ => true
  | _ => false
  end.

Definition lost_after_reset_device : Device := {|
  grf_cpu_status1 := fun h => if existsb is_softrst_write h then 0 else 0xffffffff;
  cru_pll_con1 := fun _ _ => 0x400
|}.

(** A machine after boot: cores 1 to 3 held in reset, some clock
    configuration in place, running on core [pos]. *)
Definition boot_cru (r : cru_reg) : Z :=
  match r with
  | CRU_SOFTRST_CON 0 => 0x00e0
  | CRU_MODE_CON => 0x1101
  | CRU_CLKSEL_CON i => 0x5a5a + i
  | CRU_CLKGATE_CON i => 0x0f0f + i
  | _ => 0
  end.

Definition boot_machine (pos : Z) : machine :=
  mk_machine boot_cru (fun _ => 0) [0; 0; 0; 0]
             (mk_dram_data 0 0 0 0 0 (replicate 16 0)) pos [].

(** The same with no core held in reset. *)
Definition running_machine (pos : Z) : machine :=
  set_cru (fun r => match r with CRU_SOFTRST_CON _ => 0 | _ => boot_cru r end)
          (boot_machine pos).

(** ** Vocabulary for statements about the log *)

Definition is_write (e : event) : bool :=
  match e with EvWrite _ _ => true | _ => false end.

Definition is_isram_write (e : event) : bool :=
  match e with EvWrite (ISRAM_BASE _) _ => true | _ => false end.

Definition is_udelay (e : event) : bool :=
  match e with EvUdelay _ => true | _ => false end.

(** One step of a polling loop on register [a]: a read of [a] or a
    two-microsecond delay. *)
Definition is_poll (a : addr) (e : event) : bool :=
  match e with
  | EvRead a' _ => bool_decide (a' = a)
  | EvUdelay us => us =? 2
  | _ => false
  end.

Definition count_udelay (t : list event) : nat := length (List.filter is_udelay t).

(** [e1] occurs somewhere before [e2] in [t]. *)
Definition precedes (e1 e2 : event) (t : list event) : Prop :=
  exists l1 l2 l3, t = l1 ++ e1 :: l2 ++ e2 :: l3.

(** The decoding of a sampled status word by [psci_affinity_info]. *)
Definition flip_affinity (r : psci_affinity) : psci_affinity :=
  match r with
  | PSCI_AFFINITY_LEVEL_ON => PSCI_AFFINITY_LEVEL_OFF
  | PSCI_AFFINITY_LEVEL_OFF => PSCI_AFFINITY_LEVEL_ON
  end.

(** The log of one run of [wait_core_wfe_i] on [core]: polls, then the
    closing sample, whose mask test is [ok]. *)
Definition wfe_wait_log {P : Platform} (core : Z) (ok : bool) (w : list event) : Prop :=
  exists t v,
    w = t ++ [EvRead (GRF_BASE GRF_CPU_STATUS1) v] /\
    Forall (fun e => is_poll (GRF_BASE GRF_CPU_STATUS1) e = true) t /\
    (count_udelay t <= 500)%nat /\
    nonzero (Z.land v (CORE_WFE_I_MASK core)) = ok.

(** The reset pulse and the secure handoff of [psci_cpu_on]. *)
Definition reset_sequence {P : Platform} (core : Z) : list event :=
  [ EvWrite (CRU_BASE (CRU_SOFTRST_CON 0)) (CORE_SOFT_RESET core); EvDsb; EvUdelay 2;
    EvWrite (CRU_BASE (CRU_SOFTRST_CON 0)) (CORE_SOFT_RELEASE core); EvDsb ].

Definition handoff_sequence {P : Platform} : list event :=
  [ EvWrite (ISRAM_BASE BOOT_ADDR_OFFSET) CFG_TEE_LOAD_ADDR;
    EvWrite (ISRAM_BASE LOCK_ADDR_OFFSET) LOCK_TAG; EvDsb; EvSev; EvDsb ].

(** What precedes the reset pulse once the held-in-reset word [hv] has
    been read: nothing if the core is held in reset, a successful wait
    otherwise. *)
Definition first_wait_log {P : Platform} (core hv : Z) (w : list event) : Prop :=
  (nonzero (Z.land hv (CORE_HELD_IN_RESET core)) = true /\ w = []) \/
  (nonzero (Z.land hv (CORE_HELD_IN_RESET core)) = false /\ wfe_wait_log core true w).

(** The three ways a call of [psci_cpu_on] with a valid core can go,
    with the result and the log of each. *)
Inductive cpu_on_log {P : Platform} (core entry hv : Z) : psci_ret -> list event -> Prop :=
| log_denied_before (w1 : list event) :
    nonzero (Z.land hv (CORE_HELD_IN_RESET core)) = false ->
    wfe_wait_log core false w1 ->
    cpu_on_log core entry hv PSCI_RET_DENIED
      ([EvStoreEntry core entry; EvRead (CRU_BASE (CRU_SOFTRST_CON 0)) hv] ++ w1)
| log_denied_after (w1 w2 : list event) :
    first_wait_log core hv w1 ->
    wfe_wait_log core false w2 ->
    cpu_on_log core entry hv PSCI_RET_DENIED
      ([EvStoreEntry core entry; EvRead (CRU_BASE (CRU_SOFTRST_CON 0)) hv] ++ w1 ++
       reset_sequence core ++ w2)
| log_success (w1 w2 : list event) :
    first_wait_log core hv w1 ->
    wfe_wait_log core true w2 ->
    cpu_on_log core entry hv PSCI_RET_SUCCESS
      ([EvStoreEntry core entry; EvRead (CRU_BASE (CRU_SOFTRST_CON 0)) hv] ++ w1 ++
       reset_sequence core ++ w2 ++ handoff_sequence).

(** How a sampled status word [v] and a core's wait-for-interrupt mask
    determine an affinity answer. *)
Definition affinity_of_status (wfi_mask v : Z) : psci_affinity :=
  if nonzero (Z.land v wfi_mask) then PSCI_AFFINITY_LEVEL_OFF else PSCI_AFFINITY_LEVEL_ON.

Definition is_status_read (e : event) : bool :=
  match e with EvRead (GRF_BASE GRF_CPU_STATUS1) _ => true | _ => false end.

(** What the suspend path relies on in [cru.h]: the slow-mode word of a
    PLL clears that PLL's mode bit under its own write-enable bit, and
    mode bits sit in the lower half-word. *)
Definition pll_mode_layout {P : Platform} : Prop :=
  Forall (fun id => 0 <= PLL_MODE_BIT id /\
                    PLL_SLOW_MODE id = BITS_WITH_WMASK 0 1 (PLL_MODE_BIT id))
         [APLL_ID; CPLL_ID; GPLL_ID].

(** [cur] and [x] have the same bits outside the set [d]. *)
Definition agree (d cur x : Z) : Prop :=
  forall n, Z.testbit d n = false -> Z.testbit cur n = Z.testbit x n.

(** A symbolic view of a machine state: the configuration registers of
    the CRU (all but the hardware-driven PLL words) and the snapshot. *)
Definition tracks (C : cru_reg -> Z) (Dd : dram_data) (s : machine) : Prop :=
  (forall r, (forall p, r <> CRU_PLL_CON1 p) -> cru s r = C r) /\ dram_d s = Dd.

(** What a run returned, if it returned. *)
Definition result {A} (o : outcome A) : option A :=
  match o with Done a _ => Some a | Halt _ | Spin _ => None end.

(** ** Vocabulary for what a run leaves alone *)

(** [m] relates every start state to the state it ends in (returned,
    halted or still spinning) by [R]. *)
Definition keeps {A} (R : machine -> machine -> Prop) (m : M A) : Prop :=
  forall s, R s (final (m s)).

(** What [psci_cpu_on] may change besides the log and the SRAM: the
    reset-control register and one slot of the entry table. *)
Definition cpu_on_frame (slot : nat) (s s' : machine) : Prop :=
  dram_d s' = dram_d s /\
  core_pos s' = core_pos s /\
  (forall r, r <> CRU_SOFTRST_CON 0 -> cru s' r = cru s r) /\
  length (ns_entry_addrs s') = length (ns_entry_addrs s) /\
  (forall i, i <> slot -> ns_entry_addrs s' !! i = ns_entry_addrs s !! i).

(** What [psci_system_suspend] never touches. *)
Definition suspend_frame (s s' : machine) : Prop :=
  isram s' = isram s /\
  ns_entry_addrs s' = ns_entry_addrs s /\
  core_pos s' = core_pos s /\
  (forall i, cru s' (CRU_SOFTRST_CON i) = cru s (CRU_SOFTRST_CON i)) /\
  length (cru_clkgate (dram_d s')) = length (cru_clkgate (dram_d s)).

(** Microseconds spent in [udelay] according to a log. *)
Definition total_delay (t : list event) : Z :=
  fold_right (fun e acc => match e with EvUdelay us => us + acc | _ => acc end) 0 t.

(** The layout of the per-core reset macros of [cru.h] on rk322x-like
    parts: value bit [4 + core] under write-enable bit [20 + core]. *)
Definition softrst_layout {P : Platform} (core : Z) : Prop :=
  CORE_SOFT_RESET core = SHIFT_U32 0x100010 core /\
  CORE_SOFT_RELEASE core = SHIFT_U32 0x100000 core /\
  CORE_HELD_IN_RESET core = SHIFT_U32 0x000010 core.

(** Constants of [reset_nonboot_cores], from headers that are not among
    the sources. *)
Class BootConstants : Type := {
  NONBOOT_CORES_SOFT_RESET : Z;
  TEE_SUCCESS : Z
}.

(** When SMP bootup, we release cores one by one. *)
Definition reset_nonboot_cores {B : BootConstants} : M Z :=
  write32 NONBOOT_CORES_SOFT_RESET (CRU_BASE (CRU_SOFTRST_CON 0)) ;;
  ret TEE_SUCCESS.

Definition rk322x_boot : BootConstants := {|
  NONBOOT_CORES_SOFT_RESET := 0x00e000e0;
  TEE_SUCCESS := 0
|}.

(** The log of [n] unsuccessful rounds of a polling loop on [a]: each
    sample [x] of [vs] is followed by the two-microsecond delay. *)
Definition poll_rounds (a : addr) (vs : list Z) : list event :=
  flat_map (fun x => [EvRead a x; EvUdelay 2]) vs.

(** ** Vocabulary for what a run logs and how long it waits *)

Definition is_cru_access (e : event) : bool :=
  match e with
  | EvRead (CRU_BASE _) _ | EvWrite (CRU_BASE _) _ => true
  | _ => false
  end.

Definition is_resume_event (e : event) : bool :=
  match e with
  | EvRead (CRU_BASE _) _ | EvWrite (CRU_BASE _) _ | EvUdelay _ | EvPanic => true
  | _ => false
  end.

(** From every start state, [m] (returned, halted or still spinning)
    has logged only events of [Q] and programmed at most [n]
    microseconds of delay. *)
Definition spends {A} (Q : event -> bool) (n : Z) (m : M A) : Prop :=
  forall s, exists t,
    trace (final (m s)) = trace s ++ t /\
    Forall (fun e => Q e = true) t /\
    0 <= total_delay t <= n.

(** * The device drivers

    [core/drivers/hi16xx_uart.c] and [core/drivers/dra7_rng.c] talk to
    their device through [read32] and [write32] at numeric addresses;
    they share nothing with the PSCI code above and get a small I/O
    monad of their own. *)

Definition u16 (x : Z) : Z := x mod 2 ^ 16.
Definition u64 (x : Z) : Z := x mod 2 ^ 64.

(** [util.h]: [SHIFT_U64(v, shift)] is [(uint64_t)(v) << (shift)] and
    [BIT(nr)] is [1 << nr]. *)
Definition SHIFT_U64 (v shift : Z) : Z := u64 (Z.shiftl v shift).
Definition BIT (nr : Z) : Z := Z.shiftl 1 nr.

Module Io.

Inductive event : Type :=
| Read (a v : Z)     (* read32(a) returned v *)
| Write (a v : Z)    (* write32(v, a) *)
| MutexLock
| MutexUnlock.

(** [answer h a] is the word the device presents at address [a] after
    the accesses [h]. *)
Class Device : Type := { answer : list event -> Z -> Z }.

(** The statics of a driver and the accesses made so far. *)
Record world (St : Type) : Type := mk_world {
  statics : St;
  history : list event
}.
Arguments mk_world {St} _ _.
Arguments statics {St} _.
Arguments history {St} _.

Inductive outcome (St A : Type) : Type :=
| Done (a : A) (w : world St)   (* the function returned [a] *)
| Spin (w : world St)           (* still looping when the budget ran out *)
| Fault (w : world St).         (* undefined behaviour in C *)
Arguments Done {St A} _ _.
Arguments Spin {St A} _.
Arguments Fault {St A} _.

Definition M (St A : Type) : Type := world St -> outcome St A.

Definition ret {St A} (a : A) : M St A := fun w => Done a w.

Definition bind {St A B} (m : M St A) (k : A -> M St B) : M St B := fun w =>
  match m w with
  | Done a w' => k a w'
  | Spin w' => Spin w'
  | Fault w' => Fault w'
  end.

Declare Scope io_scope.
Notation "x <- m ;; k" := (bind m (fun x => k))
  (at level 100, m at next level, right associativity) : io_scope.
Notation "m ;; k" := (bind m (fun _ => k))
  (at level 100, right associativity) : io_scope.

Definition emit {St} (t : list event) (w : world St) : world St :=
  mk_world (statics w) (history w ++ t).

Definition read32 {D : Device} {St} (a : Z) : M St Z := fun w =>
  let v := u32 (answer (history w) a) in Done v (emit [Read a v] w).

Definition write32 {St} (v a : Z) : M St unit := fun w =>
  Done tt (emit [Write a (u32 v)] w).

Definition mutex_lock {St} : M St unit := fun w => Done tt (emit [MutexLock] w).
Definition mutex_unlock {St} : M St unit := fun w => Done tt (emit [MutexUnlock] w).

Definition get {St} : M St St := fun w => Done (statics w) w.
Definition modify {St} (f : St -> St) : M St unit := fun w =>
  Done tt (mk_world (f (statics w)) (history w)).
Definition fault {St A} : M St A := fun w => Fault w.

(** [while (cond) body]; [fuel] bounds the number of times the
    condition is evaluated. *)
Fixpoint while_loop {St} (fuel : nat) (cond : M St bool) (body : M St unit) : M St unit :=
  match fuel with
  | O => fun w => Spin w
  | S n => bind cond (fun b => if b : bool then bind body (fun _ => while_loop n cond body)
                               else ret tt)
  end.

Definition final {St A} (o : outcome St A) : world St :=
  match o with Done _ w | Spin w | Fault w => w end.

End Io.

(** ** hi16xx_uart.c *)

Module Hi16xxUart.
Import Io.
#[local] Open Scope io_scope.

(** Register offsets *)
Definition UART_RBR : Z := 0x00.
Definition UART_THR : Z := 0x00.
Definition UART_DLL : Z := 0x00.
Definition UART_IEL : Z := 0x04.
Definition UART_DLH : Z := 0x04.
Definition UART_FCR : Z := 0x08.
Definition UART_LCR : Z := 0x0C.
Definition UART_USR : Z := 0x7C.

Definition UART_LCR_DLS8 : Z := 0x3.
Definition UART_LCR_DLAB : Z := 0x80.
Definition UART_FCR_FIFO_EN : Z := 0x1.

Definition UART_USR_TFE_BIT : Z := 2.
Definition UART_USR_RFNE_BIT : Z := 3.

(** [struct hi16xx_uart_data]: the physical base of the registers and
    whether the operations table of the chip is installed. *)
Record hi16xx_uart_data : Type := mk_hi16xx_uart_data {
  base_pa : Z;
  chip_ops : bool
}.

Section Driver.
Context {D : Device}.

(** [io_pa_or_va] of [io.h], which is not among the sources: the address
    at which the registers with a given physical base are accessed. *)
Variable io_pa_or_va : Z -> Z.

Definition chip_to_base (chip : hi16xx_uart_data) : Z := io_pa_or_va (base_pa chip).

Definition hi16xx_uart_flush (fuel : nat) (chip : hi16xx_uart_data) : M unit unit :=
  let base := chip_to_base chip in
  while_loop fuel
    (v <- read32 (base + UART_USR) ;; ret (negb (nonzero (Z.land v UART_USR_TFE_BIT))))
    (ret tt).

Definition hi16xx_uart_putc (fuel : nat) (chip : hi16xx_uart_data) (ch : Z) : M unit unit :=
  let base := chip_to_base chip in
  (* Wait until TX FIFO is empty *)
  while_loop fuel
    (v <- read32 (base + UART_USR) ;; ret (negb (nonzero (Z.land v UART_USR_TFE_BIT))))
    (ret tt) ;;
  (* Put character into TX FIFO *)
  write32 (Z.land ch 0xFF) (base + UART_THR).

Definition hi16xx_uart_have_rx_data (chip : hi16xx_uart_data) : M unit bool :=
  let base := chip_to_base chip in
  v <- read32 (base + UART_USR) ;;
  ret (nonzero (Z.land v UART_USR_RFNE_BIT)).

Definition hi16xx_uart_getchar (fuel : nat) (chip : hi16xx_uart_data) : M unit Z :=
  let base := chip_to_base chip in
  while_loop fuel
    (b <- hi16xx_uart_have_rx_data chip ;; ret (negb b))
    (ret tt) ;;
  v <- read32 (base + UART_RBR) ;;
  ret (Z.land v 0xFF).

(** [pd] is an out parameter: both its fields are assigned, and the
    model returns the new value.  The division is unsigned 32-bit and
    undefined for a zero divisor; [freq_div] is a [uint16_t]. *)
Definition hi16xx_uart_init (fuel : nat) (base uart_clk baud_rate : Z)
    : M unit hi16xx_uart_data :=
  let divisor := u32 (16 * baud_rate) in
  if divisor =? 0 then fault
  else
    let freq_div := u16 (u32 uart_clk / divisor) in
    let pd := mk_hi16xx_uart_data base true in
    (* Enable (and clear) FIFOs *)
    write32 UART_FCR_FIFO_EN (base + UART_FCR) ;;
    (* Enable access to _DLL and _DLH *)
    write32 UART_LCR_DLAB (base + UART_LCR) ;;
    (* Calculate and set UART_DLL *)
    write32 (Z.land freq_div 0xFF) (base + UART_DLL) ;;
    (* Calculate and set UART_DLH *)
    write32 (Z.land (Z.shiftr freq_div 8) 0xFF) (base + UART_DLH) ;;
    (* Clear _DLL/_DLH access bit, set data size (8 bits), parity etc. *)
    write32 UART_LCR_DLS8 (base + UART_LCR) ;;
    (* Disable interrupt mode *)
    write32 0 (base + UART_IEL) ;;
    hi16xx_uart_flush fuel pd ;;
    ret pd.

End Driver.
End Hi16xxUart.

(** ** dra7_rng.c *)

Module Dra7Rng.
Import Io.
#[local] Open Scope io_scope.

Definition RNG_OUTPUT_L : Z := 0x0000.
Definition RNG_OUTPUT_H : Z := 0x0004.
Definition RNG_STATUS : Z := 0x0008.
Definition RNG_READY : Z := BIT 0.
Definition SHUTDOWN_OFLO : Z := BIT 1.
Definition RNG_INTACK : Z := 0x0010.
Definition RNG_CONTROL : Z := 0x0014.
Definition ENABLE_TRNG : Z := BIT 10.
Definition RNG_CONFIG : Z := 0x0018.
Definition RNG_ALARMCNT : Z := 0x001C.
Definition RNG_FROENABLE : Z := 0x0020.
Definition RNG_FRODETUNE : Z := 0x0024.
Definition RNG_ALARMMASK : Z := 0x0028.
Definition RNG_ALARMSTOP : Z := 0x002C.
Definition RNG_SYS_CONFIG_REG : Z := 0x1FE4.
Definition RNG_AUTOIDLE : Z := BIT 0.
Definition RNG_SOFT_RESET_REG : Z := 0x1FF0.
Definition RNG_SOFT_RESET : Z := BIT 0.

Definition RNG_CONTROL_STARTUP_CYCLES_SHIFT : Z := 16.
Definition RNG_CONFIG_MAX_REFIL_CYCLES_SHIFT : Z := 16.
Definition RNG_CONFIG_MIN_REFIL_CYCLES_SHIFT : Z := 0.
Definition RNG_ALARMCNT_ALARM_TH_SHIFT : Z := 0x0.
Definition RNG_ALARMCNT_SHUTDOWN_TH_SHIFT : Z := 16.

Definition RNG_CONTROL_STARTUP_CYCLES : Z := 0xff.
Definition RNG_CONFIG_MIN_REFIL_CYCLES : Z := 0x21.
Definition RNG_CONFIG_MAX_REFIL_CYCLES : Z := 0x22.
Definition RNG_ALARM_THRESHOLD : Z := 0xff.
Definition RNG_SHUTDOWN_THRESHOLD : Z := 0x4.

Definition RNG_FRO_MASK : Z := 0xffffff.

(** The statics of the file: [va] of [rng_base]; [rng], [pos] and
    [random] of [hw_get_random_byte]. *)
Record rng_statics : Type := mk_rng_statics {
  va : Z;
  rng : Z;
  pos : Z;
  random_val : Z
}.

Definition set_va (v : Z) (st : rng_statics) : rng_statics :=
  mk_rng_statics v (rng st) (pos st) (random_val st).
Definition set_rng (v : Z) (st : rng_statics) : rng_statics :=
  mk_rng_statics (va st) v (pos st) (random_val st).
Definition set_pos (v : Z) (st : rng_statics) : rng_statics :=
  mk_rng_statics (va st) (rng st) v (random_val st).
Definition set_random_val (v : Z) (st : rng_statics) : rng_statics :=
  mk_rng_statics (va st) (rng st) (pos st) v.

(** [random.byte[i]] of the union over [random.val], as laid out on the
    little-endian cores this driver is built for. *)
Definition random_byte (val i : Z) : Z := Z.land (Z.shiftr val (8 * i)) 0xff.

Section Driver.
Context {D : Device}.

(** From headers that are not among the sources: the physical base of
    the device, whether the MMU is on, and the address translation. *)
Variable RNG_BASE : Z.
Variable cpu_mmu_enabled : bool.
Variable phys_to_virt : Z -> Z.
Variable TEE_SUCCESS : Z.

Definition rng_base : M rng_statics Z :=
  if cpu_mmu_enabled then
    st <- get ;;
    (if va st =? 0 then modify (set_va (phys_to_virt RNG_BASE)) else ret tt) ;;
    st <- get ;;
    ret (va st)
  else ret RNG_BASE.

(** [DMSG] output goes to the console, outside the model. *)
Definition hw_get_random_byte (fuel : nat) : M rng_statics Z :=
  mutex_lock ;;
  st <- get ;;
  (if rng st =? 0 then b <- rng_base ;; modify (set_rng b) else ret tt) ;;
  st <- get ;;
  (if pos st =? 0 then
     let rng := rng st in
     (* Is the result ready (available)? *)
     while_loop fuel
       (v <- read32 (rng + RNG_STATUS) ;; ret (negb (nonzero (Z.land v RNG_READY))))
       ((* Is the shutdown threshold reached? *)
        v <- read32 (rng + RNG_STATUS) ;;
        if nonzero (Z.land v SHUTDOWN_OFLO) then
          alarm <- read32 (rng + RNG_ALARMSTOP) ;;
          tuning <- read32 (rng + RNG_FRODETUNE) ;;
          (* Clear the alarm events *)
          write32 0x0 (rng + RNG_ALARMMASK) ;;
          write32 0x0 (rng + RNG_ALARMSTOP) ;;
          (* De-tune offending FROs *)
          write32 (Z.lxor tuning alarm) (rng + RNG_FRODETUNE) ;;
          (* Re-enable the shut down FROs *)
          write32 RNG_FRO_MASK (rng + RNG_FROENABLE) ;;
          (* Clear the shutdown overflow event *)
          write32 SHUTDOWN_OFLO (rng + RNG_INTACK)
        else ret tt) ;;
     (* Read random value *)
     lo <- read32 (rng + RNG_OUTPUT_L) ;;
     modify (set_random_val lo) ;;
     hi <- read32 (rng + RNG_OUTPUT_H) ;;
     modify (fun st => set_random_val (Z.lor (random_val st) (SHIFT_U64 hi 32)) st) ;;
     (* Acknowledge read complete *)
     write32 RNG_READY (rng + RNG_INTACK)
   else ret tt) ;;
  st <- get ;;
  if (0 <=? pos st) && (pos st <? 8) then
    let r := random_byte (random_val st) (pos st) in
    let pos' := pos st + 1 in
    modify (set_pos (if pos' =? 8 then 0 else pos')) ;;
    mutex_unlock ;;
    ret r
  else fault.

Definition dra7_rng_init (fuel : nat) : M rng_statics Z :=
  rng <- rng_base ;;
  (* Execute a software reset *)
  write32 RNG_SOFT_RESET (rng + RNG_SOFT_RESET_REG) ;;
  (* Wait for the software reset completion by polling *)
  while_loop fuel
    (v <- read32 (rng + RNG_SOFT_RESET_REG) ;; ret (nonzero (Z.land v RNG_SOFT_RESET)))
    (ret tt) ;;
  (* Switch to low-power operating mode *)
  write32 RNG_AUTOIDLE (rng + RNG_SYS_CONFIG_REG) ;;
  let val := 0 in
  let val := Z.lor val (Z.shiftl RNG_CONFIG_MIN_REFIL_CYCLES RNG_CONFIG_MIN_REFIL_CYCLES_SHIFT) in
  let val := Z.lor val (Z.shiftl RNG_CONFIG_MAX_REFIL_CYCLES RNG_CONFIG_MAX_REFIL_CYCLES_SHIFT) in
  write32 val (rng + RNG_CONFIG) ;;
  (* Configure the desired FROs *)
  write32 0x0 (rng + RNG_FRODETUNE) ;;
  (* Enable all FROs *)
  write32 0xffffff (rng + RNG_FROENABLE) ;;
  let val := Z.shiftl RNG_ALARM_THRESHOLD RNG_ALARMCNT_ALARM_TH_SHIFT in
  let val := Z.lor val (Z.shiftl RNG_SHUTDOWN_THRESHOLD RNG_ALARMCNT_SHUTDOWN_TH_SHIFT) in
  write32 val (rng + RNG_ALARMCNT) ;;
  (* Enable the RNG module *)
  let val := Z.shiftl RNG_CONTROL_STARTUP_CYCLES RNG_CONTROL_STARTUP_CYCLES_SHIFT in
  let val := Z.lor val ENABLE_TRNG in
  write32 val (rng + RNG_CONTROL) ;;
  ret TEE_SUCCESS.

(** [n] consecutive calls of [hw_get_random_byte], with the bytes they
    returned in order. *)
Fixpoint hw_get_random_bytes (fuel n : nat) : M rng_statics (list Z) :=
  match n with
  | O => ret []
  | S k => b <- hw_get_random_byte fuel ;;
           bs <- hw_get_random_bytes fuel k ;;
           ret (b :: bs)
  end.

End Driver.

(** The number whose little-endian bytes are [bs]. *)
Definition le_combine (bs : list Z) : Z := fold_right (fun b acc => b + 256 * acc) 0 bs.

End Dra7Rng.

(** A device access, as opposed to a mutex operation. *)
Definition io_is_access (e : Io.event) : bool :=
  match e with
  | Io.Read _ _ | Io.Write _ _ => true
  | _ => false
  end.

(** ** Concrete inputs for the drivers and the bring-up path *)

(** The machine after core 2 has been started from boot. *)
Definition core2_started : machine :=
  final (@psci_cpu_on rk322x parked_device 501 2 0x80100000 0 (boot_machine 0)).

(** A device that answers every read with all bits set. *)
Definition ready_device : Io.Device := {| Io.answer := fun _ _ => 0xffffffff |}.

(** The random number driver with its device address known and an
    empty buffer. *)
Definition idle_rng : Io.world Dra7Rng.rng_statics :=
  Io.mk_world (Dra7Rng.mk_rng_statics 0 0x48090000 0 0) [].

(** ** The waits of [psci_cpu_on], sample by sample *)

(** The log [w] of one run of [wait_core_wfe_i] that starts after the
    history [h], and its result [ok].  Every logged sample is the word
    the device presents at that point: rounds of a sample without the
    core's wait-for-event/interrupt bits and a two-microsecond delay,
    at most 500 of them; the sample [v] the loop leaves on, which shows
    a bit unless the 500 rounds are used up; and the closing sample
    [v'], which alone decides the result. *)
Definition wfe_wait_course {P : Platform} {D : Device} (core : Z) (h : list event)
    (ok : bool) (w : list event) : Prop :=
  exists vs v v',
    w = poll_rounds (GRF_BASE GRF_CPU_STATUS1) vs ++
        [EvRead (GRF_BASE GRF_CPU_STATUS1) v; EvRead (GRF_BASE GRF_CPU_STATUS1) v'] /\
    (length vs <= 500)%nat /\
    (forall i x, vs !! i = Some x ->
       x = grf_cpu_status1 (h ++ poll_rounds (GRF_BASE GRF_CPU_STATUS1) (take i vs)) /\
       Z.land x (CORE_WFE_I_MASK core) = 0) /\
    v = grf_cpu_status1 (h ++ poll_rounds (GRF_BASE GRF_CPU_STATUS1) vs) /\
    ((length vs < 500)%nat -> Z.land v (CORE_WFE_I_MASK core) <> 0) /\
    v' = grf_cpu_status1 (h ++ poll_rounds (GRF_BASE GRF_CPU_STATUS1) vs ++
                          [EvRead (GRF_BASE GRF_CPU_STATUS1) v]) /\
    ok = nonzero (Z.land v' (CORE_WFE_I_MASK core)).

(** What happens between the read [hv] of the reset-control register
    and the reset pulse: nothing if the core is held in reset, a wait
    that succeeds otherwise. *)
Definition first_wait_course {P : Platform} {D : Device} (core hv : Z) (h : list event)
    (w : list event) : Prop :=
  (Z.land hv (CORE_HELD_IN_RESET core) <> 0 /\ w = []) \/
  (Z.land hv (CORE_HELD_IN_RESET core) = 0 /\ wfe_wait_course core h true w).

(** * Properties *)

(** Projections of updated machine states. *)
Ltac machine_simpl :=
  cbn [trace cru isram ns_entry_addrs dram_d core_pos
       emit set_trace set_cru set_isram set_ns_entry_addrs set_dram_d
       cru_mode_con cru_clksel0 cru_clksel1 cru_clksel10 cru_clksel21 cru_clkgate
       set_cru_clkgate set_cru_mode_con set_cru_clksel0 set_cru_clksel1
       set_cru_clksel10 set_cru_clksel21 final].

Lemma emit_emit (t1 t2 : list event) (s : machine) :
  emit t2 (emit t1 s) = emit (t1 ++ t2) s.
Proof. unfold emit, set_trace; simpl. by rewrite app_assoc. Qed.

Lemma emit_nil (s : machine) : emit [] s = s.
Proof. destruct s; unfold emit, set_trace; simpl. by rewrite app_nil_r. Qed.

Lemma trace_emit (t : list event) (s : machine) : trace (emit t s) = trace s ++ t.
Proof. reflexivity. Qed.

Lemma bind_done {A B} (m : M A) (k : A -> M B) (s s' : machine) (a : A) :
  m s = Done a s' -> bind m k s = k a s'.
Proof. unfold bind; by intros ->. Qed.

Lemma bind_halt {A B} (m : M A) (k : A -> M B) (s s' : machine) :
  m s = Halt s' -> bind m k s = Halt s'.
Proof. unfold bind; by intros ->. Qed.

Lemma bind_spin {A B} (m : M A) (k : A -> M B) (s s' : machine) :
  m s = Spin s' -> bind m k s = Spin s'.
Proof. unfold bind; by intros ->. Qed.

Lemma bind_assoc {A B C} (m : M A) (f : A -> M B) (g : B -> M C) (s : machine) :
  bind (bind m f) g s = bind m (fun x => bind (f x) g) s.
Proof. unfold bind. by destruct (m s). Qed.

Lemma bind_read32 {D : Device} {B} (a : addr) (k : Z -> M B) (s : machine) :
  bind (read32 a) k s = k (load a s) (emit [EvRead a (load a s)] s).
Proof. reflexivity. Qed.

Lemma bind_log {B} (e : event) (k : unit -> M B) (s : machine) :
  bind (log e) k s = k tt (emit [e] s).
Proof. reflexivity. Qed.

Lemma bind_ret {A B} (a : A) (k : A -> M B) (s : machine) :
  bind (ret a) k s = k a s.
Proof. reflexivity. Qed.

Lemma bind_write32 {B} (v : Z) (a : addr) (k : unit -> M B) (s : machine) :
  bind (write32 v a) k s = k tt (emit [EvWrite a v] (store a v s)).
Proof. reflexivity. Qed.

Lemma bind_write32_end (v : Z) (a : addr) (s : machine) :
  write32 v a s = Done tt (emit [EvWrite a v] (store a v s)).
Proof. reflexivity. Qed.

Lemma bind_modify {B} (f : dram_data -> dram_data) (k : unit -> M B) (s : machine) :
  bind (modify_dram_d f) k s = k tt (set_dram_d (f (dram_d s)) s).
Proof. reflexivity. Qed.

Lemma bind_get_dram_d {B} (k : dram_data -> M B) (s : machine) :
  bind get_dram_d k s = k (dram_d s) s.
Proof. reflexivity. Qed.

Lemma trace_store (a : addr) (v : Z) (s : machine) : trace (store a v s) = trace s.
Proof. by destruct a. Qed.

Lemma trace_set_dram_d (d : dram_data) (s : machine) : trace (set_dram_d d s) = trace s.
Proof. reflexivity. Qed.

Section Features.
Context {P : Platform}.

(** C8. For every function identifier, [psci_features] answers SUCCESS
    exactly for the six supported identifiers (features query, version,
    cpu_on, cpu_off, system_suspend, system_reset) and NOT_SUPPORTED for
    every other value.  The function takes no machine state: it is a
    pure lookup. *)
Theorem psci_features_supported_set (psci_fid : Z) :
  (psci_features psci_fid = PSCI_RET_SUCCESS <->
     psci_fid = PSCI_PSCI_FEATURES \/ psci_fid = PSCI_VERSION \/
     psci_fid = PSCI_CPU_ON \/ psci_fid = PSCI_CPU_OFF \/
     psci_fid = PSCI_SYSTEM_SUSPEND \/ psci_fid = PSCI_SYSTEM_RESET) /\
  (psci_features psci_fid = PSCI_RET_NOT_SUPPORTED <->
     ~ (psci_fid = PSCI_PSCI_FEATURES \/ psci_fid = PSCI_VERSION \/
        psci_fid = PSCI_CPU_ON \/ psci_fid = PSCI_CPU_OFF \/
        psci_fid = PSCI_SYSTEM_SUSPEND \/ psci_fid = PSCI_SYSTEM_RESET)).
Proof.
  unfold psci_features.
  destruct (psci_fid =? PSCI_PSCI_FEATURES) eqn:E1;
  destruct (psci_fid =? PSCI_VERSION) eqn:E2;
  destruct (psci_fid =? PSCI_CPU_ON) eqn:E3;
  destruct (psci_fid =? PSCI_CPU_OFF) eqn:E4;
  destruct (psci_fid =? PSCI_SYSTEM_SUSPEND) eqn:E5;
  destruct (psci_fid =? PSCI_SYSTEM_RESET) eqn:E6; simpl;
  rewrite ?Z.eqb_eq, ?Z.eqb_neq in *;
  (split; split; intros H; try discriminate; try tauto).
Qed.

End Features.

Section CpuOff.
Context {P : Platform} {D : Device}.

Lemma park_loop (fuel : nat) (s : machine) :
  while_loop fuel (fun _ : unit => ret true) (fun _ => wfi) tt s
  = Spin (emit (repeat EvWfi fuel) s).
Proof.
  revert s. induction fuel as [|n IH]; intros s; simpl.
  - by rewrite emit_nil.
  - unfold bind at 1; simpl. unfold bind at 1; simpl.
    rewrite IH, emit_emit. reflexivity.
Qed.

(** C9 (as the code has it). [psci_cpu_off] returns INVALID_PARAMETERS,
    leaving the machine untouched, when the calling core is core 0 or
    out of range.  Otherwise it first performs the core-local power-down
    preparation, then masks all exceptions, then executes
    wait-for-interrupt over and over: whatever the step budget, the
    function is still spinning and has not returned. *)
Theorem psci_cpu_off_parks_core (fuel : nat) (s : machine) :
  ((core_pos s = 0 \/ CFG_TEE_CORE_NB_CORE <= core_pos s) ->
     psci_cpu_off fuel s = Done PSCI_RET_INVALID_PARAMETERS s) /\
  (core_pos s <> 0 -> core_pos s < CFG_TEE_CORE_NB_CORE ->
     psci_cpu_off fuel s =
       Spin (emit ([EvArmv7CpuOff; EvMaskExceptions THREAD_EXCP_ALL]
                   ++ repeat EvWfi fuel) s)).
Proof.
  unfold psci_cpu_off, get_core_pos. split.
  - intros H. unfold bind at 1.
    replace ((core_pos s =? 0) || (CFG_TEE_CORE_NB_CORE <=? core_pos s)) with true; [done|].
    symmetry; apply orb_true_iff. destruct H; [left; lia | right; lia].
  - intros H0 H1. unfold bind at 1.
    replace ((core_pos s =? 0) || (CFG_TEE_CORE_NB_CORE <=? core_pos s)) with false
      by (symmetry; apply orb_false_iff; split; lia).
    assert (HD : DMSG (ret tt) s = Done tt s) by (unfold DMSG; by destruct TRACE_DEBUG_ENABLED).
    rewrite (bind_done _ _ _ _ _ HD).
    unfold psci_armv7_cpu_off, thread_mask_exceptions, log.
    unfold bind at 1. unfold bind at 1.
    erewrite bind_spin by apply park_loop.
    by rewrite !emit_emit.
Qed.

End CpuOff.

Section Waits.
Context {P : Platform} {D : Device}.

Lemma count_udelay_app (t1 t2 : list event) :
  count_udelay (t1 ++ t2) = (count_udelay t1 + count_udelay t2)%nat.
Proof. unfold count_udelay. by rewrite List.filter_app, length_app. Qed.

Lemma is_poll_read (a : addr) (v : Z) : is_poll a (EvRead a v) = true.
Proof. simpl. by apply bool_decide_eq_true. Qed.

(** The shape shared by the two polling loops of the file: sample [a],
    leave when a bit of [mask] is seen or after 500 rounds, otherwise
    wait two microseconds and count. *)
Lemma poll_loop_bounded (a : addr) (mask : Z) (fuel : nat) (loop : Z) (s : machine) :
  0 <= loop <= 500 ->
  (Z.to_nat (500 - loop) < fuel)%nat ->
  exists t loop',
    while_loop fuel
      (fun loop => v <- read32 a ;;
                   ret (negb (nonzero (Z.land v mask)) && (loop <? 500)))
      (fun loop => udelay 2 ;; ret (u32 (loop + 1)))
      loop s = Done loop' (emit t s) /\
    Forall (fun e => is_poll a e = true) t /\
    loop <= loop' <= 500 /\
    count_udelay t = Z.to_nat (loop' - loop).
Proof.
  revert loop s. induction fuel as [|n IH]; intros loop s Hl Hf; [lia|].
  simpl. unfold bind at 1. unfold bind at 1. unfold read32 at 1, ret at 1.
  destruct (negb (nonzero (Z.land (load a s) mask)) && (loop <? 500)) eqn:E.
  - apply andb_true_iff in E as [_ E]. apply Z.ltb_lt in E.
    unfold bind at 1. unfold bind at 1. unfold udelay at 1, log at 1, ret at 1.
    replace (u32 (loop + 1)) with (loop + 1)
      by (unfold u32; rewrite Z.mod_small; lia).
    destruct (IH (loop + 1) (emit [EvUdelay 2] (emit [EvRead a (load a s)] s)))
      as (t & loop' & Hrun & Hall & Hb & Hc); [lia | lia |].
    exists (EvRead a (load a s) :: EvUdelay 2 :: t), loop'.
    rewrite Hrun, !emit_emit. repeat split; try lia.
    + constructor; [apply is_poll_read|]. constructor; done.
    + change (EvRead a (load a s) :: EvUdelay 2 :: t)
        with ([EvRead a (load a s); EvUdelay 2] ++ t).
      rewrite count_udelay_app, Hc. unfold count_udelay; simpl. lia.
  - exists [EvRead a (load a s)], loop. repeat split; try lia.
    + constructor; [apply is_poll_read | constructor].
    + unfold count_udelay; simpl. lia.
Qed.

(** When the polled bit never shows, the loop runs its full course. *)
Lemma poll_loop_exhausts (a : addr) (mask : Z) (fuel : nat) (loop : Z) (s : machine) :
  (forall s', Z.land (load a s') mask = 0) ->
  0 <= loop <= 500 ->
  (Z.to_nat (500 - loop) < fuel)%nat ->
  exists t,
    while_loop fuel
      (fun loop => v <- read32 a ;;
                   ret (negb (nonzero (Z.land v mask)) && (loop <? 500)))
      (fun loop => udelay 2 ;; ret (u32 (loop + 1)))
      loop s = Done 500 (emit t s) /\
    Forall (fun e => is_poll a e = true) t /\
    count_udelay t = Z.to_nat (500 - loop).
Proof.
  intros Hnever.
  revert loop s. induction fuel as [|n IH]; intros loop s Hl Hf; [lia|].
  simpl. unfold bind at 1. unfold bind at 1. unfold read32 at 1, ret at 1.
  rewrite Hnever. change (negb (nonzero 0)) with true. rewrite andb_true_l.
  destruct (loop <? 500) eqn:E.
  - apply Z.ltb_lt in E.
    unfold bind at 1. unfold bind at 1. unfold udelay at 1, log at 1, ret at 1.
    replace (u32 (loop + 1)) with (loop + 1)
      by (unfold u32; rewrite Z.mod_small; lia).
    destruct (IH (loop + 1) (emit [EvUdelay 2] (emit [EvRead a (load a s)] s)))
      as (t & Hrun & Hall & Hc); [lia | lia |].
    exists (EvRead a (load a s) :: EvUdelay 2 :: t).
    rewrite Hrun, !emit_emit. repeat split.
    + constructor; [apply is_poll_read|]. constructor; done.
    + change (EvRead a (load a s) :: EvUdelay 2 :: t)
        with ([EvRead a (load a s); EvUdelay 2] ++ t).
      rewrite count_udelay_app, Hc. unfold count_udelay; simpl. lia.
  - apply Z.ltb_ge in E. assert (loop = 500) as -> by lia.
    exists [EvRead a (load a s)]. repeat split.
    constructor; [apply is_poll_read | constructor].
Qed.

Lemma Forall_poll_snoc (a : addr) (t : list event) (v : Z) :
  Forall (fun e => is_poll a e = true) t ->
  Forall (fun e => is_poll a e = true) (t ++ [EvRead a v]).
Proof.
  intros H. apply Forall_app; split; [done|].
  constructor; [apply is_poll_read | constructor].
Qed.

(** [wait_core_wfe_i] always returns: it samples and delays at most 500
    times and reports what its closing sample [v] showed. *)
Lemma wait_core_wfe_i_spec (fuel : nat) (core : Z) (s : machine) :
  (500 < fuel)%nat ->
  exists t v,
    wait_core_wfe_i fuel core s =
      Done (nonzero (Z.land v (CORE_WFE_I_MASK core)))
           (emit (t ++ [EvRead (GRF_BASE GRF_CPU_STATUS1) v]) s) /\
    Forall (fun e => is_poll (GRF_BASE GRF_CPU_STATUS1) e = true) t /\
    (count_udelay t <= 500)%nat /\
    v = grf_cpu_status1 (trace s ++ t).
Proof.
  intros Hf. unfold wait_core_wfe_i.
  destruct (poll_loop_bounded (GRF_BASE GRF_CPU_STATUS1) (CORE_WFE_I_MASK core) fuel 0 s)
    as (t & loop' & Hrun & Hall & Hb & Hc); [lia | simpl; lia |].
  exists t, (grf_cpu_status1 (trace s ++ t)).
  rewrite (bind_done _ _ _ _ _ Hrun).
  unfold bind, read32, ret; simpl. rewrite emit_emit.
  repeat split; try done. rewrite Hc. lia.
Qed.

(** [pll_wait_lock] never spins for ever: after at most 500 rounds it
    takes a closing sample [v] and either returns or panics. *)
Lemma pll_wait_lock_spec (fuel : nat) (pll : Z) (s : machine) :
  (500 < fuel)%nat ->
  exists t v,
    Forall (fun e => is_poll (CRU_BASE (CRU_PLL_CON1 pll)) e = true) t /\
    (count_udelay t <= 500)%nat /\
    v = cru_pll_con1 pll (trace s ++ t) /\
    pll_wait_lock fuel pll s =
      if nonzero (Z.land v PLL_LOCK)
      then Done tt (emit (t ++ [EvRead (CRU_BASE (CRU_PLL_CON1 pll)) v]) s)
      else Halt (emit (t ++ [EvRead (CRU_BASE (CRU_PLL_CON1 pll)) v; EvPanic]) s).
Proof.
  intros Hf. unfold pll_wait_lock.
  destruct (poll_loop_bounded (CRU_BASE (CRU_PLL_CON1 pll)) PLL_LOCK fuel 0 s)
    as (t & loop' & Hrun & Hall & Hb & Hc); [lia | simpl; lia |].
  exists t, (cru_pll_con1 pll (trace s ++ t)).
  rewrite (bind_done _ _ _ _ _ Hrun).
  repeat split; try done; [rewrite Hc; lia|].
  unfold bind at 1, read32 at 1; simpl.
  destruct (nonzero (Z.land (cru_pll_con1 pll (trace s ++ t)) PLL_LOCK)); simpl.
  - unfold ret. by rewrite emit_emit.
  - unfold bind, EMSG, ret, panic. by rewrite !emit_emit.
Qed.

(** C6. Both busy-waits of the file terminate whatever the hardware
    does: given a budget of more than 500 loop rounds, the core
    wait-for-event poll returns a boolean and the PLL lock poll either
    returns or halts the system with a panic.  Their logs consist only
    of samples of the polled register and two-microsecond delays, with
    at most 500 delays. *)
Theorem busy_waits_are_bounded (fuel : nat) (x : Z) (s : machine) :
  (500 < fuel)%nat ->
  (exists (b : bool) t,
     wait_core_wfe_i fuel x s = Done b (emit t s) /\
     Forall (fun e => is_poll (GRF_BASE GRF_CPU_STATUS1) e = true) t /\
     (count_udelay t <= 500)%nat) /\
  (exists t,
     (pll_wait_lock fuel x s = Done tt (emit t s) \/
      pll_wait_lock fuel x s = Halt (emit (t ++ [EvPanic]) s)) /\
     Forall (fun e => is_poll (CRU_BASE (CRU_PLL_CON1 x)) e = true) t /\
     (count_udelay t <= 500)%nat).
Proof.
  intros Hf. split.
  - destruct (wait_core_wfe_i_spec fuel x s Hf) as (t & v & Hrun & Hall & Hc & _).
    eexists _, _. split; [exact Hrun|]. split.
    + by apply Forall_poll_snoc.
    + rewrite count_udelay_app. unfold count_udelay at 2; simpl. lia.
  - destruct (pll_wait_lock_spec fuel x s Hf) as (t & v & Hall & Hc & _ & Hrun).
    exists (t ++ [EvRead (CRU_BASE (CRU_PLL_CON1 x)) v]). split; [|split].
    + destruct (nonzero _); [by left | right].
      rewrite Hrun. by rewrite <- app_assoc.
    + by apply Forall_poll_snoc.
    + rewrite count_udelay_app. unfold count_udelay at 2; simpl. lia.
Qed.

End Waits.

Section PllFailure.
Context {P : Platform} {D : Device}.

Lemma poll_not_write (a : addr) (t : list event) :
  Forall (fun e => is_poll a e = true) t ->
  Forall (fun e => is_write e = false) t.
Proof. apply List.Forall_impl. by intros []. Qed.

Lemma DMSG_skip (s : machine) : DMSG (ret tt) s = Done tt s.
Proof. unfold DMSG. by destruct TRACE_DEBUG_ENABLED. Qed.

(** A counted loop whose body always returns and extends the log
    returns and extends the log. *)
Lemma for_range_returns (body : nat -> M unit) (lo n : nat) (s : machine) :
  (forall i s, exists s', body i s = Done tt s' /\ exists t, trace s' = trace s ++ t) ->
  exists s', for_range lo n body s = Done tt s' /\ exists t, trace s' = trace s ++ t.
Proof.
  intros Hbody. revert lo s. induction n as [|n IH]; intros lo s; simpl.
  - exists s. split; [done|]. exists []. by rewrite app_nil_r.
  - destruct (Hbody lo s) as (s1 & H1 & t1 & Ht1).
    destruct (IH (S lo) s1) as (s2 & H2 & t2 & Ht2).
    exists s2. rewrite (bind_done _ _ _ _ _ H1). split; [done|].
    exists (t1 ++ t2). by rewrite Ht2, Ht1, app_assoc.
Qed.

Lemma clks_disable_returns (s : machine) :
  exists s', clks_disable s = Done tt s' /\ exists t, trace s' = trace s ++ t.
Proof.
  unfold clks_disable. apply for_range_returns. intros i s0.
  rewrite bind_read32, bind_modify, bind_write32_end.
  eexists. split; [reflexivity|].
  rewrite !trace_emit, trace_store, trace_set_dram_d, trace_emit.
  eexists. rewrite <- app_assoc. reflexivity.
Qed.

Lemma plls_power_down_returns (s : machine) :
  exists s', plls_power_down s = Done tt s' /\ exists t, trace s' = trace s ++ t.
Proof.
  unfold plls_power_down, pll_power_down.
  repeat first [ rewrite bind_assoc | rewrite bind_read32 | rewrite bind_modify
               | rewrite bind_write32 | rewrite bind_write32_end ].
  eexists. split; [reflexivity|].
  repeat first [ rewrite trace_emit | rewrite trace_store | rewrite trace_set_dram_d ].
  eexists. rewrite <- !app_assoc. reflexivity.
Qed.

(** Either outcome of [pll_wait_lock], with a log free of writes. *)
Lemma pll_wait_lock_cases (fuel : nat) (pll : Z) (s : machine) :
  (500 < fuel)%nat ->
  exists t,
    Forall (fun e => is_write e = false) t /\
    ((pll_wait_lock fuel pll s = Done tt (emit t s) /\
      exists h, nonzero (Z.land (cru_pll_con1 pll h) PLL_LOCK) = true) \/
     pll_wait_lock fuel pll s = Halt (emit (t ++ [EvPanic]) s)).
Proof.
  intros Hf.
  destruct (pll_wait_lock_spec fuel pll s Hf) as (t & v & Hp & _ & Hv & Hr).
  exists (t ++ [EvRead (CRU_BASE (CRU_PLL_CON1 pll)) v]). split.
  - apply Forall_app; split; [by eapply poll_not_write | by repeat constructor].
  - destruct (nonzero (Z.land v PLL_LOCK)) eqn:E.
    + left. split; [done|]. exists (trace s ++ t). by rewrite <- Hv.
    + right. rewrite Hr. by rewrite <- app_assoc.
Qed.

(** The three waits of [plls_restore], started after the power-up
    writes: if one of the polled PLLs never locks, they end in a panic
    and log nothing but polls. *)
Lemma plls_wait_halts (fuel : nat) (pll : Z) (k : M unit) (s : machine) :
  (500 < fuel)%nat ->
  (forall h, Z.land (cru_pll_con1 pll h) PLL_LOCK = 0) ->
  pll = APLL_ID \/ pll = GPLL_ID \/ pll = CPLL_ID ->
  exists t,
    (pll_wait_lock fuel APLL_ID ;; pll_wait_lock fuel GPLL_ID ;;
     pll_wait_lock fuel CPLL_ID ;; k) s = Halt (emit (t ++ [EvPanic]) s) /\
    Forall (fun e => is_write e = false) t.
Proof.
  intros Hf Hnever Hpll.
  assert (Hno : forall p h, nonzero (Z.land (cru_pll_con1 p h) PLL_LOCK) = true -> p <> pll).
  { intros p h Hp ->. rewrite Hnever in Hp. discriminate. }
  destruct (pll_wait_lock_cases fuel APLL_ID s Hf) as (tA & HwA & [(HrA & hA & HlA) | HrA]).
  2:{ exists tA. by rewrite (bind_halt _ _ _ _ HrA). }
  rewrite (bind_done _ _ _ _ _ HrA).
  destruct (pll_wait_lock_cases fuel GPLL_ID (emit tA s) Hf)
    as (tG & HwG & [(HrG & hG & HlG) | HrG]).
  2:{ exists (tA ++ tG). rewrite (bind_halt _ _ _ _ HrG), emit_emit, <- app_assoc.
      split; [done | by apply Forall_app]. }
  rewrite (bind_done _ _ _ _ _ HrG).
  destruct (pll_wait_lock_cases fuel CPLL_ID (emit tG (emit tA s)) Hf)
    as (tC & HwC & [(HrC & hC & HlC) | HrC]).
  - exfalso. apply Hno in HlA, HlG, HlC. destruct Hpll as [|[|]]; congruence.
  - exists (tA ++ tG ++ tC). rewrite (bind_halt _ _ _ _ HrC), !emit_emit, <- !app_assoc.
    split; [done | by repeat (apply Forall_app; split)].
Qed.

(** C4. A PLL that never reports lock is fatal.  [pll_wait_lock] polls
    it for exactly 500 rounds of two microseconds and then panics
    instead of returning.  Consequently the restore path, and
    [psci_system_suspend] as a whole, halt rather than return a status:
    their log ends with the panic, and between the power-up writes with
    their settle delay and the panic there is no register write. *)
Theorem pll_lock_failure_is_fatal (fuel : nat) (pll : Z) (entry context_id : Z)
    (s : machine) :
  (500 < fuel)%nat ->
  (forall h, Z.land (cru_pll_con1 pll h) PLL_LOCK = 0) ->
  (exists t,
     pll_wait_lock fuel pll s = Halt (emit (t ++ [EvPanic]) s) /\
     Forall (fun e => is_poll (CRU_BASE (CRU_PLL_CON1 pll)) e = true) t /\
     count_udelay t = 500%nat) /\
  (pll = APLL_ID \/ pll = GPLL_ID \/ pll = CPLL_ID ->
   (exists s' t,
      plls_restore fuel s = Halt s' /\
      trace s' = trace s ++
        [EvWrite (CRU_BASE (CRU_PLL_CON1 APLL_ID)) PLL_POWER_UP;
         EvWrite (CRU_BASE (CRU_PLL_CON1 GPLL_ID)) PLL_POWER_UP;
         EvWrite (CRU_BASE (CRU_PLL_CON1 CPLL_ID)) PLL_POWER_UP;
         EvUdelay 200] ++ t ++ [EvPanic] /\
      Forall (fun e => is_write e = false) t) /\
   (exists s' t0 t,
      psci_system_suspend fuel entry context_id s = Halt s' /\
      trace s' = trace s ++ t0 ++ [EvUdelay 200] ++ t ++ [EvPanic] /\
      Forall (fun e => is_write e = false) t)).
Proof.
  intros Hf Hnever. split.
  - unfold pll_wait_lock.
    destruct (poll_loop_exhausts (CRU_BASE (CRU_PLL_CON1 pll)) PLL_LOCK fuel 0 s)
      as (t & Hrun & Hall & Hc); [intros s'; apply Hnever | lia | simpl; lia |].
    exists (t ++ [EvRead (CRU_BASE (CRU_PLL_CON1 pll)) (cru_pll_con1 pll (trace s ++ t))]).
    rewrite (bind_done _ _ _ _ _ Hrun).
    unfold bind at 1, read32 at 1. simpl. rewrite Hnever. simpl.
    unfold bind, EMSG, ret, panic. rewrite !emit_emit, <- app_assoc.
    split; [done|]. split; [by apply Forall_poll_snoc|].
    rewrite count_udelay_app, Hc. unfold count_udelay; simpl. lia.
  - intros Hpll.
    assert (Hrestore : forall s0, exists s' t,
      plls_restore fuel s0 = Halt s' /\
      trace s' = trace s0 ++
        [EvWrite (CRU_BASE (CRU_PLL_CON1 APLL_ID)) PLL_POWER_UP;
         EvWrite (CRU_BASE (CRU_PLL_CON1 GPLL_ID)) PLL_POWER_UP;
         EvWrite (CRU_BASE (CRU_PLL_CON1 CPLL_ID)) PLL_POWER_UP;
         EvUdelay 200] ++ t ++ [EvPanic] /\
      Forall (fun e => is_write e = false) t).
    { intros s0. unfold plls_restore.
      unfold pll_power_up at 1 2 3.
      unfold bind at 1, write32 at 1. unfold bind at 1, write32 at 1.
      unfold bind at 1, write32 at 1. unfold bind at 1, udelay at 1, log at 1.
      match goal with |- context [bind _ _ ?s1] =>
        destruct (plls_wait_halts fuel pll
          (d <- get_dram_d ;;
           write32 (Z.lor (Z.lor (cru_clksel21 d) (BITS_WMSK 0x3fff 0)) (BITS_WMSK 0x3 14))
                   (CRU_BASE (CRU_CLKSEL_CON 21)) ;;
           write32 (Z.lor (cru_clksel0 d) (BITS_WMSK 0x1f 8)) (CRU_BASE (CRU_CLKSEL_CON 0)) ;;
           write32 (Z.lor (Z.lor (cru_clksel1 d) (BITS_WMSK 0x3 8)) (BITS_WMSK 0x7 12))
                   (CRU_BASE (CRU_CLKSEL_CON 1)) ;;
           write32 (Z.lor (Z.lor (Z.lor (cru_clksel10 d) (BITS_WMSK 0x1f 0)) (BITS_WMSK 0x3 8))
                          (BITS_WMSK 0x7 12))
                   (CRU_BASE (CRU_CLKSEL_CON 10)) ;;
           write32 (Z.lor (cru_clksel0 d) (BITS_WMSK 0x1f 0)) (CRU_BASE (CRU_CLKSEL_CON 0)) ;;
           write32 (Z.lor (Z.lor (cru_clksel1 d) (BITS_WMSK 0xf 0)) (BITS_WMSK 0x7 4))
                   (CRU_BASE (CRU_CLKSEL_CON 1)) ;;
           write32 (Z.lor (cru_mode_con d) (BITS_WMSK 0x1 (PLL_MODE_BIT APLL_ID)))
                   (CRU_BASE CRU_MODE_CON) ;;
           write32 (Z.lor (cru_mode_con d) (BITS_WMSK 0x1 (PLL_MODE_BIT CPLL_ID)))
                   (CRU_BASE CRU_MODE_CON) ;;
           write32 (Z.lor (cru_mode_con d) (BITS_WMSK 0x1 (PLL_MODE_BIT GPLL_ID)))
                   (CRU_BASE CRU_MODE_CON))
          s1 Hf Hnever Hpll) as (t & Hrun & Hw)
      end.
      eexists _, t. split; [exact Hrun|]. split; [|done].
      simpl. rewrite <- !app_assoc. reflexivity. }
    split; [apply Hrestore|].
    unfold psci_system_suspend.
    rewrite (bind_done _ _ _ _ _ (DMSG_skip s)).
    destruct (clks_disable_returns s) as (s1 & H1 & t1 & Ht1).
    rewrite (bind_done _ _ _ _ _ H1).
    destruct (plls_power_down_returns s1) as (s2 & H2 & t2 & Ht2).
    rewrite (bind_done _ _ _ _ _ H2).
    unfold bind at 1, cache_op_inner at 1, log at 1.
    unfold bind at 1, wfi at 1, log at 1.
    rewrite emit_emit.
    destruct (Hrestore (emit [EvCacheOp; EvWfi] s2)) as (s' & t & Hr & Ht & Hw).
    exists s', (t1 ++ t2 ++ [EvCacheOp; EvWfi] ++
               [EvWrite (CRU_BASE (CRU_PLL_CON1 APLL_ID)) PLL_POWER_UP;
                EvWrite (CRU_BASE (CRU_PLL_CON1 GPLL_ID)) PLL_POWER_UP;
                EvWrite (CRU_BASE (CRU_PLL_CON1 CPLL_ID)) PLL_POWER_UP]), t.
    rewrite (bind_halt _ _ _ _ Hr). split; [done|]. split; [|done].
    rewrite Ht, trace_emit, Ht2, Ht1. rewrite <- !app_assoc. reflexivity.
Qed.

End PllFailure.

Section CpuOn.
Context {P : Platform} {D : Device}.

Lemma wait_core_wfe_i_log (fuel : nat) (core : Z) (s : machine) :
  (500 < fuel)%nat ->
  exists (ok : bool) w,
    wait_core_wfe_i fuel core s = Done ok (emit w s) /\ wfe_wait_log core ok w.
Proof.
  intros Hf.
  destruct (wait_core_wfe_i_spec fuel core s Hf) as (t & v & Hrun & Hall & Hc & _).
  eexists _, _. split; [exact Hrun|]. by exists t, v.
Qed.

(** Every call with a valid core returns, and its result and log follow
    one of the three paths of [cpu_on_log]. *)
Lemma psci_cpu_on_paths (fuel : nat) (core_idx entry context_id : Z) (s : machine) :
  let c := Z.land core_idx MPIDR_CPU_MASK in
  c <> 0 -> c < CFG_TEE_CORE_NB_CORE -> (500 < fuel)%nat ->
  exists r s' new,
    psci_cpu_on fuel core_idx entry context_id s = Done r s' /\
    trace s' = trace s ++ new /\
    cpu_on_log c entry (cru s (CRU_SOFTRST_CON 0)) r new /\
    ns_entry_addrs s' = <[Z.to_nat c := entry]> (ns_entry_addrs s) /\
    (r = PSCI_RET_DENIED -> isram s' = isram s).
Proof.
  intros c Hc0 HcN Hf. unfold psci_cpu_on. fold c.
  replace ((c =? 0) || (CFG_TEE_CORE_NB_CORE <=? c)) with false
    by (symmetry; apply orb_false_iff; split; lia).
  cbv zeta.
  rewrite (bind_done _ _ _ _ _ (DMSG_skip s)).
  unfold bind at 1, store_ns_entry at 1.
  set (s1 := emit [EvStoreEntry c entry] _).
  match goal with |- context [bind (core_held_in_reset c) ?k] => set (K := k) end.
  unfold core_held_in_reset. rewrite bind_assoc, bind_read32, bind_ret.
  change (load (CRU_BASE (CRU_SOFTRST_CON 0)) s1) with (cru s (CRU_SOFTRST_CON 0)).
  set (hv := cru s (CRU_SOFTRST_CON 0)).
  set (s2 := emit [EvRead _ hv] s1).
  (* the part after the first wait *)
  assert (Hafter : forall sa, exists r s' tail,
    (write32 (CORE_SOFT_RESET c) (CRU_BASE (CRU_SOFTRST_CON 0)) ;; dsb ;; udelay 2 ;;
     write32 (CORE_SOFT_RELEASE c) (CRU_BASE (CRU_SOFTRST_CON 0)) ;; dsb ;;
     wfei <- wait_core_wfe_i fuel c ;;
     if negb wfei then EMSG ;; ret PSCI_RET_DENIED
     else write32 CFG_TEE_LOAD_ADDR (ISRAM_BASE BOOT_ADDR_OFFSET) ;;
          write32 LOCK_TAG (ISRAM_BASE LOCK_ADDR_OFFSET) ;;
          dsb ;; sev ;; dsb ;; ret PSCI_RET_SUCCESS) sa = Done r s' /\
    trace s' = trace sa ++ reset_sequence c ++ tail /\
    ns_entry_addrs s' = ns_entry_addrs sa /\
    ((r = PSCI_RET_DENIED /\ wfe_wait_log c false tail /\ isram s' = isram sa) \/
     (r = PSCI_RET_SUCCESS /\ exists w2, wfe_wait_log c true w2 /\
                                         tail = w2 ++ handoff_sequence))).
  { intros sa.
    unfold bind at 1, write32 at 1. unfold dsb at 1. rewrite bind_log.
    unfold udelay at 1. rewrite bind_log.
    unfold bind at 1, write32 at 1. unfold dsb at 1. rewrite bind_log.
    match goal with |- context [bind _ _ ?sb0] => set (sb := sb0) end.
    destruct (wait_core_wfe_i_log fuel c sb Hf) as (ok & w2 & Hrun & Hw2).
    rewrite (bind_done _ _ _ _ _ Hrun).
    destruct ok; simpl.
    - eexists _, _, _. split; [reflexivity|]. split; [|split].
      + simpl. rewrite <- !app_assoc. simpl. reflexivity.
      + reflexivity.
      + right. split; [done|]. exists w2. split; [done|].
        unfold handoff_sequence. reflexivity.
    - eexists _, _, _. split; [reflexivity|]. split; [|split].
      + simpl. rewrite <- !app_assoc. simpl. reflexivity.
      + reflexivity.
      + left. done. }
  destruct (nonzero (Z.land hv (CORE_HELD_IN_RESET c))) eqn:Eheld; subst K;
    cbn [negb]; cbv iota.
  - destruct (Hafter s2) as (r & s' & tail & Hrun & Htr & Hns & Hcase).
    exists r, s'. eexists. split; [exact Hrun|].
    split; [rewrite Htr; subst s2 s1; simpl; rewrite <- !app_assoc; reflexivity|].
    split; [|split].
    + destruct Hcase as [(-> & Hw & _) | (-> & w2 & Hw & ->)].
      * apply (log_denied_after c entry hv [] tail); [by left | done].
      * apply (log_success c entry hv [] w2); [by left | done].
    + rewrite Hns. reflexivity.
    + intros ->. destruct Hcase as [(_ & _ & ->) | (? & _)]; done.
  - destruct (wait_core_wfe_i_log fuel c s2 Hf) as (ok & w1 & Hrun1 & Hw1).
    rewrite (bind_done _ _ _ _ _ Hrun1).
    destruct ok; cbn [negb]; cbv iota.
    + destruct (Hafter (emit w1 s2)) as (r & s' & tail & Hrun & Htr & Hns & Hcase).
      exists r, s'. eexists. split; [exact Hrun|].
      split; [rewrite Htr; subst s2 s1; simpl; rewrite <- !app_assoc; reflexivity|].
      split; [|split].
      * destruct Hcase as [(-> & Hw & _) | (-> & w2 & Hw & ->)].
        -- apply (log_denied_after c entry hv w1 tail); [by right | done].
        -- apply (log_success c entry hv w1 w2); [by right | done].
      * rewrite Hns. reflexivity.
      * intros ->. destruct Hcase as [(_ & _ & ->) | (? & _)]; done.
    + eexists _, _, _. split; [reflexivity|].
      split; [subst s2 s1; simpl; rewrite <- !app_assoc; reflexivity|].
      split; [|split].
      * apply (log_denied_before c entry hv w1); done.
      * reflexivity.
      * reflexivity.
Qed.

End CpuOn.

Section Affinity.
Context {P : Platform} {D : Device}.

Lemma nonzero_land_pow2 (x k : Z) :
  0 <= k -> nonzero (Z.land x (2 ^ k)) = Z.testbit x k.
Proof.
  intros Hk. unfold nonzero. destruct (Z.testbit x k) eqn:E.
  - apply negb_true_iff, Z.eqb_neq. intros H0.
    assert (Hb : Z.testbit (Z.land x (2 ^ k)) k = true)
      by (rewrite Z.land_spec, E, Z.pow2_bits_true; done).
    rewrite H0, Z.bits_0 in Hb. discriminate.
  - apply negb_false_iff, Z.eqb_eq. apply Z.bits_inj'. intros n Hn.
    rewrite Z.land_spec, Z.bits_0, Z.pow2_bits_eqb by done.
    destruct (k =? n) eqn:Ekn; [|apply andb_false_r].
    apply Z.eqb_eq in Ekn. subst n. by rewrite E.
Qed.

(** C7. [psci_affinity_info] derives the core from the affinity value,
    samples the core-status register and answers OFF when the sampled
    word has the core's wait-for-interrupt bit set and ON when it is
    clear.  It only reads: registers, SRAM and tables are left as they
    were and the log gains nothing but reads of the status register.
    The answer is a function of the sampled word and the affinity
    alone, and toggling only the core's status bit in the word flips
    it. *)
Theorem psci_affinity_info_decodes_status_bit (affinity lowest_affnity_level : Z)
    (s : machine) :
  let wfi_mask := CORE_WFI_MASK (Z.land affinity MPIDR_CPU_MASK) in
  (exists pre v,
     psci_affinity_info affinity lowest_affnity_level s =
       Done (affinity_of_status wfi_mask v)
            (emit (pre ++ [EvRead (GRF_BASE GRF_CPU_STATUS1) v]) s) /\
     v = grf_cpu_status1 (trace s ++ pre) /\
     Forall (fun e => is_status_read e = true) pre) /\
  (forall v, affinity_of_status wfi_mask v = PSCI_AFFINITY_LEVEL_OFF <->
             Z.land v wfi_mask <> 0) /\
  (forall v, affinity_of_status wfi_mask v = PSCI_AFFINITY_LEVEL_ON <->
             Z.land v wfi_mask = 0) /\
  (forall k v, 0 <= k -> wfi_mask = 2 ^ k ->
     affinity_of_status wfi_mask (Z.lxor v (2 ^ k)) =
     flip_affinity (affinity_of_status wfi_mask v)).
Proof.
  intros wfi_mask. split; [|split; [|split]].
  - unfold psci_affinity_info, DMSG. fold wfi_mask.
    destruct TRACE_DEBUG_ENABLED.
    + exists [EvRead (GRF_BASE GRF_CPU_STATUS1) (grf_cpu_status1 (trace s))],
             (grf_cpu_status1 (trace s ++
                [EvRead (GRF_BASE GRF_CPU_STATUS1) (grf_cpu_status1 (trace s))])).
      split; [|split; [done | by repeat constructor]].
      unfold bind, read32, ret; simpl. by rewrite emit_emit.
    + exists [], (grf_cpu_status1 (trace s ++ [])).
      split; [|split; [done | constructor]].
      unfold bind, read32, ret; simpl. by rewrite app_nil_r.
  - intros v. unfold affinity_of_status, nonzero.
    destruct (Z.land v wfi_mask =? 0) eqn:E; simpl;
      rewrite ?Z.eqb_eq, ?Z.eqb_neq in E; split; intros; done.
  - intros v. unfold affinity_of_status, nonzero.
    destruct (Z.land v wfi_mask =? 0) eqn:E; simpl;
      rewrite ?Z.eqb_eq, ?Z.eqb_neq in E; split; intros; done.
  - intros k v Hk ->. unfold affinity_of_status.
    rewrite !nonzero_land_pow2 by done.
    rewrite Z.lxor_spec, Z.pow2_bits_true by done.
    by destruct (Z.testbit v k).
Qed.

End Affinity.

Section CpuOnClaims.
Context {P : Platform} {D : Device}.

(** C1 (as the code has it). [psci_cpu_on] reduces its first argument
    with [MPIDR_CPU_MASK] before validating it.  Whenever the reduced
    core id is 0 or at least the number of cores, the call returns
    INVALID_PARAMETERS and the machine is exactly as before: no table
    store, no register write, no SRAM write, nothing added to the
    log. *)
Theorem psci_cpu_on_rejects_invalid_core (fuel : nat) (core_idx entry context_id : Z)
    (s : machine) :
  Z.land core_idx MPIDR_CPU_MASK = 0 \/
  CFG_TEE_CORE_NB_CORE <= Z.land core_idx MPIDR_CPU_MASK ->
  psci_cpu_on fuel core_idx entry context_id s = Done PSCI_RET_INVALID_PARAMETERS s.
Proof.
  intros H. unfold psci_cpu_on.
  replace ((Z.land core_idx MPIDR_CPU_MASK =? 0)
           || (CFG_TEE_CORE_NB_CORE <=? Z.land core_idx MPIDR_CPU_MASK)) with true; [done|].
  symmetry; apply orb_true_iff. destruct H; [left; lia | right; lia].
Qed.

Lemma wfe_wait_log_quiet (core : Z) (ok : bool) (w : list event) :
  wfe_wait_log core ok w ->
  Forall (fun e => is_write e = false /\ e <> EvSev) w.
Proof.
  intros (t & v & -> & Hall & _). apply Forall_app. split.
  - revert Hall. apply List.Forall_impl. by intros [].
  - by repeat constructor.
Qed.

Lemma first_wait_log_quiet (core hv : Z) (w : list event) :
  first_wait_log core hv w ->
  Forall (fun e => is_write e = false /\ e <> EvSev) w.
Proof.
  intros [(_ & ->) | (_ & Hw)]; [constructor | by eapply wfe_wait_log_quiet].
Qed.

Lemma quiet_no_softrst (w : list event) :
  Forall (fun e => is_write e = false /\ e <> EvSev) w ->
  existsb is_softrst_write w = false.
Proof.
  induction 1 as [|e w [He _] _ IH]; [done|]. simpl. rewrite IH.
  by destruct e as [| [[]| |] | | | | | | | | |].
Qed.

Lemma nonzero_false (x : Z) : nonzero x = false <-> x = 0.
Proof. unfold nonzero. rewrite negb_false_iff. apply Z.eqb_eq. Qed.

Lemma nonzero_true (x : Z) : nonzero x = true <-> x <> 0.
Proof. unfold nonzero. rewrite negb_true_iff. apply Z.eqb_neq. Qed.



(** C10. For a call whose reduced core id passes validation, the store
    of the caller's entry address into the core's table slot is the
    first thing the call does, before any status register is sampled,
    and nothing undoes it: whether the call ends with SUCCESS or with
    DENIED, the table afterwards is the old table with that slot
    overwritten. *)
Theorem cpu_on_entry_slot_not_rolled_back (fuel : nat) (core_idx entry context_id : Z)
    (s : machine) :
  let c := Z.land core_idx MPIDR_CPU_MASK in
  c <> 0 -> c < CFG_TEE_CORE_NB_CORE -> (500 < fuel)%nat ->
  exists r s' rest,
    psci_cpu_on fuel core_idx entry context_id s = Done r s' /\
    (r = PSCI_RET_SUCCESS \/ r = PSCI_RET_DENIED) /\
    trace s' = trace s ++ EvStoreEntry c entry :: rest /\
    ns_entry_addrs s' = <[Z.to_nat c := entry]> (ns_entry_addrs s) /\
    ((Z.to_nat c < length (ns_entry_addrs s))%nat ->
     ns_entry_addrs s' !! Z.to_nat c = Some entry).
Proof.
  intros c Hc0 HcN Hf.
  destruct (psci_cpu_on_paths fuel core_idx entry context_id s Hc0 HcN Hf)
    as (r & s' & new & Hrun & Htr & Hlog & Hns & _).
  fold c in Hlog, Hns. exists r, s'.
  assert (Hres : (r = PSCI_RET_SUCCESS \/ r = PSCI_RET_DENIED) /\
                 exists rest, new = EvStoreEntry c entry :: rest).
  { inversion Hlog; subst; split; auto; eexists; reflexivity. }
  destruct Hres as (Hr & rest & ->). exists rest.
  split; [done|]. split; [done|]. split; [done|]. split; [done|].
  intros Hlen. rewrite Hns. by apply list_lookup_insert_eq.
Qed.

End CpuOnClaims.

Section MaskedWrites.

Lemma wmask_of_spec (w n : Z) :
  Z.testbit (wmask_of w) n = Z.testbit w (n + 16) && ((0 <=? n) && (n <? 16)).
Proof.
  unfold wmask_of, REG_MSK_SHIFT.
  destruct (Z.ltb_spec n 0) as [Hneg | Hn].
  - rewrite Z.testbit_neg_r by done.
    replace (0 <=? n) with false by (symmetry; apply Z.leb_gt; lia).
    by rewrite andb_false_r.
  - rewrite Z.land_spec, Z.shiftr_spec by done.
    replace (0 <=? n) with true by (symmetry; apply Z.leb_le; lia).
    f_equal. change 65535 with (Z.ones 16).
    destruct (Z.ltb_spec n 16).
    + rewrite Z.ones_spec_low; [done | lia].
    + rewrite Z.ones_spec_high; [done | lia].
Qed.

Lemma masked_write_spec (old w n : Z) :
  Z.testbit (masked_write old w) n =
  if Z.testbit (wmask_of w) n then Z.testbit w n else Z.testbit old n.
Proof.
  destruct (Z.ltb_spec n 0) as [Hneg | Hn].
  - rewrite !Z.testbit_neg_r by done. by destruct (Z.testbit (wmask_of w) n).
  - unfold masked_write.
    rewrite Z.lor_spec, !Z.land_spec, Z.lnot_spec by done.
    destruct (Z.testbit (wmask_of w) n); simpl.
    + by rewrite andb_false_r, andb_true_r.
    + by rewrite andb_true_r, andb_false_r, orb_false_r.
Qed.

Lemma agree_refl (x : Z) : agree 0 x x.
Proof. by intros n _. Qed.

Lemma agree_eq (d cur x : Z) : agree d cur x -> d = 0 -> cur = x.
Proof.
  intros H ->. apply Z.bits_inj. intros n. apply H, Z.bits_0.
Qed.

(** Any masked write dirties at most the bits it write-enables. *)
Lemma agree_dirty (d cur x w : Z) :
  agree d cur x -> agree (Z.lor d (wmask_of w)) (masked_write cur w) x.
Proof.
  intros H n Hn. rewrite Z.lor_spec in Hn. apply orb_false_iff in Hn as [Hd Hw].
  rewrite masked_write_spec, Hw. by apply H.
Qed.

Lemma u32_spec_low (x n : Z) : n < 32 -> Z.testbit (u32 x) n = Z.testbit x n.
Proof.
  intros Hn. unfold u32. destruct (Z.ltb_spec n 0).
  - by rewrite !Z.testbit_neg_r.
  - apply Z.mod_pow2_bits_low. lia.
Qed.

(** The write-enable half of a mask word has nothing in the lower
    half-word. *)
Lemma BITS_WMSK_low (msk shift n : Z) :
  0 <= shift -> n < 16 -> Z.testbit (BITS_WMSK msk shift) n = false.
Proof.
  intros Hs Hn. unfold BITS_WMSK, SHIFT_U32, REG_MSK_SHIFT.
  rewrite u32_spec_low by lia.
  destruct (Z.ltb_spec n 0); [by rewrite Z.testbit_neg_r|].
  rewrite Z.shiftl_spec by done. apply Z.testbit_neg_r. lia.
Qed.

(** Writing back the saved word [x] under the write-enable bits of [k]
    cleans those bits. *)
Lemma agree_clean (d cur x k : Z) :
  agree d cur x ->
  (forall n, n < 16 -> Z.testbit k n = false) ->
  agree (Z.land d (Z.lnot (wmask_of k))) (masked_write cur (Z.lor x k)) x.
Proof.
  intros H Hk n Hn. rewrite masked_write_spec.
  destruct (Z.testbit (wmask_of (Z.lor x k)) n) eqn:Ew.
  - rewrite wmask_of_spec in Ew. apply andb_true_iff in Ew as [_ Ew].
    apply andb_true_iff in Ew as [_ Ew]. apply Z.ltb_lt in Ew.
    by rewrite Z.lor_spec, Hk, orb_false_r.
  - apply H. destruct (Z.ltb_spec n 0); [by apply Z.testbit_neg_r|].
    rewrite Z.land_spec, Z.lnot_spec in Hn by done.
    apply andb_false_iff in Hn as [Hn | Hn]; [done|].
    apply negb_false_iff in Hn. rewrite wmask_of_spec in Hn, Ew.
    apply andb_true_iff in Hn as [Hk1 Hr]. rewrite Hr, andb_true_r in Ew.
    rewrite Z.lor_spec, Hk1, orb_true_r in Ew. discriminate.
Qed.

(** Clock gates: whatever was written under a write mask, writing the
    saved word back under the full mask restores it. *)
Lemma gate_roundtrip (x w : Z) :
  masked_write (masked_write x w) (BITS_WITH_WMASK x 0xffff 0) = x.
Proof.
  apply Z.bits_inj. intros n.
  rewrite masked_write_spec, wmask_of_spec.
  destruct ((0 <=? n) && (n <? 16)) eqn:Er.
  - apply andb_true_iff in Er as [H0 H16].
    apply Z.leb_le in H0. apply Z.ltb_lt in H16.
    assert (Hhi : Z.testbit (BITS_WITH_WMASK x 65535 0) (n + 16) = true).
    { unfold BITS_WITH_WMASK. rewrite Z.lor_spec.
      replace (Z.testbit (BITS_WMSK 65535 0) (n + 16)) with true; [apply orb_true_r|].
      symmetry. unfold BITS_WMSK, SHIFT_U32, REG_MSK_SHIFT.
      rewrite u32_spec_low, Z.shiftl_spec by lia.
      replace (n + 16 - (0 + 16)) with n by lia.
      change 65535 with (Z.ones 16). apply Z.ones_spec_low. lia. }
    rewrite Hhi. simpl. unfold BITS_WITH_WMASK.
    rewrite Z.lor_spec, BITS_WMSK_low, orb_false_r by lia.
    unfold SHIFT_U32. rewrite u32_spec_low, Z.shiftl_0_r by lia. done.
  - rewrite andb_false_r. rewrite masked_write_spec, wmask_of_spec, Er.
    by rewrite andb_false_r.
Qed.

End MaskedWrites.

Section SuspendResume.
Context {P : Platform} {D : Device}.

Lemma for_range_inv (I : nat -> machine -> Prop) (body : nat -> M unit)
    (lo n : nat) (s : machine) :
  I lo s ->
  (forall i s0, (lo <= i < lo + n)%nat -> I i s0 ->
                exists s', body i s0 = Done tt s' /\ I (S i) s') ->
  exists s', for_range lo n body s = Done tt s' /\ I (lo + n)%nat s'.
Proof.
  revert lo s. induction n as [|n IH]; intros lo s HI Hbody; simpl.
  - exists s. split; [done|]. by rewrite Nat.add_0_r.
  - destruct (Hbody lo s) as (s1 & H1 & HI1); [lia | done |].
    destruct (IH (S lo) s1 HI1) as (s2 & H2 & HI2).
    { intros i s0 Hi. apply Hbody. lia. }
    exists s2. rewrite (bind_done _ _ _ _ _ H1). split; [done|].
    by replace (lo + S n)%nat with (S lo + n)%nat by lia.
Qed.

Lemma cru_store_cru (r : cru_reg) (v : Z) (s : machine) :
  cru (store (CRU_BASE r) v s) = <[r := masked_write (cru s r) v]> (cru s).
Proof. reflexivity. Qed.

Lemma dram_d_store (a : addr) (v : Z) (s : machine) :
  dram_d (store a v s) = dram_d s.
Proof. by destruct a. Qed.

Lemma load_cru (r : cru_reg) (s : machine) :
  (forall p, r <> CRU_PLL_CON1 p) -> load (CRU_BASE r) s = cru s r.
Proof. intros Hr. destruct r; try done. by destruct (Hr pll). Qed.

(** [clks_disable]: every gate register in range is saved and then
    written under a mask; nothing else changes. *)
Lemma clks_disable_effect (s : machine) :
  length (cru_clkgate (dram_d s)) = CRU_CLKGATE_CON_CNT ->
  exists s1,
    clks_disable s = Done tt s1 /\
    (forall r, (forall i, r <> CRU_CLKGATE_CON i) -> cru s1 r = cru s r) /\
    (forall i, exists w,
        cru s1 (CRU_CLKGATE_CON i) = masked_write (cru s (CRU_CLKGATE_CON i)) w) /\
    (forall i, ~ (0 <= i < 16) -> cru s1 (CRU_CLKGATE_CON i) = cru s (CRU_CLKGATE_CON i)) /\
    (forall j, (j < 16)%nat ->
        cru_clkgate (dram_d s1) !! j = Some (cru s (CRU_CLKGATE_CON (Z.of_nat j)))).
Proof.
  intros Hlen. unfold clks_disable.
  destruct (for_range_inv
    (fun k sc =>
       (forall r, (forall i, r <> CRU_CLKGATE_CON i) -> cru sc r = cru s r) /\
       (forall i, exists w,
           cru sc (CRU_CLKGATE_CON i) = masked_write (cru s (CRU_CLKGATE_CON i)) w) /\
       (forall i, ~ (0 <= i < Z.of_nat k) ->
           cru sc (CRU_CLKGATE_CON i) = cru s (CRU_CLKGATE_CON i)) /\
       (forall j, (j < k)%nat ->
           cru_clkgate (dram_d sc) !! j = Some (cru s (CRU_CLKGATE_CON (Z.of_nat j)))) /\
       length (cru_clkgate (dram_d sc)) = CRU_CLKGATE_CON_CNT)
    (fun i =>
       v <- read32 (CRU_BASE (CRU_CLKGATE_CON (Z.of_nat i))) ;;
       modify_dram_d (set_cru_clkgate i v) ;;
       write32 (BITS_WITH_WMASK (clks_gating_table !!! i) 0xffff 0)
               (CRU_BASE (CRU_CLKGATE_CON (Z.of_nat i))))
    0%nat CRU_CLKGATE_CON_CNT s) as (s1 & Hrun & H1 & H2 & H3 & H4 & _).
  - split; [done|]. split; [|split; [done|split; [intros; lia | done]]].
    intros i. exists 0. apply Z.bits_inj. intros n.
    rewrite masked_write_spec, wmask_of_spec. by rewrite Z.bits_0.
  - intros i sc Hi (I1 & I2 & I3 & I4 & I5).
    rewrite bind_read32, bind_modify, bind_write32_end.
    eexists. split; [reflexivity|].
    assert (Hv : load (CRU_BASE (CRU_CLKGATE_CON (Z.of_nat i))) sc
                 = cru s (CRU_CLKGATE_CON (Z.of_nat i))).
    { rewrite load_cru by done. apply I3. lia. }
    rewrite Hv. machine_simpl. rewrite cru_store_cru. machine_simpl.
    assert (Hdd : dram_d (store (CRU_BASE (CRU_CLKGATE_CON (Z.of_nat i)))
                     (BITS_WITH_WMASK (clks_gating_table !!! i) 65535 0)
                     (set_dram_d (set_cru_clkgate i (cru s (CRU_CLKGATE_CON (Z.of_nat i)))
                                    (dram_d sc))
                        (emit [EvRead (CRU_BASE (CRU_CLKGATE_CON (Z.of_nat i)))
                                      (cru s (CRU_CLKGATE_CON (Z.of_nat i)))] sc)))
                 = set_cru_clkgate i (cru s (CRU_CLKGATE_CON (Z.of_nat i))) (dram_d sc))
      by reflexivity.
    rewrite Hdd. machine_simpl.
    split; [|split; [|split; [|split]]].
    + intros r Hr. rewrite fn_lookup_insert_ne by (intros <-; by eapply Hr). by apply I1.
    + intros i'. destruct (decide (i' = Z.of_nat i)) as [-> | Hne].
      * rewrite fn_lookup_insert. eexists. rewrite I3 by lia. reflexivity.
      * rewrite fn_lookup_insert_ne by congruence. apply I2.
    + intros i' Hi'. rewrite fn_lookup_insert_ne by (intros [=]; lia). apply I3. lia.
    + intros j Hj. destruct (decide (j = i)) as [-> | Hne].
      * apply list_lookup_insert_eq. rewrite I5. unfold CRU_CLKGATE_CON_CNT in *. lia.
      * rewrite list_lookup_insert_ne by done. apply I4. lia.
    + by rewrite length_insert.
  - change (0 + CRU_CLKGATE_CON_CNT)%nat with 16%nat in *.
    change (Z.of_nat 16) with 16 in *.
    exists s1. repeat split; assumption.
Qed.

(** [clks_restore]: every gate register in range is written with its
    snapshot word under the full mask; nothing else changes. *)
Lemma clks_restore_effect (s : machine) :
  exists s1,
    clks_restore s = Done tt s1 /\
    (forall r, (forall i, r <> CRU_CLKGATE_CON i) -> cru s1 r = cru s r) /\
    (forall i, ~ (0 <= i < 16) -> cru s1 (CRU_CLKGATE_CON i) = cru s (CRU_CLKGATE_CON i)) /\
    (forall j, (j < 16)%nat ->
        cru s1 (CRU_CLKGATE_CON (Z.of_nat j)) =
        masked_write (cru s (CRU_CLKGATE_CON (Z.of_nat j)))
                     (BITS_WITH_WMASK (cru_clkgate (dram_d s) !!! j) 0xffff 0)).
Proof.
  unfold clks_restore.
  destruct (for_range_inv
    (fun k sc =>
       dram_d sc = dram_d s /\
       (forall r, (forall i, r <> CRU_CLKGATE_CON i) -> cru sc r = cru s r) /\
       (forall i, ~ (0 <= i < Z.of_nat k) ->
           cru sc (CRU_CLKGATE_CON i) = cru s (CRU_CLKGATE_CON i)) /\
       (forall j, (j < k)%nat ->
           cru sc (CRU_CLKGATE_CON (Z.of_nat j)) =
           masked_write (cru s (CRU_CLKGATE_CON (Z.of_nat j)))
                        (BITS_WITH_WMASK (cru_clkgate (dram_d s) !!! j) 0xffff 0)))
    (fun i =>
       d <- get_dram_d ;;
       write32 (BITS_WITH_WMASK (cru_clkgate d !!! i) 0xffff 0)
               (CRU_BASE (CRU_CLKGATE_CON (Z.of_nat i))))
    0%nat CRU_CLKGATE_CON_CNT s) as (s1 & Hrun & _ & H2 & H3 & H4).
  - split; [done|]. split; [done|]. split; [done|]. intros; lia.
  - intros i sc Hi (I1 & I2 & I3 & I4).
    rewrite bind_get_dram_d, bind_write32_end.
    eexists. split; [reflexivity|]. rewrite I1.
    machine_simpl. rewrite cru_store_cru, dram_d_store.
    split; [|split; [|split]].
    + done.
    + intros r Hr. rewrite fn_lookup_insert_ne by (intros <-; by eapply Hr). by apply I2.
    + intros i' Hi'. rewrite fn_lookup_insert_ne by (intros [=]; lia). apply I3. lia.
    + intros j Hj. destruct (decide (j = i)) as [-> | Hne].
      * rewrite fn_lookup_insert. rewrite I3 by lia. reflexivity.
      * rewrite fn_lookup_insert_ne by (intros [=]; lia). apply I4. lia.
  - change (0 + CRU_CLKGATE_CON_CNT)%nat with 16%nat in *.
    change (Z.of_nat 16) with 16 in *.
    exists s1. repeat split; assumption.
Qed.

(** The polls of [pll_wait_lock] only add to the log. *)
Lemma poll_loop_only_logs (a : addr) (mask : Z) (fuel : nat) (loop : Z) (s : machine) :
  exists t,
    final (while_loop fuel
      (fun loop => v <- read32 a ;;
                   ret (negb (nonzero (Z.land v mask)) && (loop <? 500)))
      (fun loop => udelay 2 ;; ret (u32 (loop + 1)))
      loop s) = emit t s.
Proof.
  revert loop s. induction fuel as [|n IH]; intros loop s; simpl.
  - exists []. by rewrite emit_nil.
  - rewrite bind_assoc, bind_read32, bind_ret.
    destruct (negb (nonzero (Z.land (load a s) mask)) && (loop <? 500)).
    + rewrite bind_assoc. unfold udelay at 1. rewrite bind_log, bind_ret.
      destruct (IH (u32 (loop + 1))
                  (emit [EvUdelay 2] (emit [EvRead a (load a s)] s))) as (t & Ht).
      rewrite Ht, !emit_emit. by eexists.
    + by eexists.
Qed.

Lemma pll_wait_lock_only_logs (fuel : nat) (pll : Z) (s : machine) :
  exists t, final (pll_wait_lock fuel pll s) = emit t s.
Proof.
  unfold pll_wait_lock.
  destruct (poll_loop_only_logs (CRU_BASE (CRU_PLL_CON1 pll)) PLL_LOCK fuel 0 s)
    as (t & Ht).
  unfold bind at 1.
  destruct (while_loop _ _ _ _ s) as [loop s1 | s1 | s1]; simpl in Ht; subst s1;
    [|by eexists..].
  rewrite bind_read32.
  destruct (negb _).
  - unfold EMSG. rewrite bind_ret. unfold panic. simpl. rewrite !emit_emit. by eexists.
  - simpl. rewrite emit_emit. by eexists.
Qed.

Lemma tracks_emit (C : cru_reg -> Z) (Dd : dram_data) (t : list event) (s : machine) :
  tracks C Dd s -> tracks C Dd (emit t s).
Proof. done. Qed.

Lemma run_write_cru {A} (C : cru_reg -> Z) (Dd : dram_data) (s : machine) (r : cru_reg)
    (v : Z) (k : unit -> M A) (a : A) (s' : machine) :
  tracks C Dd s -> (forall p, r <> CRU_PLL_CON1 p) ->
  bind (write32 v (CRU_BASE r)) k s = Done a s' ->
  exists s1, tracks (<[r := masked_write (C r) v]> C) Dd s1 /\ k tt s1 = Done a s'.
Proof.
  intros [HC HD] Hr H. rewrite bind_write32 in H. eexists. split; [|exact H].
  split.
  - intros r' Hr'. machine_simpl. rewrite cru_store_cru.
    destruct (decide (r = r')) as [<- | Hne].
    + rewrite !fn_lookup_insert. by rewrite HC.
    + rewrite !fn_lookup_insert_ne by done. by apply HC.
  - machine_simpl. by rewrite dram_d_store.
Qed.

Lemma run_write_pll {A} (C : cru_reg -> Z) (Dd : dram_data) (s : machine) (p v : Z)
    (k : unit -> M A) (a : A) (s' : machine) :
  tracks C Dd s ->
  bind (write32 v (CRU_BASE (CRU_PLL_CON1 p))) k s = Done a s' ->
  exists s1, tracks C Dd s1 /\ k tt s1 = Done a s'.
Proof.
  intros [HC HD] H. rewrite bind_write32 in H. eexists. split; [|exact H].
  split.
  - intros r' Hr'. machine_simpl. rewrite cru_store_cru.
    rewrite fn_lookup_insert_ne by (intros <-; by eapply Hr'). by apply HC.
  - machine_simpl. by rewrite dram_d_store.
Qed.

Lemma run_read_cru {A} (C : cru_reg -> Z) (Dd : dram_data) (s : machine) (r : cru_reg)
    (k : Z -> M A) (a : A) (s' : machine) :
  tracks C Dd s -> (forall p, r <> CRU_PLL_CON1 p) ->
  bind (read32 (CRU_BASE r)) k s = Done a s' ->
  exists s1, tracks C Dd s1 /\ k (C r) s1 = Done a s'.
Proof.
  intros HT Hr H. rewrite bind_read32, load_cru in H by done.
  destruct HT as [HC HD]. rewrite HC in H by done.
  eexists. split; [|exact H]. done.
Qed.

Lemma run_modify {A} (C : cru_reg -> Z) (Dd : dram_data) (s : machine)
    (f : dram_data -> dram_data) (k : unit -> M A) (a : A) (s' : machine) :
  tracks C Dd s ->
  bind (modify_dram_d f) k s = Done a s' ->
  exists s1, tracks C (f Dd) s1 /\ k tt s1 = Done a s'.
Proof.
  intros [HC HD] H. rewrite bind_modify in H. eexists. split; [|exact H].
  split; [done|]. machine_simpl. by rewrite HD.
Qed.

Lemma run_log {A} (C : cru_reg -> Z) (Dd : dram_data) (s : machine) (e : event)
    (k : unit -> M A) (a : A) (s' : machine) :
  tracks C Dd s ->
  bind (log e) k s = Done a s' ->
  exists s1, tracks C Dd s1 /\ k tt s1 = Done a s'.
Proof. intros HT H. rewrite bind_log in H. eexists. split; [|exact H]. done. Qed.

Lemma run_get_dram_d {A} (C : cru_reg -> Z) (Dd : dram_data) (s : machine)
    (k : dram_data -> M A) (a : A) (s' : machine) :
  tracks C Dd s ->
  bind get_dram_d k s = Done a s' ->
  k Dd s = Done a s'.
Proof. intros [HC HD] H. by rewrite bind_get_dram_d, HD in H. Qed.

Lemma run_pll_wait {A} (C : cru_reg -> Z) (Dd : dram_data) (s : machine)
    (fuel : nat) (p : Z) (k : unit -> M A) (a : A) (s' : machine) :
  tracks C Dd s ->
  bind (pll_wait_lock fuel p) k s = Done a s' ->
  exists s1, tracks C Dd s1 /\ k tt s1 = Done a s'.
Proof.
  intros HT H. destruct (pll_wait_lock_only_logs fuel p s) as (t & Ht).
  unfold bind in H. destruct (pll_wait_lock fuel p s) as [[] s1 | s1 | s1]; try done.
  simpl in Ht. subst s1. eexists. split; [|exact H]. by apply tracks_emit.
Qed.

Lemma BITS_WITH_WMASK_zero (msk shift : Z) :
  BITS_WITH_WMASK 0 msk shift = BITS_WMSK msk shift.
Proof. unfold BITS_WITH_WMASK, SHIFT_U32. by rewrite Z.shiftl_0_l. Qed.

Lemma agree_clean2 (d cur x k1 k2 : Z) :
  agree d cur x ->
  (forall n, n < 16 -> Z.testbit (Z.lor k1 k2) n = false) ->
  agree (Z.land d (Z.lnot (wmask_of (Z.lor k1 k2))))
        (masked_write cur (Z.lor (Z.lor x k1) k2)) x.
Proof. rewrite <- Z.lor_assoc. apply agree_clean. Qed.

Lemma agree_clean3 (d cur x k1 k2 k3 : Z) :
  agree d cur x ->
  (forall n, n < 16 -> Z.testbit (Z.lor (Z.lor k1 k2) k3) n = false) ->
  agree (Z.land d (Z.lnot (wmask_of (Z.lor (Z.lor k1 k2) k3))))
        (masked_write cur (Z.lor (Z.lor (Z.lor x k1) k2) k3)) x.
Proof. rewrite <- !Z.lor_assoc, (Z.lor_assoc k1). apply agree_clean. Qed.

Lemma dirty_cancel3 (a c g : Z) :
  Z.land (Z.land (Z.land (Z.lor (Z.lor (Z.lor 0 g) c) a) (Z.lnot a)) (Z.lnot c))
         (Z.lnot g) = 0.
Proof.
  apply Z.bits_inj'. intros n Hn.
  rewrite !Z.land_spec, !Z.lor_spec, !Z.lnot_spec, !Z.bits_0 by done.
  by destruct (Z.testbit a n), (Z.testbit c n), (Z.testbit g n).
Qed.

(** One step of the suspend path, on the symbolic view [HT] of the
    current state and the remaining run [H]. *)
Ltac suspend_step H HT :=
  rewrite ?bind_assoc in H;
  let s1 := fresh "s" in
  let HT' := fresh "HT" in
  lazymatch type of H with
  | bind (write32 _ (CRU_BASE (CRU_PLL_CON1 _))) _ _ = _ =>
      eapply run_write_pll in H; [ | exact HT ]
  | bind (write32 _ (CRU_BASE _)) _ _ = _ =>
      eapply run_write_cru in H; [ | exact HT | done ]
  | bind (read32 (CRU_BASE _)) _ _ = _ =>
      eapply run_read_cru in H; [ | exact HT | done ]
  | bind (modify_dram_d _) _ _ = _ =>
      eapply run_modify in H; [ | exact HT ]
  | bind (log _) _ _ = _ =>
      eapply run_log in H; [ | exact HT ]
  | bind (pll_wait_lock _ _) _ _ = _ =>
      eapply run_pll_wait in H; [ | exact HT ]
  end;
  destruct H as (s1 & HT' & H); clear HT; rename HT' into HT;
  cbv beta in H;
  repeat first [ rewrite fn_lookup_insert in HT
               | rewrite fn_lookup_insert_ne in HT by congruence ].

Ltac low_half_clear :=
  intros ? ?; rewrite ?Z.lor_spec, !BITS_WMSK_low by (first [lia | assumption]);
  reflexivity.

Ltac restore_step :=
  lazymatch goal with
  | |- agree _ (masked_write _ (Z.lor (Z.lor (Z.lor ?x _) _) _)) ?x => apply agree_clean3
  | |- agree _ (masked_write _ (Z.lor (Z.lor ?x _) _)) ?x => apply agree_clean2
  | |- agree _ (masked_write _ (Z.lor ?x _)) ?x => apply agree_clean
  | |- agree _ (masked_write _ _) _ => apply agree_dirty
  | |- agree _ ?x ?x => apply agree_refl
  | |- forall n, n < 16 -> _ => low_half_clear
  end.

Ltac restore_chain := eapply agree_eq; [ repeat restore_step | ].

(** Whenever [psci_system_suspend] returns, the clock-gate, clock-select
    and PLL-mode registers hold the words they held before the call. *)
Lemma suspend_roundtrip_if_returns (fuel : nat) (entry context_id : Z)
    (s s' : machine) (r : psci_ret) :
  pll_mode_layout ->
  length (cru_clkgate (dram_d s)) = CRU_CLKGATE_CON_CNT ->
  psci_system_suspend fuel entry context_id s = Done r s' ->
  (forall i, cru s' (CRU_CLKGATE_CON i) = cru s (CRU_CLKGATE_CON i)) /\
  (forall i, cru s' (CRU_CLKSEL_CON i) = cru s (CRU_CLKSEL_CON i)) /\
  cru s' CRU_MODE_CON = cru s CRU_MODE_CON.
Proof.
  intros Hlay Hlen H.
  unfold pll_mode_layout in Hlay.
  inversion Hlay as [|? ? [HbA HsA] Hlay1]; subst.
  inversion Hlay1 as [|? ? [HbC HsC] Hlay2]; subst.
  inversion Hlay2 as [|? ? [HbG HsG] _]; subst.
  clear Hlay Hlay1 Hlay2.
  unfold psci_system_suspend in H.
  rewrite (bind_done _ _ _ _ _ (DMSG_skip s)) in H.
  destruct (clks_disable_effect s Hlen) as (s1 & Hcd & G1 & G2 & G3 & G4).
  rewrite (bind_done _ _ _ _ _ Hcd) in H. clear Hcd.
  assert (HT : tracks (cru s1) (dram_d s1) s1) by done.
  remember (cru s1) as C1 eqn:EC1. remember (dram_d s1) as Dd1 eqn:ED1.
  clear EC1.
  unfold plls_power_down, pll_power_down, plls_restore, pll_power_up,
    cache_op_inner, wfi, udelay in H.
  do 10 suspend_step H HT.
  do 6 suspend_step H HT.
  do 6 suspend_step H HT.
  do 2 suspend_step H HT.
  do 4 suspend_step H HT.
  do 3 suspend_step H HT.
  rewrite ?bind_assoc in H. apply (run_get_dram_d _ _ _ _ _ _ HT) in H.
  cbn [cru_mode_con cru_clksel0 cru_clksel1 cru_clksel10 cru_clksel21
       set_cru_mode_con set_cru_clksel0 set_cru_clksel1 set_cru_clksel10
       set_cru_clksel21] in H.
  do 9 suspend_step H HT.
  lazymatch type of HT with
  | tracks _ _ ?sn =>
      destruct (clks_restore_effect sn) as (sfin & Hcr & R1 & R2 & R3)
  end.
  rewrite (bind_done _ _ _ _ _ Hcr) in H. clear Hcr.
  injection H as <- <-.
  destruct HT as [HC HD].
  split; [|split].
  - intros i. destruct (decide (0 <= i < 16)) as [Hi | Hi].
    + replace i with (Z.of_nat (Z.to_nat i)) by lia.
      rewrite R3 by lia. rewrite HC by done. rewrite HD. machine_simpl.
      repeat rewrite fn_lookup_insert_ne by congruence.
      erewrite list_lookup_total_correct by (apply G4; lia).
      destruct (G2 (Z.of_nat (Z.to_nat i))) as (w & ->).
      apply gate_roundtrip.
    + rewrite R2 by done. rewrite HC by done.
      repeat rewrite fn_lookup_insert_ne by congruence.
      by apply G3.
  - intros i. rewrite R1 by done. rewrite HC by done.
    destruct (decide (i = 0)) as [-> | H0];
      [|destruct (decide (i = 1)) as [-> | H1];
        [|destruct (decide (i = 10)) as [-> | H10];
          [|destruct (decide (i = 21)) as [-> | H21]]]];
      repeat first [ rewrite fn_lookup_insert
                   | rewrite fn_lookup_insert_ne by congruence ];
      rewrite ?G1 by done.
    + restore_chain. vm_compute. reflexivity.
    + restore_chain. vm_compute. reflexivity.
    + restore_chain. vm_compute. reflexivity.
    + restore_chain. vm_compute. reflexivity.
    + reflexivity.
  - rewrite R1 by done. rewrite HC by done.
    repeat first [ rewrite fn_lookup_insert
                 | rewrite fn_lookup_insert_ne by congruence ].
    rewrite G1 by done.
    rewrite HsA, HsC, HsG, !BITS_WITH_WMASK_zero.
    restore_chain. apply dirty_cancel3.
Qed.

(** With PLLs that report lock, the restore path and the whole call
    return. *)
Lemma plls_restore_returns (fuel : nat) (s : machine) :
  (500 < fuel)%nat ->
  (forall pll h, nonzero (Z.land (cru_pll_con1 pll h) PLL_LOCK) = true) ->
  exists s', plls_restore fuel s = Done tt s'.
Proof.
  intros Hf Hlock. unfold plls_restore, pll_power_up.
  rewrite !bind_write32. unfold udelay at 1. rewrite bind_log.
  match goal with |- context [bind (pll_wait_lock fuel APLL_ID) _ ?sa] =>
    destruct (pll_wait_lock_spec fuel APLL_ID sa Hf) as (tA & vA & _ & _ & -> & HrA)
  end.
  rewrite Hlock in HrA. rewrite (bind_done _ _ _ _ _ HrA).
  match goal with |- context [bind (pll_wait_lock fuel GPLL_ID) _ ?sa] =>
    destruct (pll_wait_lock_spec fuel GPLL_ID sa Hf) as (tG & vG & _ & _ & -> & HrG)
  end.
  rewrite Hlock in HrG. rewrite (bind_done _ _ _ _ _ HrG).
  match goal with |- context [bind (pll_wait_lock fuel CPLL_ID) _ ?sa] =>
    destruct (pll_wait_lock_spec fuel CPLL_ID sa Hf) as (tC & vC & _ & _ & -> & HrC)
  end.
  rewrite Hlock in HrC. rewrite (bind_done _ _ _ _ _ HrC).
  rewrite bind_get_dram_d, !bind_write32, bind_write32_end.
  eexists. reflexivity.
Qed.

Lemma suspend_returns_when_plls_lock (fuel : nat) (entry context_id : Z) (s : machine) :
  (500 < fuel)%nat ->
  (forall pll h, nonzero (Z.land (cru_pll_con1 pll h) PLL_LOCK) = true) ->
  exists s', psci_system_suspend fuel entry context_id s = Done PSCI_RET_SUCCESS s'.
Proof.
  intros Hf Hlock. unfold psci_system_suspend.
  rewrite (bind_done _ _ _ _ _ (DMSG_skip s)).
  destruct (clks_disable_returns s) as (s1 & H1 & _).
  rewrite (bind_done _ _ _ _ _ H1).
  destruct (plls_power_down_returns s1) as (s2 & H2 & _).
  rewrite (bind_done _ _ _ _ _ H2).
  unfold cache_op_inner, wfi. rewrite !bind_log.
  match goal with |- context [bind (plls_restore fuel) _ ?sa] =>
    destruct (plls_restore_returns fuel sa Hf Hlock) as (s3 & H3)
  end.
  rewrite (bind_done _ _ _ _ _ H3).
  destruct (clks_restore_effect s3) as (s4 & H4 & _).
  rewrite (bind_done _ _ _ _ _ H4).
  by eexists.
Qed.

(** C3. For any register contents before the call: once
    [psci_system_suspend] has run its save/disable phase and its
    restore phase and returned, every clock-gate register, every
    clock-select register and the PLL-mode register holds exactly the
    word it held before, bit for bit; and the call does return, with
    SUCCESS, when the PLLs report lock.  (If a PLL fails to lock the
    restore phase does not complete: the system halts.)  The snapshot
    array has its [CRU_CLKGATE_CON_CNT] slots, and the mode-bit macros
    are laid out as [pll_mode_layout] says. *)
Theorem suspend_resume_restores_clocks (fuel : nat) (entry context_id : Z)
    (s : machine) :
  pll_mode_layout ->
  length (cru_clkgate (dram_d s)) = CRU_CLKGATE_CON_CNT ->
  (forall r s',
     psci_system_suspend fuel entry context_id s = Done r s' ->
     (forall i, cru s' (CRU_CLKGATE_CON i) = cru s (CRU_CLKGATE_CON i)) /\
     (forall i, cru s' (CRU_CLKSEL_CON i) = cru s (CRU_CLKSEL_CON i)) /\
     cru s' CRU_MODE_CON = cru s CRU_MODE_CON) /\
  ((500 < fuel)%nat ->
   (forall pll h, nonzero (Z.land (cru_pll_con1 pll h) PLL_LOCK) = true) ->
   exists s', psci_system_suspend fuel entry context_id s = Done PSCI_RET_SUCCESS s').
Proof.
  intros Hlay Hlen. split.
  - intros r s' H. by eapply suspend_roundtrip_if_returns.
  - apply suspend_returns_when_plls_lock.
Qed.

End SuspendResume.

(** * The theorems on concrete runs of the rk322x build *)

Lemma psci_cpu_on_rejects_invalid_core_witness :
  (Z.land 4 (@MPIDR_CPU_MASK rk322x) = 0 \/
   @CFG_TEE_CORE_NB_CORE rk322x <= Z.land 4 (@MPIDR_CPU_MASK rk322x)) /\
  @psci_cpu_on rk322x parked_device 501 4 0x80100000 0 (boot_machine 0)
  = Done PSCI_RET_INVALID_PARAMETERS (boot_machine 0).
Proof.
  assert (H : Z.land 4 (@MPIDR_CPU_MASK rk322x) = 0 \/
              @CFG_TEE_CORE_NB_CORE rk322x <= Z.land 4 (@MPIDR_CPU_MASK rk322x))
    by (right; vm_compute; discriminate).
  split; [exact H|].
  exact (@psci_cpu_on_rejects_invalid_core rk322x parked_device 501 4 0x80100000 0
           (boot_machine 0) H).
Defined.

(** C1 as stated fails: core id 257 is not below the number of cores,
    yet its low byte is 1, so the call goes ahead with core 1, stores
    the entry address, writes registers and succeeds. *)
Lemma psci_cpu_on_accepts_core_id_257 :
  @CFG_TEE_CORE_NB_CORE rk322x <= 257 /\
  result (@psci_cpu_on rk322x parked_device 501 257 0x80100000 0 (boot_machine 0))
  = Some PSCI_RET_SUCCESS /\
  ns_entry_addrs
    (final (@psci_cpu_on rk322x parked_device 501 257 0x80100000 0 (boot_machine 0)))
  = [0; 0x80100000; 0; 0] /\
  existsb is_write
    (trace (final (@psci_cpu_on rk322x parked_device 501 257 0x80100000 0 (boot_machine 0))))
  = true.
Proof.
  split; [vm_compute; discriminate|]. split; [vm_compute; reflexivity|].
  split; vm_compute; reflexivity.
Qed.

Lemma suspend_resume_restores_clocks_witness :
  @pll_mode_layout rk322x /\
  length (cru_clkgate (dram_d (boot_machine 0))) = CRU_CLKGATE_CON_CNT /\
  (500 < 501)%nat /\
  (forall pll h,
     nonzero (Z.land (@cru_pll_con1 parked_device pll h) (@PLL_LOCK rk322x)) = true) /\
  exists s',
    @psci_system_suspend rk322x parked_device 501 0 0 (boot_machine 0)
    = Done PSCI_RET_SUCCESS s' /\
    (forall i, cru s' (CRU_CLKGATE_CON i) = boot_cru (CRU_CLKGATE_CON i)) /\
    (forall i, cru s' (CRU_CLKSEL_CON i) = boot_cru (CRU_CLKSEL_CON i)) /\
    cru s' CRU_MODE_CON = boot_cru CRU_MODE_CON.
Proof.
  assert (H1 : @pll_mode_layout rk322x) by (repeat constructor; vm_compute; congruence).
  assert (H2 : length (cru_clkgate (dram_d (boot_machine 0))) = CRU_CLKGATE_CON_CNT)
    by reflexivity.
  assert (H3 : (500 < 501)%nat) by lia.
  assert (H4 : forall pll h,
     nonzero (Z.land (@cru_pll_con1 parked_device pll h) (@PLL_LOCK rk322x)) = true)
    by (intros; reflexivity).
  split; [exact H1|]. split; [exact H2|]. split; [exact H3|]. split; [exact H4|].
  destruct (@suspend_resume_restores_clocks rk322x parked_device 501 0 0
              (boot_machine 0) H1 H2) as [Hround Hret].
  destruct (Hret H3 H4) as (s' & Hs').
  exists s'. split; [exact Hs'|]. exact (Hround _ _ Hs').
Defined.

Lemma pll_lock_failure_is_fatal_witness :
  (500 < 501)%nat /\
  (forall h, Z.land (@cru_pll_con1 wedged_device (@APLL_ID rk322x) h) (@PLL_LOCK rk322x) = 0) /\
  exists s' t0 t,
    @psci_system_suspend rk322x wedged_device 501 0 0 (boot_machine 0) = Halt s' /\
    trace s' = trace (boot_machine 0) ++ t0 ++ [EvUdelay 200] ++ t ++ [EvPanic] /\
    Forall (fun e => is_write e = false) t.
Proof.
  assert (H1 : (500 < 501)%nat) by lia.
  assert (H2 : forall h,
    Z.land (@cru_pll_con1 wedged_device (@APLL_ID rk322x) h) (@PLL_LOCK rk322x) = 0)
    by (intros; reflexivity).
  split; [exact H1|]. split; [exact H2|].
  destruct (@pll_lock_failure_is_fatal rk322x wedged_device 501 (@APLL_ID rk322x) 0 0
              (boot_machine 0) H1 H2) as [_ Hall].
  destruct (Hall (or_introl eq_refl)) as [_ Hsusp]. exact Hsusp.
Defined.

Lemma busy_waits_are_bounded_witness :
  (500 < 501)%nat /\
  exists (b : bool) t,
    @wait_core_wfe_i rk322x wedged_device 501 2 (running_machine 0)
    = Done b (emit t (running_machine 0)) /\
    Forall (fun e => is_poll (GRF_BASE GRF_CPU_STATUS1) e = true) t /\
    (count_udelay t <= 500)%nat.
Proof.
  assert (H : (500 < 501)%nat) by lia.
  split; [exact H|].
  exact (proj1 (@busy_waits_are_bounded rk322x wedged_device 501 2 (running_machine 0) H)).
Defined.

Lemma psci_affinity_info_decodes_status_bit_witness :
  0 <= 6 /\
  @CORE_WFI_MASK rk322x (Z.land 1 (@MPIDR_CPU_MASK rk322x)) = 2 ^ 6 /\
  affinity_of_status (@CORE_WFI_MASK rk322x (Z.land 1 (@MPIDR_CPU_MASK rk322x)))
                     (Z.lxor 0 (2 ^ 6))
  = flip_affinity
      (affinity_of_status (@CORE_WFI_MASK rk322x (Z.land 1 (@MPIDR_CPU_MASK rk322x))) 0).
Proof.
  assert (H1 : 0 <= 6) by lia.
  assert (H2 : @CORE_WFI_MASK rk322x (Z.land 1 (@MPIDR_CPU_MASK rk322x)) = 2 ^ 6)
    by reflexivity.
  split; [exact H1|]. split; [exact H2|].
  exact (proj2 (proj2 (proj2
           (@psci_affinity_info_decodes_status_bit rk322x parked_device 1 0
              (boot_machine 0)))) 6 0 H1 H2).
Defined.

Lemma psci_cpu_off_parks_core_witness :
  core_pos (boot_machine 1) <> 0 /\
  core_pos (boot_machine 1) < @CFG_TEE_CORE_NB_CORE rk322x /\
  @psci_cpu_off rk322x 3 (boot_machine 1) =
    Spin (emit ([EvArmv7CpuOff; EvMaskExceptions (@THREAD_EXCP_ALL rk322x)]
                ++ repeat EvWfi 3) (boot_machine 1)).
Proof.
  assert (H1 : core_pos (boot_machine 1) <> 0) by (vm_compute; congruence).
  assert (H2 : core_pos (boot_machine 1) < @CFG_TEE_CORE_NB_CORE rk322x) by (vm_compute; congruence).
  split; [exact H1|]. split; [exact H2|].
  exact (proj2 (@psci_cpu_off_parks_core rk322x 3 (boot_machine 1)) H1 H2).
Defined.

(** C9 as stated fails on the order: the power-down preparation is
    called first and exceptions are masked second. *)
Lemma psci_cpu_off_prepares_before_masking :
  trace (final (@psci_cpu_off rk322x 3 (boot_machine 1)))
  = [EvArmv7CpuOff; EvMaskExceptions 7; EvWfi; EvWfi; EvWfi] /\
  precedes EvArmv7CpuOff (EvMaskExceptions 7)
           (trace (final (@psci_cpu_off rk322x 3 (boot_machine 1)))) /\
  ~ precedes (EvMaskExceptions 7) EvArmv7CpuOff
             (trace (final (@psci_cpu_off rk322x 3 (boot_machine 1)))).
Proof.
  assert (Ht : trace (final (@psci_cpu_off rk322x 3 (boot_machine 1)))
               = [EvArmv7CpuOff; EvMaskExceptions 7; EvWfi; EvWfi; EvWfi])
    by (vm_compute; reflexivity).
  rewrite Ht. split; [done|]. split.
  - exists [], [], [EvWfi; EvWfi; EvWfi]. reflexivity.
  - intros (l1 & l2 & l3 & Heq).
    destruct l1 as [|e1 l1]; [discriminate|].
    injection Heq as _ Heq.
    assert (Hin : In EvArmv7CpuOff [EvMaskExceptions 7; EvWfi; EvWfi; EvWfi]).
    { rewrite Heq. apply in_or_app. right. right. apply in_or_app. right. by left. }
    simpl in Hin. destruct Hin as [|[|[|[|[]]]]]; discriminate.
Qed.

Lemma cpu_on_entry_slot_not_rolled_back_witness :
  Z.land 2 (@MPIDR_CPU_MASK rk322x) <> 0 /\
  Z.land 2 (@MPIDR_CPU_MASK rk322x) < @CFG_TEE_CORE_NB_CORE rk322x /\
  (500 < 501)%nat /\
  exists r s' rest,
    @psci_cpu_on rk322x wedged_device 501 2 0x80100000 0 (running_machine 0) = Done r s' /\
    (r = PSCI_RET_SUCCESS \/ r = PSCI_RET_DENIED) /\
    trace s' = trace (running_machine 0)
               ++ EvStoreEntry (Z.land 2 (@MPIDR_CPU_MASK rk322x)) 0x80100000 :: rest /\
    ns_entry_addrs s' = <[Z.to_nat (Z.land 2 (@MPIDR_CPU_MASK rk322x)) := 0x80100000]>
                          (ns_entry_addrs (running_machine 0)) /\
    ((Z.to_nat (Z.land 2 (@MPIDR_CPU_MASK rk322x))
      < length (ns_entry_addrs (running_machine 0)))%nat ->
     ns_entry_addrs s' !! Z.to_nat (Z.land 2 (@MPIDR_CPU_MASK rk322x)) = Some 0x80100000).
Proof.
  assert (H1 : Z.land 2 (@MPIDR_CPU_MASK rk322x) <> 0) by (vm_compute; congruence).
  assert (H2 : Z.land 2 (@MPIDR_CPU_MASK rk322x) < @CFG_TEE_CORE_NB_CORE rk322x)
    by (vm_compute; congruence).
  assert (H3 : (500 < 501)%nat) by lia.
  split; [exact H1|]. split; [exact H2|]. split; [exact H3|].
  exact (@cpu_on_entry_slot_not_rolled_back rk322x wedged_device 501 2 0x80100000 0
           (running_machine 0) H1 H2 H3).
Defined.

(** The call of the previous lemma is one that is denied: the table
    slot keeps the new entry address all the same. *)
Lemma cpu_on_denied_keeps_new_entry :
  result (@psci_cpu_on rk322x wedged_device 501 2 0x80100000 0 (running_machine 0))
  = Some PSCI_RET_DENIED /\
  ns_entry_addrs
    (final (@psci_cpu_on rk322x wedged_device 501 2 0x80100000 0 (running_machine 0)))
  = [0; 0; 0x80100000; 0].
Proof. split; vm_compute; reflexivity. Qed.

(** A denial after the reset pulse: the core is seen waiting, is reset
    and released, and is then lost.  The handoff record is not
    written. *)
Example cpu_on_denied_after_reset :
  result (@psci_cpu_on rk322x lost_after_reset_device 501 2 0x80100000 0 (running_machine 0))
  = Some PSCI_RET_DENIED /\
  existsb is_softrst_write
    (trace (final (@psci_cpu_on rk322x lost_after_reset_device 501 2 0x80100000 0
                     (running_machine 0)))) = true /\
  existsb is_isram_write
    (trace (final (@psci_cpu_on rk322x lost_after_reset_device 501 2 0x80100000 0
                     (running_machine 0)))) = false /\
  count_udelay
    (trace (final (@psci_cpu_on rk322x lost_after_reset_device 501 2 0x80100000 0
                     (running_machine 0)))) = 501%nat.
Proof. repeat split; vm_compute; reflexivity. Qed.

(** The scenario of the specification: core 2 held in reset and
    reporting wait-for-event. *)
Example cpu_on_core_2_from_boot :
  result (@psci_cpu_on rk322x parked_device 501 2 0x80100000 0 (boot_machine 0))
  = Some PSCI_RET_SUCCESS /\
  ns_entry_addrs
    (final (@psci_cpu_on rk322x parked_device 501 2 0x80100000 0 (boot_machine 0)))
  = [0; 0; 0x80100000; 0] /\
  isram (final (@psci_cpu_on rk322x parked_device 501 2 0x80100000 0 (boot_machine 0)))
        LOCK_ADDR_OFFSET = 0xdeadbeaf /\
  Z.land (cru (final (@psci_cpu_on rk322x parked_device 501 2 0x80100000 0 (boot_machine 0)))
              (CRU_SOFTRST_CON 0))
         (@CORE_HELD_IN_RESET rk322x 2) = 0.
Proof. repeat split; vm_compute; reflexivity. Qed.

(** In a debug build the trace message of [psci_affinity_info] samples
    the status register once more. *)
Example affinity_info_debug_build :
  result (@psci_affinity_info rk322x_debug parked_device 1 0 (boot_machine 0))
  = Some PSCI_AFFINITY_LEVEL_OFF /\
  trace (final (@psci_affinity_info rk322x_debug parked_device 1 0 (boot_machine 0)))
  = [EvRead (GRF_BASE GRF_CPU_STATUS1) 0xffffffff;
     EvRead (GRF_BASE GRF_CPU_STATUS1) 0xffffffff] /\
  result (@psci_affinity_info rk322x wedged_device 1 0 (boot_machine 0))
  = Some PSCI_AFFINITY_LEVEL_ON.
Proof. repeat split; vm_compute; reflexivity. Qed.

(** * Further properties of the PSCI core *)

Section Frames.
Context {P : Platform} {D : Device}.

Variable R : machine -> machine -> Prop.
Hypothesis R_refl : forall s, R s s.
Hypothesis R_trans : forall s1 s2 s3, R s1 s2 -> R s2 s3 -> R s1 s3.
Hypothesis R_emit : forall s t, R s (emit t s).

Lemma keeps_ret {A} (a : A) : keeps R (ret a).
Proof. intros s. apply R_refl. Qed.

Lemma keeps_bind {A B} (m : M A) (k : A -> M B) :
  keeps R m -> (forall a, keeps R (k a)) -> keeps R (bind m k).
Proof.
  intros Hm Hk s. unfold bind. specialize (Hm s).
  destruct (m s) as [a s1 | s1 | s1]; simpl in *; [|done..].
  eapply R_trans; [exact Hm | apply Hk].
Qed.

Lemma keeps_log (e : event) : keeps R (log e).
Proof. intros s. apply R_emit. Qed.

Lemma keeps_read32 (a : addr) : keeps R (read32 a).
Proof. intros s. apply R_emit. Qed.

Lemma keeps_panic {A} : keeps R (@panic A).
Proof. intros s. apply R_emit. Qed.

Lemma keeps_while_loop {A} (fuel : nat) (cond : A -> M bool) (body : A -> M A) (a : A) :
  (forall a, keeps R (cond a)) -> (forall a, keeps R (body a)) ->
  keeps R (while_loop fuel cond body a).
Proof.
  intros Hc Hb. revert a. induction fuel as [|n IH]; intros a; simpl.
  - intros s. apply R_refl.
  - apply keeps_bind; [apply Hc|]. intros [].
    + apply keeps_bind; [apply Hb | apply IH].
    + apply keeps_ret.
Qed.

Lemma keeps_for_range (lo n : nat) (body : nat -> M unit) :
  (forall i, keeps R (body i)) -> keeps R (for_range lo n body).
Proof.
  intros Hb. revert lo. induction n as [|n IH]; intros lo; simpl.
  - apply keeps_ret.
  - apply keeps_bind; [apply Hb | intros _; apply IH].
Qed.

Lemma keeps_DMSG (args : M unit) : keeps R args -> keeps R (DMSG args).
Proof. intros H. unfold DMSG. destruct TRACE_DEBUG_ENABLED; [done | apply keeps_ret]. Qed.

Lemma keeps_wait_core_wfe_i (fuel : nat) (core : Z) : keeps R (wait_core_wfe_i fuel core).
Proof.
  unfold wait_core_wfe_i. apply keeps_bind.
  - apply keeps_while_loop; intros loop.
    + apply keeps_bind; [apply keeps_read32 | intros ?; apply keeps_ret].
    + apply keeps_bind; [apply keeps_log | intros ?; apply keeps_ret].
  - intros _. apply keeps_bind; [apply keeps_read32 | intros ?; apply keeps_ret].
Qed.

Lemma keeps_pll_wait_lock (fuel : nat) (pll : Z) : keeps R (pll_wait_lock fuel pll).
Proof.
  unfold pll_wait_lock. apply keeps_bind.
  - apply keeps_while_loop; intros loop.
    + apply keeps_bind; [apply keeps_read32 | intros ?; apply keeps_ret].
    + apply keeps_bind; [apply keeps_log | intros ?; apply keeps_ret].
  - intros _. apply keeps_bind; [apply keeps_read32|]. intros v.
    destruct (negb _); [|apply keeps_ret].
    apply keeps_bind; [apply keeps_ret | intros _; apply keeps_panic].
Qed.

Lemma keeps_write32 (v : Z) (a : addr) :
  (forall s, R s (store a v s)) -> keeps R (write32 v a).
Proof.
  intros H s. simpl. eapply R_trans; [apply H | apply R_emit].
Qed.

Lemma keeps_modify_dram_d (f : dram_data -> dram_data) :
  (forall s, R s (set_dram_d (f (dram_d s)) s)) -> keeps R (modify_dram_d f).
Proof. intros H s. apply H. Qed.

Lemma keeps_get_dram_d : keeps R get_dram_d.
Proof. intros s. apply R_refl. Qed.

End Frames.

Section FrameTheorems.
Context {P : Platform} {D : Device}.

Lemma cpu_on_frame_refl (slot : nat) (s : machine) : cpu_on_frame slot s s.
Proof. by repeat split. Qed.

Lemma cpu_on_frame_trans (slot : nat) (s1 s2 s3 : machine) :
  cpu_on_frame slot s1 s2 -> cpu_on_frame slot s2 s3 -> cpu_on_frame slot s1 s3.
Proof.
  intros (A1 & A2 & A3 & A4 & A5) (B1 & B2 & B3 & B4 & B5).
  repeat split; try congruence.
  - intros r Hr. rewrite B3, A3; done.
  - intros i Hi. rewrite B5, A5; done.
Qed.

Lemma suspend_frame_refl (s : machine) : suspend_frame s s.
Proof. by repeat split. Qed.

Lemma suspend_frame_trans (s1 s2 s3 : machine) :
  suspend_frame s1 s2 -> suspend_frame s2 s3 -> suspend_frame s1 s3.
Proof.
  intros (A1 & A2 & A3 & A4 & A5) (B1 & B2 & B3 & B4 & B5).
  repeat split; try congruence.
Qed.

(** X1. Whatever the budget and however the call ends, [psci_cpu_on]
    leaves the clock snapshot, the calling core's position and every
    CRU register other than the reset-control register as they were,
    keeps the size of the entry table, and changes no table slot but
    that of the (reduced) target core. *)
Theorem psci_cpu_on_leaves_clocks_alone (fuel : nat) (core_idx entry context_id : Z)
    (s : machine) :
  let s' := final (psci_cpu_on fuel core_idx entry context_id s) in
  dram_d s' = dram_d s /\
  core_pos s' = core_pos s /\
  (forall r, r <> CRU_SOFTRST_CON 0 -> cru s' r = cru s r) /\
  length (ns_entry_addrs s') = length (ns_entry_addrs s) /\
  (forall i, i <> Z.to_nat (Z.land core_idx MPIDR_CPU_MASK) ->
             ns_entry_addrs s' !! i = ns_entry_addrs s !! i).
Proof.
  set (slot := Z.to_nat (Z.land core_idx MPIDR_CPU_MASK)).
  assert (Hrefl := cpu_on_frame_refl slot).
  assert (Htrans := cpu_on_frame_trans slot).
  assert (Hemit : forall s0 t, cpu_on_frame slot s0 (emit t s0)) by (by repeat split).
  assert (Hsoft : forall v, keeps (cpu_on_frame slot)
                              (write32 v (CRU_BASE (CRU_SOFTRST_CON 0)))).
  { intros v. apply keeps_write32; [assumption | assumption |]. intros s0. repeat split.
    intros r Hr. rewrite cru_store_cru. by rewrite fn_lookup_insert_ne. }
  assert (Hram : forall v w, keeps (cpu_on_frame slot) (write32 v (ISRAM_BASE w))).
  { intros v w. apply keeps_write32; [assumption | assumption |]. intros s0. by repeat split. }
  assert (Hwait := keeps_wait_core_wfe_i (cpu_on_frame slot) Hrefl Htrans Hemit fuel).
  assert (Hlog := keeps_log (cpu_on_frame slot) Hemit).
  assert (Hret : forall (A : Type) (r : A), keeps (cpu_on_frame slot) (ret r))
    by (intros A r; by apply keeps_ret).
  assert (Hb := fun A B => @keeps_bind (cpu_on_frame slot) Htrans A B).
  assert (Hafter : keeps (cpu_on_frame slot)
    (write32 (CORE_SOFT_RESET (Z.land core_idx MPIDR_CPU_MASK))
             (CRU_BASE (CRU_SOFTRST_CON 0)) ;; dsb ;; udelay 2 ;;
     write32 (CORE_SOFT_RELEASE (Z.land core_idx MPIDR_CPU_MASK))
             (CRU_BASE (CRU_SOFTRST_CON 0)) ;; dsb ;;
     wfei <- wait_core_wfe_i fuel (Z.land core_idx MPIDR_CPU_MASK) ;;
     if negb wfei then EMSG ;; ret PSCI_RET_DENIED
     else write32 CFG_TEE_LOAD_ADDR (ISRAM_BASE BOOT_ADDR_OFFSET) ;;
          write32 LOCK_TAG (ISRAM_BASE LOCK_ADDR_OFFSET) ;;
          dsb ;; sev ;; dsb ;; ret PSCI_RET_SUCCESS)).
  { apply Hb; [apply Hsoft|]. intros _. apply Hb; [apply Hlog|]. intros _.
    apply Hb; [apply Hlog|]. intros _. apply Hb; [apply Hsoft|]. intros _.
    apply Hb; [apply Hlog|]. intros _. apply Hb; [apply Hwait|]. intros wfei.
    destruct (negb wfei).
    - apply Hb; [apply Hret | intros _; apply Hret].
    - apply Hb; [apply Hram|]. intros _. apply Hb; [apply Hram|]. intros _.
      apply Hb; [apply Hlog|]. intros _. apply Hb; [apply Hlog|]. intros _.
      apply Hb; [apply Hlog|]. intros _. apply Hret. }
  assert (Hall : keeps (cpu_on_frame slot) (psci_cpu_on fuel core_idx entry context_id)).
  { unfold psci_cpu_on. cbv zeta.
    destruct ((Z.land core_idx MPIDR_CPU_MASK =? 0)
              || (CFG_TEE_CORE_NB_CORE <=? Z.land core_idx MPIDR_CPU_MASK));
      [apply Hret|].
    apply Hb; [apply keeps_DMSG; [done | apply Hret]|]. intros _.
    apply Hb.
    { intros s0. repeat split.
      - apply length_insert.
      - intros i Hi. by apply list_lookup_insert_ne. }
    intros _. apply Hb.
    { unfold core_held_in_reset. apply Hb; [by apply keeps_read32|].
      intros v. apply Hret. }
    intros held. destruct (negb held); [|apply Hafter].
    apply Hb; [apply Hwait|]. intros wfei. destruct (negb wfei); [|apply Hafter].
    apply Hb; [apply Hret | intros _; apply Hret]. }
  exact (Hall s).
Qed.

(** X2. Whatever the budget and however the call ends -- returned or
    halted on a PLL that would not lock -- [psci_system_suspend] leaves
    the SRAM handoff record, the entry table, the calling core's
    position and the reset-control registers as they were, and keeps
    the size of the clock-gate snapshot. *)
Theorem psci_system_suspend_leaves_cores_alone (fuel : nat) (entry context_id : Z)
    (s : machine) :
  let s' := final (psci_system_suspend fuel entry context_id s) in
  isram s' = isram s /\
  ns_entry_addrs s' = ns_entry_addrs s /\
  core_pos s' = core_pos s /\
  (forall i, cru s' (CRU_SOFTRST_CON i) = cru s (CRU_SOFTRST_CON i)) /\
  length (cru_clkgate (dram_d s')) = length (cru_clkgate (dram_d s)).
Proof.
  assert (Hrefl := suspend_frame_refl).
  assert (Htrans := suspend_frame_trans).
  assert (Hemit : forall s0 t, suspend_frame s0 (emit t s0)) by (by repeat split).
  assert (Hw : forall v r, (forall i, r <> CRU_SOFTRST_CON i) ->
                           keeps suspend_frame (write32 v (CRU_BASE r))).
  { intros v r Hr. apply keeps_write32; [assumption | assumption |]. intros s0. repeat split.
    intros i. rewrite cru_store_cru. rewrite fn_lookup_insert_ne; [done | apply Hr]. }
  assert (Hm : forall f, (forall d, length (cru_clkgate (f d)) = length (cru_clkgate d)) ->
                         keeps suspend_frame (modify_dram_d f)).
  { intros f Hf. apply keeps_modify_dram_d. intros s0. repeat split. simpl. apply Hf. }
  assert (Hlog := keeps_log suspend_frame Hemit).
  assert (Hread := keeps_read32 suspend_frame Hemit).
  assert (Hpll := keeps_pll_wait_lock suspend_frame Hrefl Htrans Hemit fuel).
  assert (Hb := fun A B => @keeps_bind suspend_frame Htrans A B).
  assert (Hall : keeps suspend_frame (psci_system_suspend fuel entry context_id)).
  { unfold psci_system_suspend, clks_disable, plls_power_down, pll_power_down,
      plls_restore, pll_power_up, clks_restore, cache_op_inner, wfi, udelay.
    repeat lazymatch goal with
      | |- keeps _ (bind _ _) => apply Hb; [| intros ?]
      | |- keeps _ (log _) => apply Hlog
      | |- keeps _ (read32 _) => apply Hread
      | |- keeps _ (pll_wait_lock _ _) => apply Hpll
      | |- keeps _ get_dram_d => apply keeps_get_dram_d; assumption
      | |- keeps _ (ret _) => apply keeps_ret; assumption
      | |- keeps _ (DMSG _) => apply keeps_DMSG; [assumption|]
      | |- keeps _ (for_range _ _ _) =>
          apply keeps_for_range; [assumption | assumption | intros ?]
      | |- keeps _ (write32 _ _) => apply Hw; done
      | |- keeps _ (modify_dram_d _) =>
          apply Hm; intros ?; first [done | apply length_insert]
      end. }
  exact (Hall s).
Qed.

End FrameTheorems.

Section CpuOnState.
Context {P : Platform} {D : Device}.

(** The state a call of [psci_cpu_on] with a valid core ends in. *)
Lemma psci_cpu_on_final_state (fuel : nat) (core_idx entry context_id : Z) (s : machine) :
  let c := Z.land core_idx MPIDR_CPU_MASK in
  let old := cru s (CRU_SOFTRST_CON 0) in
  c <> 0 -> c < CFG_TEE_CORE_NB_CORE -> (500 < fuel)%nat ->
  exists r s' new,
    psci_cpu_on fuel core_idx entry context_id s = Done r s' /\
    trace s' = trace s ++ new /\
    cru s' (CRU_SOFTRST_CON 0) =
      (if existsb is_softrst_write new
       then masked_write (masked_write old (CORE_SOFT_RESET c)) (CORE_SOFT_RELEASE c)
       else old) /\
    isram s' =
      match r with
      | PSCI_RET_SUCCESS =>
          <[LOCK_ADDR_OFFSET := LOCK_TAG]> (<[BOOT_ADDR_OFFSET := CFG_TEE_LOAD_ADDR]> (isram s))
      | _ => isram s
      end /\
    (r = PSCI_RET_SUCCESS ->
       existsb is_softrst_write new = true /\ exists pre, new = pre ++ handoff_sequence) /\
    (r = PSCI_RET_SUCCESS \/ r = PSCI_RET_DENIED).
Proof.
  intros c old Hc0 HcN Hf. unfold psci_cpu_on. fold c.
  replace ((c =? 0) || (CFG_TEE_CORE_NB_CORE <=? c)) with false
    by (symmetry; apply orb_false_iff; split; lia).
  cbv zeta.
  rewrite (bind_done _ _ _ _ _ (DMSG_skip s)).
  unfold bind at 1, store_ns_entry at 1.
  set (s1 := emit [EvStoreEntry c entry] _).
  match goal with |- context [bind (core_held_in_reset c) ?k] => set (K := k) end.
  unfold core_held_in_reset. rewrite bind_assoc, bind_read32, bind_ret.
  change (load (CRU_BASE (CRU_SOFTRST_CON 0)) s1) with old.
  set (s2 := emit [EvRead _ old] s1).
  assert (Hafter : forall sa, exists r s' tail,
    (write32 (CORE_SOFT_RESET c) (CRU_BASE (CRU_SOFTRST_CON 0)) ;; dsb ;; udelay 2 ;;
     write32 (CORE_SOFT_RELEASE c) (CRU_BASE (CRU_SOFTRST_CON 0)) ;; dsb ;;
     wfei <- wait_core_wfe_i fuel c ;;
     if negb wfei then EMSG ;; ret PSCI_RET_DENIED
     else write32 CFG_TEE_LOAD_ADDR (ISRAM_BASE BOOT_ADDR_OFFSET) ;;
          write32 LOCK_TAG (ISRAM_BASE LOCK_ADDR_OFFSET) ;;
          dsb ;; sev ;; dsb ;; ret PSCI_RET_SUCCESS) sa = Done r s' /\
    trace s' = trace sa ++ reset_sequence c ++ tail /\
    cru s' (CRU_SOFTRST_CON 0) =
      masked_write (masked_write (cru sa (CRU_SOFTRST_CON 0)) (CORE_SOFT_RESET c))
                   (CORE_SOFT_RELEASE c) /\
    isram s' =
      match r with
      | PSCI_RET_SUCCESS =>
          <[LOCK_ADDR_OFFSET := LOCK_TAG]> (<[BOOT_ADDR_OFFSET := CFG_TEE_LOAD_ADDR]> (isram sa))
      | _ => isram sa
      end /\
    (r = PSCI_RET_SUCCESS -> exists w2, tail = w2 ++ handoff_sequence) /\
    (r = PSCI_RET_SUCCESS \/ r = PSCI_RET_DENIED)).
  { intros sa.
    rewrite bind_write32. unfold dsb at 1. rewrite bind_log.
    unfold udelay at 1. rewrite bind_log.
    rewrite bind_write32. unfold dsb at 1. rewrite bind_log.
    match goal with |- context [bind _ _ ?sb0] => set (sb := sb0) end.
    assert (Hcru : cru sb (CRU_SOFTRST_CON 0) =
              masked_write (masked_write (cru sa (CRU_SOFTRST_CON 0)) (CORE_SOFT_RESET c))
                           (CORE_SOFT_RELEASE c)).
    { subst sb. machine_simpl. rewrite cru_store_cru, fn_lookup_insert.
      machine_simpl. rewrite cru_store_cru, fn_lookup_insert. reflexivity. }
    assert (Hram : isram sb = isram sa) by reflexivity.
    assert (Htr : trace sb = trace sa ++ reset_sequence c).
    { subst sb. unfold reset_sequence.
      repeat first [ rewrite trace_emit | rewrite trace_store ].
      rewrite <- !app_assoc. reflexivity. }
    clearbody sb.
    destruct (wait_core_wfe_i_log fuel c sb Hf) as (ok & w2 & Hrun & Hw2).
    rewrite (bind_done _ _ _ _ _ Hrun).
    destruct ok; cbn [negb]; cbv iota.
    - rewrite !bind_write32. unfold dsb, sev. rewrite !bind_log.
      eexists _, _, (w2 ++ handoff_sequence). split; [reflexivity|].
      split; [|split; [|split; [|split]]].
      + repeat first [ rewrite trace_emit | rewrite trace_store ].
        rewrite Htr. unfold handoff_sequence. rewrite <- !app_assoc. reflexivity.
      + machine_simpl. by rewrite <- Hcru.
      + machine_simpl. by rewrite <- Hram.
      + intros _. by exists w2.
      + by left.
    - unfold EMSG. rewrite bind_ret.
      eexists _, _, w2. split; [reflexivity|].
      split; [|split; [|split; [|split]]].
      + rewrite trace_emit, Htr, <- !app_assoc. reflexivity.
      + machine_simpl. by rewrite <- Hcru.
      + machine_simpl. by rewrite <- Hram.
      + done.
      + by right. }
  assert (Hreset : forall pre tail, existsb is_softrst_write
            (pre ++ reset_sequence c ++ tail) = true).
  { intros pre tail. rewrite existsb_app. apply orb_true_iff. right. reflexivity. }
  assert (Hold2 : cru s2 (CRU_SOFTRST_CON 0) = old) by reflexivity.
  assert (Hram2 : isram s2 = isram s) by reflexivity.
  assert (Htr2 : trace s2 = trace s ++
            [EvStoreEntry c entry; EvRead (CRU_BASE (CRU_SOFTRST_CON 0)) old]).
  { subst s2 s1. rewrite !trace_emit. simpl. by rewrite <- app_assoc. }
  clearbody s2.
  assert (Hfrom : forall w1 sa,
    trace sa = trace s2 ++ w1 -> cru sa (CRU_SOFTRST_CON 0) = old -> isram sa = isram s ->
    forall r s' tail,
    trace s' = trace sa ++ reset_sequence c ++ tail ->
    cru s' (CRU_SOFTRST_CON 0) =
      masked_write (masked_write (cru sa (CRU_SOFTRST_CON 0)) (CORE_SOFT_RESET c))
                   (CORE_SOFT_RELEASE c) ->
    isram s' =
      match r with
      | PSCI_RET_SUCCESS =>
          <[LOCK_ADDR_OFFSET := LOCK_TAG]> (<[BOOT_ADDR_OFFSET := CFG_TEE_LOAD_ADDR]> (isram sa))
      | _ => isram sa
      end ->
    (r = PSCI_RET_SUCCESS -> exists w2, tail = w2 ++ handoff_sequence) ->
    exists new,
      trace s' = trace s ++ new /\
      cru s' (CRU_SOFTRST_CON 0) =
        (if existsb is_softrst_write new
         then masked_write (masked_write old (CORE_SOFT_RESET c)) (CORE_SOFT_RELEASE c)
         else old) /\
      isram s' =
        match r with
        | PSCI_RET_SUCCESS =>
            <[LOCK_ADDR_OFFSET := LOCK_TAG]> (<[BOOT_ADDR_OFFSET := CFG_TEE_LOAD_ADDR]> (isram s))
        | _ => isram s
        end /\
      (r = PSCI_RET_SUCCESS ->
         existsb is_softrst_write new = true /\ exists pre, new = pre ++ handoff_sequence)).
  { intros w1 sa Ha Hca Hra r s' tail Htr Hcru Hram Hs.
    exists (([EvStoreEntry c entry; EvRead (CRU_BASE (CRU_SOFTRST_CON 0)) old] ++ w1)
            ++ reset_sequence c ++ tail).
    split; [rewrite Htr, Ha, Htr2, <- !app_assoc; reflexivity|].
    rewrite Hreset. split; [by rewrite Hcru, Hca|].
    split; [by rewrite Hram, Hra|].
    intros Hr. split; [done|]. destruct (Hs Hr) as (w2 & ->).
    eexists. rewrite !app_assoc. reflexivity. }
  destruct (nonzero (Z.land old (CORE_HELD_IN_RESET c))) eqn:Eheld; subst K;
    cbn [negb]; cbv iota.
  - destruct (Hafter s2) as (r & s' & tail & Hrun & Htr & Hcru & Hram & Hs & Hr).
    destruct (Hfrom [] s2 ltac:(by rewrite app_nil_r) Hold2 Hram2 r s' tail Htr Hcru Hram Hs)
      as (new & F1 & F2 & F3 & F4).
    exists r, s', new. done.
  - destruct (wait_core_wfe_i_log fuel c s2 Hf) as (ok & w1 & Hrun1 & Hw1).
    rewrite (bind_done _ _ _ _ _ Hrun1).
    destruct ok; cbn [negb]; cbv iota.
    + destruct (Hafter (emit w1 s2)) as (r & s' & tail & Hrun & Htr & Hcru & Hram & Hs & Hr).
      destruct (Hfrom w1 (emit w1 s2) ltac:(done) Hold2 Hram2 r s' tail Htr Hcru Hram Hs)
        as (new & F1 & F2 & F3 & F4).
      exists r, s', new. done.
    + unfold EMSG. rewrite bind_ret.
      exists PSCI_RET_DENIED, (emit w1 s2),
             ([EvStoreEntry c entry; EvRead (CRU_BASE (CRU_SOFTRST_CON 0)) old] ++ w1).
      split; [done|]. split; [by rewrite trace_emit, Htr2, <- app_assoc|].
      split; [|split; [done | split; [done | by right]]].
      simpl. rewrite (quiet_no_softrst w1) by (by eapply wfe_wait_log_quiet). done.
Qed.

(** X3. A call of [psci_cpu_on] that returns SUCCESS has pulsed the
    reset-control register with the reset and the release word of the
    target core, and has left the handoff record holding the TEE load
    address and the lock tag -- not the caller's entry address, which
    went to the entry table; the handoff writes, the barrier and the
    event broadcast are the last things it did. *)
Theorem psci_cpu_on_success_state (fuel : nat) (core_idx entry context_id : Z)
    (s s' : machine) :
  let c := Z.land core_idx MPIDR_CPU_MASK in
  (500 < fuel)%nat ->
  psci_cpu_on fuel core_idx entry context_id s = Done PSCI_RET_SUCCESS s' ->
  isram s' BOOT_ADDR_OFFSET = CFG_TEE_LOAD_ADDR /\
  isram s' LOCK_ADDR_OFFSET = LOCK_TAG /\
  cru s' (CRU_SOFTRST_CON 0) =
    masked_write (masked_write (cru s (CRU_SOFTRST_CON 0)) (CORE_SOFT_RESET c))
                 (CORE_SOFT_RELEASE c) /\
  ns_entry_addrs s' = <[Z.to_nat c := entry]> (ns_entry_addrs s) /\
  exists pre, trace s' = trace s ++ pre ++ handoff_sequence.
Proof.
  intros c Hf Hrun.
  destruct (decide (c = 0 \/ CFG_TEE_CORE_NB_CORE <= c)) as [Hinv | Hval].
  { exfalso. unfold psci_cpu_on in Hrun. fold c in Hrun.
    replace ((c =? 0) || (CFG_TEE_CORE_NB_CORE <=? c)) with true in Hrun; [done|].
    symmetry; apply orb_true_iff. destruct Hinv; [left; lia | right; lia]. }
  assert (Hc0 : c <> 0) by lia. assert (HcN : c < CFG_TEE_CORE_NB_CORE) by lia.
  destruct (psci_cpu_on_final_state fuel core_idx entry context_id s Hc0 HcN Hf)
    as (r & s1 & new & Hrun1 & Htr & Hcru & Hram & Hs & _).
  destruct (psci_cpu_on_paths fuel core_idx entry context_id s Hc0 HcN Hf)
    as (r2 & s2 & new2 & Hrun2 & _ & _ & Hns & _).
  rewrite Hrun in Hrun1, Hrun2. injection Hrun1 as <- <-. injection Hrun2 as <- <-.
  destruct (Hs eq_refl) as (Hreach & pre & ->). fold c in Hcru, Hns.
  rewrite Hreach in Hcru. rewrite Hram.
  split; [by rewrite fn_lookup_insert_ne, fn_lookup_insert|].
  split; [by rewrite fn_lookup_insert|].
  split; [done|]. split; [done|]. by exists pre.
Qed.

Lemma testbit_SHIFT_U32 (k c m : Z) :
  0 <= m < 32 -> Z.testbit (SHIFT_U32 k c) m = Z.testbit k (m - c).
Proof.
  intros Hm. unfold SHIFT_U32. rewrite u32_spec_low by lia.
  apply Z.shiftl_spec. lia.
Qed.

Lemma testbit_0x100010 (j : Z) : Z.testbit 0x100010 j = (j =? 4) || (j =? 20).
Proof.
  change 0x100010 with (Z.lor (2 ^ 4) (2 ^ 20)).
  rewrite Z.lor_spec, !Z.pow2_bits_eqb by lia.
  by rewrite (Z.eqb_sym 4), (Z.eqb_sym 20).
Qed.

Lemma testbit_0x100000 (j : Z) : Z.testbit 0x100000 j = (j =? 20).
Proof.
  change 0x100000 with (2 ^ 20). rewrite Z.pow2_bits_eqb by lia. apply Z.eqb_sym.
Qed.

(** The reset pulse touches one bit: after reset and release words of
    core [c], bit [4 + c] is clear and every other bit is as before. *)
Lemma softrst_pulse_bits (old c : Z) :
  0 <= c <= 11 ->
  let v := masked_write (masked_write old (SHIFT_U32 0x100010 c)) (SHIFT_U32 0x100000 c) in
  Z.testbit v (4 + c) = false /\
  forall n, n <> 4 + c -> Z.testbit v n = Z.testbit old n.
Proof.
  intros Hc v.
  assert (Hm1 : forall n, Z.testbit (wmask_of (SHIFT_U32 0x100010 c)) n = (n =? 4 + c)).
  { intros n. rewrite wmask_of_spec.
    destruct (Z.leb_spec 0 n), (Z.ltb_spec n 16); simpl;
      rewrite ?andb_false_r; try (symmetry; apply Z.eqb_neq; lia).
    rewrite andb_true_r, testbit_SHIFT_U32, testbit_0x100010 by lia.
    destruct (Z.eqb_spec n (4 + c)), (Z.eqb_spec (n + 16 - c) 4),
      (Z.eqb_spec (n + 16 - c) 20); simpl; lia || done. }
  assert (Hm2 : forall n, Z.testbit (wmask_of (SHIFT_U32 0x100000 c)) n = (n =? 4 + c)).
  { intros n. rewrite wmask_of_spec.
    destruct (Z.leb_spec 0 n), (Z.ltb_spec n 16); simpl;
      rewrite ?andb_false_r; try (symmetry; apply Z.eqb_neq; lia).
    rewrite andb_true_r, testbit_SHIFT_U32, testbit_0x100000 by lia.
    destruct (Z.eqb_spec n (4 + c)), (Z.eqb_spec (n + 16 - c) 20); simpl; lia || done. }
  split.
  - subst v. rewrite masked_write_spec, Hm2, Z.eqb_refl.
    rewrite testbit_SHIFT_U32, testbit_0x100000 by lia. apply Z.eqb_neq. lia.
  - intros n Hn. subst v. rewrite !masked_write_spec, Hm1, Hm2.
    by replace (n =? 4 + c) with false by (symmetry; apply Z.eqb_neq; lia).
Qed.

(** X4. Mask correctness of the reset pulse.  With the reset macros
    laid out as on rk322x, a call of [psci_cpu_on] for a valid core
    either leaves the reset-control register as it was (when it is
    denied before the pulse) or changes exactly one bit of it: the
    target core's reset bit, which ends up clear, so that the core is
    no longer held in reset; every other core's bit is untouched.  A
    call that returns SUCCESS is of the second kind. *)
Theorem psci_cpu_on_reset_mask_correct (fuel : nat) (core_idx entry context_id : Z)
    (s : machine) :
  let c := Z.land core_idx MPIDR_CPU_MASK in
  let old := cru s (CRU_SOFTRST_CON 0) in
  c <> 0 -> c < CFG_TEE_CORE_NB_CORE -> 0 <= c <= 11 -> softrst_layout c ->
  (500 < fuel)%nat ->
  exists r s' new,
    psci_cpu_on fuel core_idx entry context_id s = Done r s' /\
    trace s' = trace s ++ new /\
    (existsb is_softrst_write new = false -> cru s' (CRU_SOFTRST_CON 0) = old) /\
    (existsb is_softrst_write new = true ->
       (forall n, n <> 4 + c ->
                  Z.testbit (cru s' (CRU_SOFTRST_CON 0)) n = Z.testbit old n) /\
       Z.testbit (cru s' (CRU_SOFTRST_CON 0)) (4 + c) = false /\
       Z.land (cru s' (CRU_SOFTRST_CON 0)) (CORE_HELD_IN_RESET c) = 0) /\
    (r = PSCI_RET_SUCCESS -> existsb is_softrst_write new = true).
Proof.
  intros c old Hc0 HcN Hc (L1 & L2 & L3) Hf.
  destruct (psci_cpu_on_final_state fuel core_idx entry context_id s Hc0 HcN Hf)
    as (r & s' & new & Hrun & Htr & Hcru & _ & Hs & _).
  fold c old in Hcru. exists r, s', new.
  split; [done|]. split; [done|]. split; [|split].
  - intros E. by rewrite E in Hcru.
  - intros E. rewrite E, L1, L2 in Hcru. rewrite Hcru.
    destruct (softrst_pulse_bits old c Hc) as [Hbit Hrest].
    split; [done|]. split; [done|].
    rewrite L3. apply Z.bits_inj'. intros n Hn.
    rewrite Z.land_spec, Z.bits_0.
    destruct (Z.ltb_spec n 32) as [Hlt | Hge].
    + rewrite testbit_SHIFT_U32 by lia.
      change 16 with (2 ^ 4). rewrite Z.pow2_bits_eqb by lia.
      destruct (Z.eqb_spec 4 (n - c)) as [E4 | E4]; [|apply andb_false_r].
      replace n with (4 + c) by lia. by rewrite Hbit.
    + unfold SHIFT_U32, u32. rewrite Z.mod_pow2_bits_high by lia. apply andb_false_r.
  - intros Hr. by destruct (Hs Hr).
Qed.

End CpuOnState.

Section BootReset.
Context {P : Platform} {D : Device} {B : BootConstants}.

(** X5. Bring-up composes: once [reset_nonboot_cores] has run, with a
    reset word that sets the held-in-reset bit of core [c] under its
    write-enable bit, [psci_cpu_on] for that core finds it held in
    reset and goes straight to the reset pulse, without polling the
    core status first.  [reset_nonboot_cores] itself changes nothing
    but the bits of the reset-control register that its word
    write-enables. *)
Theorem cpu_on_after_reset_nonboot_cores (fuel : nat) (core_idx entry context_id b : Z)
    (s : machine) :
  let c := Z.land core_idx MPIDR_CPU_MASK in
  let held := masked_write (cru s (CRU_SOFTRST_CON 0)) NONBOOT_CORES_SOFT_RESET in
  c <> 0 -> c < CFG_TEE_CORE_NB_CORE -> (500 < fuel)%nat ->
  0 <= b -> CORE_HELD_IN_RESET c = 2 ^ b ->
  Z.testbit (wmask_of NONBOOT_CORES_SOFT_RESET) b = true ->
  Z.testbit NONBOOT_CORES_SOFT_RESET b = true ->
  exists s1,
    reset_nonboot_cores s = Done TEE_SUCCESS s1 /\
    cru s1 (CRU_SOFTRST_CON 0) = held /\
    agree (wmask_of NONBOOT_CORES_SOFT_RESET) held (cru s (CRU_SOFTRST_CON 0)) /\
    exists r s' post,
      psci_cpu_on fuel core_idx entry context_id s1 = Done r s' /\
      trace s' = trace s ++
        [EvWrite (CRU_BASE (CRU_SOFTRST_CON 0)) NONBOOT_CORES_SOFT_RESET;
         EvStoreEntry c entry; EvRead (CRU_BASE (CRU_SOFTRST_CON 0)) held]
        ++ reset_sequence c ++ post.
Proof.
  intros c held Hc0 HcN Hf Hb Hmask Hen Hval.
  unfold reset_nonboot_cores. rewrite bind_write32. unfold ret at 1.
  eexists. split; [reflexivity|].
  assert (Hcru : cru (emit [EvWrite (CRU_BASE (CRU_SOFTRST_CON 0)) NONBOOT_CORES_SOFT_RESET]
                        (store (CRU_BASE (CRU_SOFTRST_CON 0)) NONBOOT_CORES_SOFT_RESET s))
                     (CRU_SOFTRST_CON 0) = held).
  { machine_simpl. by rewrite cru_store_cru, fn_lookup_insert. }
  split; [exact Hcru|]. split.
  { intros n Hn. subst held. by rewrite masked_write_spec, Hn. }
  match goal with |- context [psci_cpu_on _ _ _ _ ?s1] =>
    destruct (psci_cpu_on_paths fuel core_idx entry context_id s1 Hc0 HcN Hf)
      as (r & s' & new & Hrun & Htr & Hlog & _)
  end.
  fold c in Hlog. rewrite Hcru in Hlog.
  assert (Hheld : nonzero (Z.land held (CORE_HELD_IN_RESET c)) = true).
  { rewrite Hmask, nonzero_land_pow2 by done. subst held.
    by rewrite masked_write_spec, Hen. }
  exists r, s'.
  assert (Hnew : exists post,
    new = [EvStoreEntry c entry; EvRead (CRU_BASE (CRU_SOFTRST_CON 0)) held]
          ++ reset_sequence c ++ post).
  { inversion Hlog as [w1 Hn _ | w1 w2 Hw1 _ | w1 w2 Hw1 _]; subst.
    - rewrite Hheld in Hn. discriminate.
    - destruct Hw1 as [(_ & ->) | (Hn & _)]; [by eexists|].
      rewrite Hheld in Hn. discriminate.
    - destruct Hw1 as [(_ & ->) | (Hn & _)]; [by eexists|].
      rewrite Hheld in Hn. discriminate. }
  destruct Hnew as (post & ->). exists post. split; [done|].
  rewrite Htr, trace_emit, trace_store. rewrite <- !app_assoc. reflexivity.
Qed.

End BootReset.

Section WaitShape.
Context {P : Platform} {D : Device}.

Lemma total_delay_app (t1 t2 : list event) :
  total_delay (t1 ++ t2) = total_delay t1 + total_delay t2.
Proof.
  induction t1 as [|e t1 IH]; [done|].
  simpl. destruct e; rewrite ?IH; lia.
Qed.

Lemma total_delay_poll_rounds (a : addr) (vs : list Z) :
  total_delay (poll_rounds a vs) = 2 * Z.of_nat (length vs).
Proof.
  induction vs as [|x vs IH]; [done|].
  unfold poll_rounds in *. cbn [flat_map app length total_delay fold_right] in *.
  fold (total_delay (flat_map (fun x => [EvRead a x; EvUdelay 2]) vs)).
  rewrite IH. lia.
Qed.

Lemma total_delay_polls (a : addr) (t : list event) :
  Forall (fun e => is_poll a e = true) t ->
  total_delay t = 2 * Z.of_nat (count_udelay t).
Proof.
  induction 1 as [|e t He _ IH]; [done|].
  change (e :: t) with ([e] ++ t). rewrite total_delay_app, count_udelay_app, IH.
  destruct e; try done; unfold count_udelay; simpl in *; try lia.
Qed.

(** The exact course of the polling loop: rounds on samples that do not
    show the bit, then the sample it leaves on. *)
Lemma poll_loop_exact (a : addr) (mask : Z) (fuel : nat) (loop : Z) (s : machine) :
  0 <= loop <= 500 ->
  (Z.to_nat (500 - loop) < fuel)%nat ->
  exists vs v,
    while_loop fuel
      (fun loop => v <- read32 a ;;
                   ret (negb (nonzero (Z.land v mask)) && (loop <? 500)))
      (fun loop => udelay 2 ;; ret (u32 (loop + 1)))
      loop s = Done (loop + Z.of_nat (length vs))
                    (emit (poll_rounds a vs ++ [EvRead a v]) s) /\
    Forall (fun x => nonzero (Z.land x mask) = false) vs /\
    loop + Z.of_nat (length vs) <= 500 /\
    (loop + Z.of_nat (length vs) < 500 -> nonzero (Z.land v mask) = true) /\
    v = load a (emit (poll_rounds a vs) s).
Proof.
  revert loop s. induction fuel as [|n IH]; intros loop s Hl Hf; [lia|].
  simpl. unfold bind at 1. unfold bind at 1. unfold read32 at 1, ret at 1.
  destruct (negb (nonzero (Z.land (load a s) mask)) && (loop <? 500)) eqn:E.
  - apply andb_true_iff in E as [Ev E]. apply Z.ltb_lt in E.
    apply negb_true_iff in Ev.
    unfold bind at 1. unfold bind at 1. unfold udelay at 1, log at 1, ret at 1.
    replace (u32 (loop + 1)) with (loop + 1)
      by (unfold u32; rewrite Z.mod_small; lia).
    destruct (IH (loop + 1) (emit [EvUdelay 2] (emit [EvRead a (load a s)] s)))
      as (vs & v & Hrun & Hall & Hb & Hv & Hval); [lia | lia |].
    exists (load a s :: vs), v.
    rewrite Hrun, !emit_emit. cbn [length].
    replace (loop + 1 + Z.of_nat (length vs)) with (loop + Z.of_nat (S (length vs))) by lia.
    split; [done|]. split; [by constructor|]. split; [lia|].
    split; [intros; apply Hv; lia|].
    rewrite Hval, !emit_emit. reflexivity.
  - exists [], (load a s). cbn [length]. rewrite Z.add_0_r.
    split; [done|]. split; [constructor|]. split; [lia|].
    split; [|by rewrite emit_nil].
    intros Hlt. apply andb_false_iff in E as [E | E].
    + by apply negb_false_iff in E.
    + apply Z.ltb_ge in E. lia.
Qed.

Lemma length_poll_rounds (a : addr) (vs : list Z) :
  length (poll_rounds a vs) = (2 * length vs)%nat.
Proof. induction vs as [|x vs IH]; [done|]. unfold poll_rounds in *. simpl. lia. Qed.

Lemma count_udelay_poll_rounds (a : addr) (vs : list Z) :
  count_udelay (poll_rounds a vs) = length vs.
Proof.
  induction vs as [|x vs IH]; [done|].
  unfold poll_rounds, count_udelay in *. simpl. by rewrite IH.
Qed.

Lemma Forall_poll_rounds (a : addr) (vs : list Z) :
  Forall (fun e => is_poll a e = true) (poll_rounds a vs).
Proof.
  induction vs as [|x vs IH]; [constructor|].
  unfold poll_rounds in *. simpl. constructor; [apply is_poll_read|]. by constructor.
Qed.

(** X6. The exact course of [wait_core_wfe_i].  Its log is a run of
    rounds, each a status sample that does not show the
    wait-for-event/interrupt bits followed by a two-microsecond delay,
    then the sample the loop leaves on, then one more sample.  There
    are at most 500 rounds, the loop leaves early only on a sample that
    shows a bit of the mask, and the answer is computed from the
    separate closing sample alone.  The time spent waiting is two
    microseconds per round. *)
Theorem wait_core_wfe_i_exact (fuel : nat) (core : Z) (s : machine) :
  (500 < fuel)%nat ->
  exists vs v v',
    let t := poll_rounds (GRF_BASE GRF_CPU_STATUS1) vs ++
             [EvRead (GRF_BASE GRF_CPU_STATUS1) v; EvRead (GRF_BASE GRF_CPU_STATUS1) v'] in
    wait_core_wfe_i fuel core s =
      Done (nonzero (Z.land v' (CORE_WFE_I_MASK core))) (emit t s) /\
    Forall (fun x => nonzero (Z.land x (CORE_WFE_I_MASK core)) = false) vs /\
    (length vs <= 500)%nat /\
    ((length vs < 500)%nat -> nonzero (Z.land v (CORE_WFE_I_MASK core)) = true) /\
    v = grf_cpu_status1 (trace s ++ poll_rounds (GRF_BASE GRF_CPU_STATUS1) vs) /\
    v' = grf_cpu_status1 (trace s ++ poll_rounds (GRF_BASE GRF_CPU_STATUS1) vs ++
                          [EvRead (GRF_BASE GRF_CPU_STATUS1) v]) /\
    total_delay t = 2 * Z.of_nat (length vs).
Proof.
  intros Hf. unfold wait_core_wfe_i.
  destruct (poll_loop_exact (GRF_BASE GRF_CPU_STATUS1) (CORE_WFE_I_MASK core) fuel 0 s)
    as (vs & v & Hrun & Hall & Hb & Hv & Hval); [lia | simpl; lia |].
  exists vs, v. eexists. cbv zeta.
  rewrite (bind_done _ _ _ _ _ Hrun), bind_read32, emit_emit, <- app_assoc.
  split; [reflexivity|]. split; [done|]. split; [lia|]. split; [intros; apply Hv; lia|].
  split; [exact Hval|]. split; [unfold load; by rewrite trace_emit|].
  rewrite total_delay_app, total_delay_poll_rounds. simpl. lia.
Qed.

(** X7. A core that never reaches wait-for-event costs the caller one
    millisecond: when no status sample ever shows a bit of the core's
    mask, [wait_core_wfe_i] returns false after exactly 500 rounds, 502
    samples and 1000 microseconds of delay. *)
Theorem wait_core_wfe_i_times_out (fuel : nat) (core : Z) (s : machine) :
  (500 < fuel)%nat ->
  (forall h, Z.land (grf_cpu_status1 h) (CORE_WFE_I_MASK core) = 0) ->
  exists t,
    wait_core_wfe_i fuel core s = Done false (emit t s) /\
    Forall (fun e => is_poll (GRF_BASE GRF_CPU_STATUS1) e = true) t /\
    count_udelay t = 500%nat /\
    length t = 1002%nat /\
    total_delay t = 1000.
Proof.
  intros Hf Hnever. unfold wait_core_wfe_i.
  destruct (poll_loop_exact (GRF_BASE GRF_CPU_STATUS1) (CORE_WFE_I_MASK core) fuel 0 s)
    as (vs & v & Hrun & Hall & Hb & Hv & Hval); [lia | simpl; lia |].
  assert (Hlen : length vs = 500%nat).
  { destruct (decide (length vs < 500)%nat) as [Hlt | Hge]; [|lia].
    assert (Hshow : nonzero (Z.land v (CORE_WFE_I_MASK core)) = true) by (apply Hv; lia).
    rewrite Hval in Hshow. unfold load in Hshow. rewrite Hnever in Hshow. discriminate. }
  rewrite (bind_done _ _ _ _ _ Hrun), bind_read32, emit_emit, <- app_assoc.
  unfold load at 1. rewrite Hnever. change (nonzero 0) with false.
  eexists. split; [reflexivity|]. split; [|split; [|split]].
  - apply Forall_app. split; [apply Forall_poll_rounds|].
    constructor; [apply is_poll_read|]. constructor; [apply is_poll_read | constructor].
  - rewrite count_udelay_app, count_udelay_poll_rounds, Hlen. reflexivity.
  - rewrite length_app, length_poll_rounds, Hlen. reflexivity.
  - rewrite total_delay_app, total_delay_poll_rounds, Hlen. reflexivity.
Qed.

(** X8. Worst-case latency of [psci_cpu_on]: whatever the hardware
    answers, a call for a valid core returns after at most 2002
    microseconds of programmed delay -- two waits of at most a
    millisecond each and the two-microsecond reset pulse -- and every
    single delay it programs is two microseconds long. *)
Theorem psci_cpu_on_delay_bound (fuel : nat) (core_idx entry context_id : Z) (s : machine) :
  let c := Z.land core_idx MPIDR_CPU_MASK in
  c <> 0 -> c < CFG_TEE_CORE_NB_CORE -> (500 < fuel)%nat ->
  exists r s' new,
    psci_cpu_on fuel core_idx entry context_id s = Done r s' /\
    trace s' = trace s ++ new /\
    0 <= total_delay new <= 2002 /\
    Forall (fun e => match e with EvUdelay us => us = 2 | _ => True end) new.
Proof.
  intros c Hc0 HcN Hf.
  destruct (psci_cpu_on_paths fuel core_idx entry context_id s Hc0 HcN Hf)
    as (r & s' & new & Hrun & Htr & Hlog & _).
  exists r, s', new. split; [done|]. split; [done|]. fold c in Hlog.
  assert (Hwait : forall ok w, wfe_wait_log c ok w ->
            0 <= total_delay w <= 1000 /\
            Forall (fun e => match e with EvUdelay us => us = 2 | _ => True end) w).
  { intros ok w (t & v & -> & Hall & Hc & _). split.
    - rewrite total_delay_app, (total_delay_polls _ _ Hall). simpl. lia.
    - apply Forall_app. split; [|by repeat constructor].
      revert Hall. apply List.Forall_impl. intros [] He; try done.
      simpl in He. by apply Z.eqb_eq in He. }
  assert (Hfirst : forall hv w, first_wait_log c hv w ->
            0 <= total_delay w <= 1000 /\
            Forall (fun e => match e with EvUdelay us => us = 2 | _ => True end) w).
  { intros hv w [(_ & ->) | (_ & Hw)]; [|by eapply Hwait].
    split; [simpl; lia | constructor]. }
  assert (Hrs : total_delay (reset_sequence c) = 2) by reflexivity.
  assert (Hrf : Forall (fun e => match e with EvUdelay us => us = 2 | _ => True end)
                       (reset_sequence c)) by (by repeat constructor).
  assert (Hhs : total_delay handoff_sequence = 0) by reflexivity.
  assert (Hhf : Forall (fun e => match e with EvUdelay us => us = 2 | _ => True end)
                       handoff_sequence) by (by repeat constructor).
  inversion Hlog as [w1 Hn Hw1 | w1 w2 Hw1 Hw2 | w1 w2 Hw1 Hw2]; subst.
  - destruct (Hwait _ _ Hw1) as [B1 F1].
    rewrite total_delay_app. split; [simpl; lia|].
    apply Forall_app. split; [by repeat constructor | done].
  - destruct (Hfirst _ _ Hw1) as [B1 F1]. destruct (Hwait _ _ Hw2) as [B2 F2].
    rewrite !total_delay_app, Hrs. split; [simpl; lia|].
    repeat (apply Forall_app; split); try done. by repeat constructor.
  - destruct (Hfirst _ _ Hw1) as [B1 F1]. destruct (Hwait _ _ Hw2) as [B2 F2].
    rewrite !total_delay_app, Hrs, Hhs. split; [simpl; lia|].
    repeat (apply Forall_app; split); try done. by repeat constructor.
Qed.

End WaitShape.

(** * The order and the waits of [psci_cpu_on] *)

Section CpuOnCourses.
Context {P : Platform} {D : Device}.



Lemma wfe_wait_course_log (core : Z) (h : list event) (ok : bool) (w : list event) :
  wfe_wait_course core h ok w -> wfe_wait_log core ok w.
Proof.
  intros (vs & v & v' & -> & Hlen & _ & _ & _ & _ & ->).
  exists (poll_rounds (GRF_BASE GRF_CPU_STATUS1) vs ++ [EvRead (GRF_BASE GRF_CPU_STATUS1) v]), v'.
  split; [by rewrite <- app_assoc|]. split; [|split; [|reflexivity]].
  - apply Forall_poll_snoc, Forall_poll_rounds.
  - rewrite count_udelay_app, count_udelay_poll_rounds. unfold count_udelay at 1. simpl. lia.
Qed.



Lemma first_wait_course_log (core hv : Z) (h w : list event) :
  first_wait_course core hv h w -> first_wait_log core hv w.
Proof.
  intros [(Hh & ->) | (Hh & Hw)].
  - left. split; [by apply nonzero_true | done].
  - right. split; [by apply nonzero_false | by eapply wfe_wait_course_log].
Qed.

(** C2. A call of [psci_cpu_on] for a valid core returns, and the
    first thing it logs is the store of the caller's entry address
    into the table slot of the target core; when it has returned the
    table is the old one with that slot holding the entry.  After the
    store the call goes one of two ways.  Either it is denied before
    the reset sequence -- only possible for a core that is not held in
    reset -- and the reset-control register is neither written nor
    changed.  Or it reaches the reset sequence: then, after the store,
    there is no register write up to the reset-assert write, the
    barrier and the settle delay follow, only then comes the
    reset-release write, and no further reset-control write follows;
    the register ends as the two masked writes leave it.  A core held
    in reset always takes the second way, and so does every call that
    returns SUCCESS.  So whenever the core is released from reset, the
    entry address was stored, and a barrier issued, strictly before. *)
Theorem entry_stored_before_reset_release (fuel : nat) (core_idx entry context_id : Z)
    (s : machine) :
  let c := Z.land core_idx MPIDR_CPU_MASK in
  let hv := cru s (CRU_SOFTRST_CON 0) in
  c <> 0 -> c < CFG_TEE_CORE_NB_CORE -> (500 < fuel)%nat ->
  exists r s' rest,
    psci_cpu_on fuel core_idx entry context_id s = Done r s' /\
    trace s' = trace s ++ EvStoreEntry c entry :: rest /\
    ns_entry_addrs s' = <[Z.to_nat c := entry]> (ns_entry_addrs s) /\
    ((Z.to_nat c < length (ns_entry_addrs s))%nat ->
       ns_entry_addrs s' !! Z.to_nat c = Some entry) /\
    ((r = PSCI_RET_DENIED /\ Z.land hv (CORE_HELD_IN_RESET c) = 0 /\
      existsb is_softrst_write rest = false /\
      cru s' (CRU_SOFTRST_CON 0) = hv) \/
     (exists pre post,
        rest = pre ++
               [ EvWrite (CRU_BASE (CRU_SOFTRST_CON 0)) (CORE_SOFT_RESET c); EvDsb;
                 EvUdelay 2;
                 EvWrite (CRU_BASE (CRU_SOFTRST_CON 0)) (CORE_SOFT_RELEASE c) ] ++ post /\
        Forall (fun e => is_write e = false) pre /\
        Forall (fun e => is_softrst_write e = false) post /\
        cru s' (CRU_SOFTRST_CON 0) =
          masked_write (masked_write hv (CORE_SOFT_RESET c)) (CORE_SOFT_RELEASE c))) /\
    (Z.land hv (CORE_HELD_IN_RESET c) <> 0 -> existsb is_softrst_write rest = true) /\
    (r = PSCI_RET_SUCCESS -> existsb is_softrst_write rest = true).
Proof.
  intros c hv Hc0 HcN Hf.
  destruct (psci_cpu_on_paths fuel core_idx entry context_id s Hc0 HcN Hf)
    as (r & s' & new & Hrun & Htr & Hlog & Hns & _).
  destruct (psci_cpu_on_final_state fuel core_idx entry context_id s Hc0 HcN Hf)
    as (r2 & s2 & new2 & Hrun2 & Htr2 & Hcru & _).
  rewrite Hrun in Hrun2. injection Hrun2 as <- <-.
  rewrite Htr in Htr2. apply app_inv_head in Htr2. subst new2.
  fold c hv in Hlog, Hns, Hcru.
  assert (Hq : forall w, Forall (fun e => is_write e = false /\ e <> EvSev) w ->
                         Forall (fun e => is_write e = false) w)
    by (intros w; apply List.Forall_impl; tauto).
  assert (Hq' : forall w, Forall (fun e => is_write e = false /\ e <> EvSev) w ->
                          Forall (fun e => is_softrst_write e = false) w).
  { intros w. apply List.Forall_impl. intros e [He _].
    by destruct e as [| [[]| |] | | | | | | | | |]. }
  assert (Hpulse : forall pre post,
    existsb is_softrst_write
      ((EvStoreEntry c entry :: pre) ++ reset_sequence c ++ post) = true).
  { intros pre post. rewrite existsb_app. apply orb_true_iff. right. reflexivity. }
  assert (Hpulse' : forall pre post,
    existsb is_softrst_write (pre ++ reset_sequence c ++ post) = true).
  { intros pre post. rewrite existsb_app. apply orb_true_iff. right. reflexivity. }
  exists r, s'.
  inversion Hlog as [w1 Hheld Hw1 | w1 w2 Hw1 Hw2 | w1 w2 Hw1 Hw2]; subst r new.
  - assert (Hno : existsb is_softrst_write
                    (EvRead (CRU_BASE (CRU_SOFTRST_CON 0)) hv :: w1) = false).
    { simpl. apply quiet_no_softrst. by eapply wfe_wait_log_quiet. }
    exists (EvRead (CRU_BASE (CRU_SOFTRST_CON 0)) hv :: w1).
    split; [exact Hrun|]. split; [exact Htr|]. split; [exact Hns|].
    split; [intros Hlen; rewrite Hns; by apply list_lookup_insert_eq|].
    apply nonzero_false in Hheld.
    split; [|split].
    + left. split; [reflexivity|]. split; [exact Hheld|]. split; [exact Hno|].
      simpl in Hcru. simpl in Hno. by rewrite Hno in Hcru.
    + intros Hh. by destruct Hh.
    + intros Hs. discriminate Hs.
  - exists (EvRead (CRU_BASE (CRU_SOFTRST_CON 0)) hv :: w1 ++ reset_sequence c ++ w2).
    split; [exact Hrun|]. split; [exact Htr|]. split; [exact Hns|].
    split; [intros Hlen; rewrite Hns; by apply list_lookup_insert_eq|].
    split; [|split].
    + right.
      exists (EvRead (CRU_BASE (CRU_SOFTRST_CON 0)) hv :: w1), (EvDsb :: w2).
      split; [unfold reset_sequence; simpl; rewrite <- ?app_assoc; reflexivity|].
      split; [constructor; [reflexivity|]; apply Hq; by eapply first_wait_log_quiet|].
      split; [constructor; [reflexivity|]; apply Hq'; by eapply wfe_wait_log_quiet|].
      change ([EvStoreEntry c entry; EvRead (CRU_BASE (CRU_SOFTRST_CON 0)) hv] ++
              w1 ++ reset_sequence c ++ w2)
        with ((EvStoreEntry c entry :: EvRead (CRU_BASE (CRU_SOFTRST_CON 0)) hv :: w1) ++
              reset_sequence c ++ w2) in Hcru.
      by rewrite Hpulse in Hcru.
    + intros _. apply (Hpulse' (EvRead (CRU_BASE (CRU_SOFTRST_CON 0)) hv :: w1) w2).
    + intros _. apply (Hpulse' (EvRead (CRU_BASE (CRU_SOFTRST_CON 0)) hv :: w1) w2).
  - exists (EvRead (CRU_BASE (CRU_SOFTRST_CON 0)) hv :: w1 ++ reset_sequence c ++ w2 ++
            handoff_sequence).
    split; [exact Hrun|]. split; [exact Htr|]. split; [exact Hns|].
    split; [intros Hlen; rewrite Hns; by apply list_lookup_insert_eq|].
    split; [|split].
    + right.
      exists (EvRead (CRU_BASE (CRU_SOFTRST_CON 0)) hv :: w1),
             (EvDsb :: w2 ++ handoff_sequence).
      split; [unfold reset_sequence; simpl; rewrite <- ?app_assoc; reflexivity|].
      split; [constructor; [reflexivity|]; apply Hq; by eapply first_wait_log_quiet|].
      split.
      { constructor; [reflexivity|]. apply Forall_app. split.
        - apply Hq'. by eapply wfe_wait_log_quiet.
        - by repeat constructor. }
      change ([EvStoreEntry c entry; EvRead (CRU_BASE (CRU_SOFTRST_CON 0)) hv] ++
              w1 ++ reset_sequence c ++ w2 ++ handoff_sequence)
        with ((EvStoreEntry c entry :: EvRead (CRU_BASE (CRU_SOFTRST_CON 0)) hv :: w1) ++
              reset_sequence c ++ w2 ++ handoff_sequence) in Hcru.
      by rewrite Hpulse in Hcru.
    + intros _.
      apply (Hpulse' (EvRead (CRU_BASE (CRU_SOFTRST_CON 0)) hv :: w1) (w2 ++ handoff_sequence)).
    + intros _.
      apply (Hpulse' (EvRead (CRU_BASE (CRU_SOFTRST_CON 0)) hv :: w1) (w2 ++ handoff_sequence)).
Qed.


End CpuOnCourses.


Section PowerDown.
Context {P : Platform} {D : Device}.

(** The word [clks_disable] writes to a gate register write-enables the
    whole lower half-word and carries [v] there. *)
Lemma gate_word_enable (v n : Z) :
  Z.testbit (wmask_of (BITS_WITH_WMASK v 0xffff 0)) n = (0 <=? n) && (n <? 16).
Proof.
  rewrite wmask_of_spec.
  destruct ((0 <=? n) && (n <? 16)) eqn:Er; [|apply andb_false_r].
  apply andb_true_iff in Er as [H0 H16]. apply Z.leb_le in H0. apply Z.ltb_lt in H16.
  rewrite andb_true_r. unfold BITS_WITH_WMASK. rewrite Z.lor_spec.
  replace (Z.testbit (BITS_WMSK 65535 0) (n + 16)) with true; [apply orb_true_r|].
  symmetry. unfold BITS_WMSK, SHIFT_U32, REG_MSK_SHIFT.
  rewrite u32_spec_low, Z.shiftl_spec by lia.
  replace (n + 16 - (0 + 16)) with n by lia.
  change 65535 with (Z.ones 16). apply Z.ones_spec_low. lia.
Qed.

Lemma gate_word_value (v n : Z) :
  0 <= n < 16 -> Z.testbit (BITS_WITH_WMASK v 0xffff 0) n = Z.testbit v n.
Proof.
  intros Hn. unfold BITS_WITH_WMASK.
  rewrite Z.lor_spec, BITS_WMSK_low, orb_false_r by lia.
  unfold SHIFT_U32. by rewrite u32_spec_low, Z.shiftl_0_r by lia.
Qed.

(** X9. What [clks_disable] leaves behind.  Every one of the sixteen
    gate registers has the table's word in its lower half-word, bit for
    bit, and its upper half-word as before; its previous word is in the
    snapshot slot of the same index.  No other register and no other
    snapshot field changes. *)
Theorem clks_disable_gates_exactly (s : machine) :
  length (cru_clkgate (dram_d s)) = CRU_CLKGATE_CON_CNT ->
  exists s1,
    clks_disable s = Done tt s1 /\
    (forall j, (j < CRU_CLKGATE_CON_CNT)%nat ->
       (forall n, Z.testbit (cru s1 (CRU_CLKGATE_CON (Z.of_nat j))) n =
                  if (0 <=? n) && (n <? 16)
                  then Z.testbit (clks_gating_table !!! j) n
                  else Z.testbit (cru s (CRU_CLKGATE_CON (Z.of_nat j))) n) /\
       cru_clkgate (dram_d s1) !! j = Some (cru s (CRU_CLKGATE_CON (Z.of_nat j)))) /\
    (forall r, (forall j, (j < CRU_CLKGATE_CON_CNT)%nat -> r <> CRU_CLKGATE_CON (Z.of_nat j)) ->
       cru s1 r = cru s r) /\
    length (cru_clkgate (dram_d s1)) = CRU_CLKGATE_CON_CNT /\
    cru_mode_con (dram_d s1) = cru_mode_con (dram_d s) /\
    cru_clksel0 (dram_d s1) = cru_clksel0 (dram_d s) /\
    cru_clksel1 (dram_d s1) = cru_clksel1 (dram_d s) /\
    cru_clksel10 (dram_d s1) = cru_clksel10 (dram_d s) /\
    cru_clksel21 (dram_d s1) = cru_clksel21 (dram_d s).
Proof.
  intros Hlen. unfold clks_disable.
  destruct (for_range_inv
    (fun k sc =>
       (forall r, (forall i, r <> CRU_CLKGATE_CON i) -> cru sc r = cru s r) /\
       (forall j, (j < k)%nat ->
           cru sc (CRU_CLKGATE_CON (Z.of_nat j)) =
           masked_write (cru s (CRU_CLKGATE_CON (Z.of_nat j)))
                        (BITS_WITH_WMASK (clks_gating_table !!! j) 0xffff 0)) /\
       (forall i, ~ (0 <= i < Z.of_nat k) ->
           cru sc (CRU_CLKGATE_CON i) = cru s (CRU_CLKGATE_CON i)) /\
       (forall j, (j < k)%nat ->
           cru_clkgate (dram_d sc) !! j = Some (cru s (CRU_CLKGATE_CON (Z.of_nat j)))) /\
       length (cru_clkgate (dram_d sc)) = CRU_CLKGATE_CON_CNT /\
       (cru_mode_con (dram_d sc) = cru_mode_con (dram_d s) /\
        cru_clksel0 (dram_d sc) = cru_clksel0 (dram_d s) /\
        cru_clksel1 (dram_d sc) = cru_clksel1 (dram_d s) /\
        cru_clksel10 (dram_d sc) = cru_clksel10 (dram_d s) /\
        cru_clksel21 (dram_d sc) = cru_clksel21 (dram_d s)))
    (fun i =>
       v <- read32 (CRU_BASE (CRU_CLKGATE_CON (Z.of_nat i))) ;;
       modify_dram_d (set_cru_clkgate i v) ;;
       write32 (BITS_WITH_WMASK (clks_gating_table !!! i) 0xffff 0)
               (CRU_BASE (CRU_CLKGATE_CON (Z.of_nat i))))
    0%nat CRU_CLKGATE_CON_CNT s) as (s1 & Hrun & H1 & H2 & H3 & H4 & H5 & H6).
  - split; [done|]. split; [intros; lia|]. split; [done|]. split; [intros; lia|]. done.
  - intros i sc Hi (I1 & I2 & I3 & I4 & I5 & I6).
    rewrite bind_read32, bind_modify, bind_write32_end.
    eexists. split; [reflexivity|].
    assert (Hv : load (CRU_BASE (CRU_CLKGATE_CON (Z.of_nat i))) sc
                 = cru s (CRU_CLKGATE_CON (Z.of_nat i))).
    { rewrite load_cru by done. apply I3. lia. }
    rewrite Hv. machine_simpl. rewrite cru_store_cru. machine_simpl.
    assert (Hdd : dram_d (store (CRU_BASE (CRU_CLKGATE_CON (Z.of_nat i)))
                     (BITS_WITH_WMASK (clks_gating_table !!! i) 65535 0)
                     (set_dram_d (set_cru_clkgate i (cru s (CRU_CLKGATE_CON (Z.of_nat i)))
                                    (dram_d sc))
                        (emit [EvRead (CRU_BASE (CRU_CLKGATE_CON (Z.of_nat i)))
                                      (cru s (CRU_CLKGATE_CON (Z.of_nat i)))] sc)))
                 = set_cru_clkgate i (cru s (CRU_CLKGATE_CON (Z.of_nat i))) (dram_d sc))
      by reflexivity.
    rewrite Hdd. machine_simpl.
    split; [|split; [|split; [|split; [|split]]]].
    + intros r Hr. rewrite fn_lookup_insert_ne by (intros <-; by eapply Hr). by apply I1.
    + intros j Hj. destruct (decide (j = i)) as [-> | Hne].
      * rewrite fn_lookup_insert. rewrite I3 by lia. reflexivity.
      * rewrite fn_lookup_insert_ne by (intros [=]; lia). apply I2. lia.
    + intros i' Hi'. rewrite fn_lookup_insert_ne by (intros [=]; lia). apply I3. lia.
    + intros j Hj. destruct (decide (j = i)) as [-> | Hne].
      * apply list_lookup_insert_eq. rewrite I5. unfold CRU_CLKGATE_CON_CNT in *. lia.
      * rewrite list_lookup_insert_ne by done. apply I4. lia.
    + by rewrite length_insert.
    + exact I6.
  - destruct H6 as (F1 & F2 & F3 & F4 & F5).
    change (0 + CRU_CLKGATE_CON_CNT)%nat with CRU_CLKGATE_CON_CNT in *.
    exists s1. split; [exact Hrun|]. clear Hrun.
    split; [|split; [|exact (conj H5 (conj F1 (conj F2 (conj F3 (conj F4 F5)))))]].
    + intros j Hj. split; [|by apply H4].
      intros n. rewrite H2, masked_write_spec, gate_word_enable by done.
      destruct ((0 <=? n) && (n <? 16)) eqn:Er; [|done].
      apply andb_true_iff in Er as [H0 H16]. apply Z.leb_le in H0. apply Z.ltb_lt in H16.
      apply gate_word_value. lia.
    + intros r Hr.
      assert (Hcase : (exists i, r = CRU_CLKGATE_CON i) \/ forall i, r <> CRU_CLKGATE_CON i).
      { destruct r; first [ by left; eexists | right; intros ? [=] ]. }
      destruct Hcase as [[i ->] | Hne]; [|by apply H1].
      apply H3. intros Hi. apply (Hr (Z.to_nat i)).
      * unfold CRU_CLKGATE_CON_CNT in Hi |- *. lia.
      * f_equal. lia.
Qed.

Lemma masked_write_on (x w : Z) :
  Z.land (masked_write x w) (wmask_of w) = Z.land w (wmask_of w).
Proof.
  apply Z.bits_inj'. intros n _. rewrite !Z.land_spec, masked_write_spec.
  by destruct (Z.testbit (wmask_of w) n); rewrite ?andb_false_r.
Qed.

Lemma masked_write2_on (x w1 w2 : Z) :
  Z.land (masked_write (masked_write x w1) w2) (Z.lor (wmask_of w1) (wmask_of w2)) =
  Z.lor (Z.land (Z.land w1 (wmask_of w1)) (Z.lnot (wmask_of w2)))
        (Z.land w2 (wmask_of w2)).
Proof.
  apply Z.bits_inj'. intros n Hn.
  rewrite Z.land_spec, !Z.lor_spec, !masked_write_spec, !Z.land_spec, Z.lnot_spec by done.
  destruct (Z.testbit (wmask_of w1) n), (Z.testbit (wmask_of w2) n); simpl;
    rewrite ?andb_false_r, ?andb_true_r, ?orb_false_r; done.
Qed.

Lemma testbit_1 (k : Z) : Z.testbit 1 k = (k =? 0).
Proof. change 1 with (2 ^ 0). rewrite Z.pow2_bits_eqb by lia. apply Z.eqb_sym. Qed.

(** The slow-mode word of a PLL write-enables its mode bit alone and
    carries a zero there. *)
Lemma slow_mode_enable (b n : Z) :
  0 <= b < 16 -> Z.testbit (wmask_of (BITS_WITH_WMASK 0 1 b)) n = (n =? b).
Proof.
  intros Hb. rewrite BITS_WITH_WMASK_zero, wmask_of_spec.
  destruct (Z.leb_spec 0 n), (Z.ltb_spec n 16); simpl;
    rewrite ?andb_false_r; try (symmetry; apply Z.eqb_neq; lia).
  rewrite andb_true_r. unfold BITS_WMSK, REG_MSK_SHIFT.
  rewrite testbit_SHIFT_U32, testbit_1 by lia.
  destruct (Z.eqb_spec n b), (Z.eqb_spec (n + 16 - (b + 16)) 0); lia || done.
Qed.

Lemma slow_mode_value (b n : Z) :
  0 <= b -> n < 16 -> Z.testbit (BITS_WITH_WMASK 0 1 b) n = false.
Proof. intros Hb Hn. rewrite BITS_WITH_WMASK_zero. by apply BITS_WMSK_low. Qed.

(** One step of [plls_power_down] on the symbolic view [HT] of the
    current state and the remaining run [H]. *)
Ltac power_down_step H HT :=
  rewrite ?bind_assoc in H;
  let s1 := fresh "s" in
  let HT' := fresh "HT" in
  lazymatch type of H with
  | bind (write32 _ (CRU_BASE (CRU_PLL_CON1 _))) _ _ = _ =>
      eapply run_write_pll in H; [ | exact HT ]
  | bind (write32 _ (CRU_BASE _)) _ _ = _ =>
      eapply run_write_cru in H; [ | exact HT | done ]
  | bind (read32 (CRU_BASE _)) _ _ = _ =>
      eapply run_read_cru in H; [ | exact HT | done ]
  | bind (modify_dram_d _) _ _ = _ =>
      eapply run_modify in H; [ | exact HT ]
  end;
  destruct H as (s1 & HT' & H); clear HT; rename HT' into HT;
  cbv beta in H;
  repeat first [ rewrite fn_lookup_insert in HT
               | rewrite fn_lookup_insert_ne in HT by congruence ].

(** X10. What [plls_power_down] leaves behind.  The snapshot holds the
    words the four clock-select registers and the mode register had on
    entry.  The divider fields are zero (bits 0x1f1f of select 0, 0x737f
    of select 1, 0x731f of select 10), the lower half-word of select 21
    is 0x82dc, and the mode bit of each of the three PLLs is clear;
    every other bit of these registers is as on entry, and registers
    other than these and the PLL control words are untouched. *)
Theorem plls_power_down_effect (s : machine) :
  pll_mode_layout ->
  Forall (fun id => PLL_MODE_BIT id < 16) [APLL_ID; CPLL_ID; GPLL_ID] ->
  exists s',
    plls_power_down s = Done tt s' /\
    dram_d s' =
      mk_dram_data (cru s CRU_MODE_CON) (cru s (CRU_CLKSEL_CON 0)) (cru s (CRU_CLKSEL_CON 1))
                   (cru s (CRU_CLKSEL_CON 10)) (cru s (CRU_CLKSEL_CON 21))
                   (cru_clkgate (dram_d s)) /\
    (Z.land (cru s' (CRU_CLKSEL_CON 0)) 0x1f1f = 0 /\
     agree 0x1f1f (cru s' (CRU_CLKSEL_CON 0)) (cru s (CRU_CLKSEL_CON 0))) /\
    (Z.land (cru s' (CRU_CLKSEL_CON 1)) 0x737f = 0 /\
     agree 0x737f (cru s' (CRU_CLKSEL_CON 1)) (cru s (CRU_CLKSEL_CON 1))) /\
    (Z.land (cru s' (CRU_CLKSEL_CON 10)) 0x731f = 0 /\
     agree 0x731f (cru s' (CRU_CLKSEL_CON 10)) (cru s (CRU_CLKSEL_CON 10))) /\
    (Z.land (cru s' (CRU_CLKSEL_CON 21)) 0xffff = 0x82dc /\
     agree 0xffff (cru s' (CRU_CLKSEL_CON 21)) (cru s (CRU_CLKSEL_CON 21))) /\
    (forall n, Z.testbit (cru s' CRU_MODE_CON) n =
               if existsb (fun id => n =? PLL_MODE_BIT id) [APLL_ID; CPLL_ID; GPLL_ID]
               then false
               else Z.testbit (cru s CRU_MODE_CON) n) /\
    (forall r, r <> CRU_CLKSEL_CON 0 -> r <> CRU_CLKSEL_CON 1 -> r <> CRU_CLKSEL_CON 10 ->
               r <> CRU_CLKSEL_CON 21 -> r <> CRU_MODE_CON ->
               (forall p, r <> CRU_PLL_CON1 p) -> cru s' r = cru s r).
Proof.
  intros Hlay Hlt. unfold pll_mode_layout in Hlay.
  inversion Hlay as [|? ? [HbA HsA] Hlay1]; subst.
  inversion Hlay1 as [|? ? [HbC HsC] Hlay2]; subst.
  inversion Hlay2 as [|? ? [HbG HsG] _]; subst.
  inversion Hlt as [|? ? HlA Hlt1]; subst.
  inversion Hlt1 as [|? ? HlC Hlt2]; subst.
  inversion Hlt2 as [|? ? HlG _]; subst.
  clear Hlay Hlay1 Hlay2 Hlt Hlt1 Hlt2.
  destruct (plls_power_down_returns s) as (s' & Hrun & _).
  exists s'. split; [exact Hrun|].
  assert (H : (plls_power_down ;; ret tt) s = Done tt s')
    by (by rewrite (bind_done _ _ _ _ _ Hrun)).
  clear Hrun.
  assert (HT : tracks (cru s) (dram_d s) s) by done.
  remember (cru s) as C0 eqn:EC0. remember (dram_d s) as Dd0 eqn:ED0.
  unfold plls_power_down, pll_power_down in H.
  do 10 power_down_step H HT.
  do 6 power_down_step H HT.
  do 6 power_down_step H HT.
  injection H as <-.
  destruct HT as [HC HD].
  cbn [cru_mode_con cru_clksel0 cru_clksel1 cru_clksel10 cru_clksel21 cru_clkgate
       set_cru_mode_con set_cru_clksel0 set_cru_clksel1 set_cru_clksel10
       set_cru_clksel21] in HD.
  split; [exact HD|].
  split; [|split; [|split; [|split; [|split]]]].
  - rewrite HC by done.
    repeat first [ rewrite fn_lookup_insert | rewrite fn_lookup_insert_ne by congruence ].
    split.
    + change 0x1f1f with (Z.lor (wmask_of (BITS_WITH_WMASK 0 0x1f 0))
                                (wmask_of (BITS_WITH_WMASK 0 0x1f 8))).
      rewrite masked_write2_on. reflexivity.
    + change 0x1f1f with (Z.lor (Z.lor 0 (wmask_of (BITS_WITH_WMASK 0 0x1f 0)))
                                (wmask_of (BITS_WITH_WMASK 0 0x1f 8))).
      apply agree_dirty, agree_dirty, agree_refl.
  - rewrite HC by done.
    repeat first [ rewrite fn_lookup_insert | rewrite fn_lookup_insert_ne by congruence ].
    split.
    + change 0x737f with
        (Z.lor (wmask_of (Z.lor (BITS_WITH_WMASK 0 0xf 0) (BITS_WITH_WMASK 0 0x7 4)))
               (wmask_of (Z.lor (BITS_WITH_WMASK 0 0x3 8) (BITS_WITH_WMASK 0 0x7 12)))).
      rewrite masked_write2_on. reflexivity.
    + change 0x737f with
        (Z.lor (Z.lor 0 (wmask_of (Z.lor (BITS_WITH_WMASK 0 0xf 0) (BITS_WITH_WMASK 0 0x7 4))))
               (wmask_of (Z.lor (BITS_WITH_WMASK 0 0x3 8) (BITS_WITH_WMASK 0 0x7 12)))).
      apply agree_dirty, agree_dirty, agree_refl.
  - rewrite HC by done.
    repeat first [ rewrite fn_lookup_insert | rewrite fn_lookup_insert_ne by congruence ].
    split.
    + change 0x731f with
        (wmask_of (Z.lor (Z.lor (BITS_WITH_WMASK 0 0x1f 0) (BITS_WITH_WMASK 0 0x3 8))
                         (BITS_WITH_WMASK 0 0x7 12))).
      rewrite masked_write_on. reflexivity.
    + change 0x731f with
        (Z.lor 0 (wmask_of (Z.lor (Z.lor (BITS_WITH_WMASK 0 0x1f 0) (BITS_WITH_WMASK 0 0x3 8))
                                  (BITS_WITH_WMASK 0 0x7 12)))).
      apply agree_dirty, agree_refl.
  - rewrite HC by done.
    repeat first [ rewrite fn_lookup_insert | rewrite fn_lookup_insert_ne by congruence ].
    split.
    + change 0xffff with
        (wmask_of (Z.lor (BITS_WITH_WMASK 732 0x3fff 0) (BITS_WITH_WMASK 2 0x3 14))).
      rewrite masked_write_on. reflexivity.
    + change 0xffff with
        (Z.lor 0 (wmask_of (Z.lor (BITS_WITH_WMASK 732 0x3fff 0) (BITS_WITH_WMASK 2 0x3 14)))).
      apply agree_dirty, agree_refl.
  - intros n. rewrite HC by done.
    repeat first [ rewrite fn_lookup_insert | rewrite fn_lookup_insert_ne by congruence ].
    rewrite HsA, HsC, HsG, !masked_write_spec, !slow_mode_enable by lia.
    cbn [existsb]. rewrite orb_false_r.
    destruct (Z.eqb_spec n (PLL_MODE_BIT APLL_ID)) as [-> | HA];
      [by rewrite slow_mode_value by lia|].
    destruct (Z.eqb_spec n (PLL_MODE_BIT CPLL_ID)) as [-> | HCc];
      [by rewrite slow_mode_value by lia|].
    destruct (Z.eqb_spec n (PLL_MODE_BIT GPLL_ID)) as [-> | HG];
      [by rewrite slow_mode_value by lia|].
    reflexivity.
  - intros r R0 R1 R10 R21 RM RP. rewrite HC by done.
    repeat rewrite fn_lookup_insert_ne by congruence. by subst C0.
Qed.

End PowerDown.

Section Budgets.
Context {P : Platform} {D : Device}.
Variable Q : event -> bool.

Lemma spends_ret {A} (n : Z) (a : A) : 0 <= n -> spends Q n (ret a).
Proof.
  intros Hn s. exists []. simpl. rewrite app_nil_r. split; [done|]. split; [constructor | lia].
Qed.

Lemma spends_bind {A B} (n1 n2 n : Z) (m : M A) (k : A -> M B) :
  spends Q n1 m -> (forall a, spends Q n2 (k a)) -> 0 <= n2 -> n1 + n2 <= n ->
  spends Q n (bind m k).
Proof.
  intros Hm Hk H2 Hn s. unfold bind. destruct (Hm s) as (t1 & E1 & F1 & B1).
  destruct (m s) as [a s1 | s1 | s1]; simpl in *.
  - destruct (Hk a s1) as (t2 & E2 & F2 & B2).
    exists (t1 ++ t2). rewrite E2, E1, total_delay_app, <- app_assoc.
    split; [done|]. split; [by apply Forall_app | lia].
  - exists t1. split; [done|]. split; [done | lia].
  - exists t1. split; [done|]. split; [done | lia].
Qed.

Lemma spends_log (n : Z) (e : event) :
  Q e = true -> 0 <= total_delay [e] <= n -> spends Q n (log e).
Proof.
  intros He Hn s. exists [e]. split; [apply trace_emit|]. split; [by constructor | done].
Qed.

Lemma spends_read32 (n : Z) (a : addr) :
  (forall v, Q (EvRead a v) = true) -> 0 <= n -> spends Q n (read32 a).
Proof.
  intros He Hn s. eexists [_]. split; [apply trace_emit|].
  split; [by constructor | simpl; lia].
Qed.

Lemma spends_write32 (n v : Z) (a : addr) :
  Q (EvWrite a v) = true -> 0 <= n -> spends Q n (write32 v a).
Proof.
  intros He Hn s. exists [EvWrite a v]. split.
  - rewrite bind_write32_end. cbn [final]. by rewrite trace_emit, trace_store.
  - split; [by constructor | simpl; lia].
Qed.

Lemma spends_modify_dram_d (n : Z) (f : dram_data -> dram_data) :
  0 <= n -> spends Q n (modify_dram_d f).
Proof.
  intros Hn s. exists []. rewrite app_nil_r.
  split; [done|]. split; [constructor | simpl; lia].
Qed.

Lemma spends_get_dram_d (n : Z) : 0 <= n -> spends Q n get_dram_d.
Proof.
  intros Hn s. exists []. simpl. rewrite app_nil_r.
  split; [done|]. split; [constructor | lia].
Qed.

Lemma spends_for_range (lo n : nat) (body : nat -> M unit) :
  (forall i, spends Q 0 (body i)) -> spends Q 0 (for_range lo n body).
Proof.
  intros Hb. revert lo. induction n as [|n IH]; intros lo; simpl.
  - by apply spends_ret.
  - apply (spends_bind 0 0); [apply Hb | intros _; apply IH | lia | lia].
Qed.

Lemma spends_pll_wait_lock (n : Z) (fuel : nat) (pll : Z) :
  (500 < fuel)%nat ->
  (forall v, Q (EvRead (CRU_BASE (CRU_PLL_CON1 pll)) v) = true) ->
  Q (EvUdelay 2) = true -> Q EvPanic = true -> 1000 <= n ->
  spends Q n (pll_wait_lock fuel pll).
Proof.
  intros Hf Hr Hu Hp Hn s.
  destruct (pll_wait_lock_spec fuel pll s Hf) as (t & v & Hall & Hc & _ & Hrun).
  assert (HQ : Forall (fun e => Q e = true) t).
  { revert Hall. apply List.Forall_impl. intros [] He; try done.
    - simpl in He. apply bool_decide_eq_true in He. subst. apply Hr.
    - simpl in He. apply Z.eqb_eq in He. by subst. }
  assert (Hd := total_delay_polls _ _ Hall).
  rewrite Hrun. destruct (nonzero _); cbn [final]; rewrite trace_emit; eexists;
    (split; [reflexivity|]); rewrite total_delay_app; simpl.
  - split; [|lia]. apply Forall_app. split; [done|]. by repeat constructor.
  - split; [|lia]. apply Forall_app. split; [done|]. by repeat constructor.
Qed.

End Budgets.

Section SuspendShape.
Context {P : Platform} {D : Device}.

Lemma spends_clks_disable : spends is_cru_access 0 clks_disable.
Proof.
  unfold clks_disable. apply spends_for_range. intros i.
  apply (spends_bind _ 0 0); [by apply spends_read32 | intros v | lia | lia].
  apply (spends_bind _ 0 0); [by apply spends_modify_dram_d | intros _ | lia | lia].
  by apply spends_write32.
Qed.

Lemma spends_pll_power_down (Q : event -> bool) (n pll : Z) :
  (forall a v, Q (EvWrite (CRU_BASE a) v) = true) -> 0 <= n ->
  spends Q n (pll_power_down pll).
Proof.
  intros HQ Hn. unfold pll_power_down.
  apply (spends_bind _ 0 n); [by apply spends_write32 | intros _ | lia | lia].
  by apply spends_write32.
Qed.

Ltac spend_step :=
  lazymatch goal with
  | |- spends _ ?n (bind (read32 _) _) =>
      apply (spends_bind _ 0 n); [by apply spends_read32 | intros ? | lia | lia]
  | |- spends _ ?n (bind (write32 _ _) _) =>
      apply (spends_bind _ 0 n); [by apply spends_write32 | intros _ | lia | lia]
  | |- spends _ ?n (bind (modify_dram_d _) _) =>
      apply (spends_bind _ 0 n); [by apply spends_modify_dram_d | intros _ | lia | lia]
  | |- spends _ ?n (bind get_dram_d _) =>
      apply (spends_bind _ 0 n); [by apply spends_get_dram_d | intros ? | lia | lia]
  | |- spends _ ?n (bind (pll_power_down _) _) =>
      apply (spends_bind _ 0 n); [by apply spends_pll_power_down | intros _ | lia | lia]
  | |- spends _ ?n (bind (log (EvUdelay ?d)) _) =>
      apply (spends_bind _ d (n - d));
      [apply spends_log; [reflexivity | simpl; lia] | intros _ | lia | lia]
  | |- spends _ ?n (bind (pll_wait_lock _ _) _) =>
      apply (spends_bind _ 1000 (n - 1000));
      [apply spends_pll_wait_lock; [assumption | done | done | done | lia]
      | intros _ | lia | lia]
  | |- spends _ _ (write32 _ _) => apply spends_write32; [reflexivity | lia]
  end.

Lemma spends_plls_power_down : spends is_cru_access 0 plls_power_down.
Proof. unfold plls_power_down. repeat spend_step. Qed.

Lemma spends_plls_restore (fuel : nat) :
  (500 < fuel)%nat -> spends is_resume_event 3200 (plls_restore fuel).
Proof.
  intros Hf. unfold plls_restore, pll_power_up, udelay. repeat spend_step.
Qed.

Lemma spends_clks_restore : spends is_resume_event 0 clks_restore.
Proof.
  unfold clks_restore. apply spends_for_range. intros i. repeat spend_step.
Qed.

(** X11. The shape of every suspend.  Whatever the hardware answers,
    [psci_system_suspend] reaches the wait-for-interrupt exactly once,
    right after the cache maintenance.  Before it the call does nothing
    but read and write clock registers, without any delay; after it the
    call only reads and writes clock registers, delays and possibly
    panics -- it never suspends again -- and programs at most 3200
    microseconds of delay: the 200-microsecond settle time and three
    lock waits of at most a millisecond. *)
Theorem psci_system_suspend_log_shape (fuel : nat) (entry context_id : Z) (s : machine) :
  (500 < fuel)%nat ->
  exists t1 t2,
    trace (final (psci_system_suspend fuel entry context_id s)) =
      trace s ++ t1 ++ [EvCacheOp; EvWfi] ++ t2 /\
    Forall (fun e => is_cru_access e = true) t1 /\
    total_delay t1 = 0 /\
    Forall (fun e => is_resume_event e = true) t2 /\
    0 <= total_delay t2 <= 3200.
Proof.
  intros Hf. unfold psci_system_suspend.
  rewrite (bind_done _ _ _ _ _ (DMSG_skip s)).
  destruct (clks_disable_returns s) as (s1 & H1 & _).
  destruct (spends_clks_disable s) as (ta & Ea & Fa & Ba).
  rewrite H1 in Ea. simpl in Ea. rewrite (bind_done _ _ _ _ _ H1). clear H1.
  destruct (plls_power_down_returns s1) as (s2 & H2 & _).
  destruct (spends_plls_power_down s1) as (tb & Eb & Fb & Bb).
  rewrite H2 in Eb. simpl in Eb. rewrite (bind_done _ _ _ _ _ H2). clear H2.
  unfold cache_op_inner, wfi. rewrite !bind_log.
  assert (Hrest : spends is_resume_event 3200
            (plls_restore fuel ;; clks_restore ;; ret PSCI_RET_SUCCESS)).
  { apply (spends_bind _ 3200 0); [by apply spends_plls_restore | intros _ | lia | lia].
    apply (spends_bind _ 0 0); [apply spends_clks_restore | intros _ | lia | lia].
    by apply spends_ret. }
  destruct (Hrest (emit [EvWfi] (emit [EvCacheOp] s2))) as (tc & Ec & Fc & Bc).
  exists (ta ++ tb), tc. rewrite Ec, !trace_emit, Eb, Ea, total_delay_app, <- !app_assoc.
  split; [done|]. split; [by apply Forall_app|]. split; [lia|]. done.
Qed.

End SuspendShape.

(** * Properties of the device drivers *)

Section IoLemmas.
Import Io.
Context {D : Device} {St : Type}.

Lemma io_emit_emit (t1 t2 : list event) (w : world St) :
  emit t2 (emit t1 w) = emit (t1 ++ t2) w.
Proof. unfold emit; simpl. by rewrite app_assoc. Qed.

Lemma io_emit_nil (w : world St) : emit [] w = w.
Proof. destruct w. unfold emit; simpl. by rewrite app_nil_r. Qed.

Lemma io_bind_done {A B} (m : M St A) (k : A -> M St B) (a : A) (w w' : world St) :
  m w = Done a w' -> bind m k w = k a w'.
Proof. intros H. unfold bind. by rewrite H. Qed.

Lemma io_bind_spin {A B} (m : M St A) (k : A -> M St B) (w w' : world St) :
  m w = Spin w' -> bind m k w = Spin w'.
Proof. intros H. unfold bind. by rewrite H. Qed.

Lemma io_bind_read32 {B} (a : Z) (k : Z -> M St B) (w : world St) :
  bind (read32 a) k w =
  k (u32 (answer (history w) a)) (emit [Read a (u32 (answer (history w) a))] w).
Proof. reflexivity. Qed.

Lemma io_bind_write32 {B} (v a : Z) (k : unit -> M St B) (w : world St) :
  bind (write32 v a) k w = k tt (emit [Write a (u32 v)] w).
Proof. reflexivity. Qed.

Lemma io_bind_ret {A B} (a : A) (k : A -> M St B) (w : world St) :
  bind (ret a) k w = k a w.
Proof. reflexivity. Qed.

Lemma io_bind_assoc {A B C} (m : M St A) (k : A -> M St B) (k' : B -> M St C)
    (w : world St) :
  bind (bind m k) k' w = bind m (fun a => bind (k a) k') w.
Proof. unfold bind. by destruct (m w). Qed.

(** A loop that samples [a] until [test] holds of the sample either
    leaves on the first sample that passes, or is still sampling when
    the budget is used up.  It does nothing but read [a]. *)
Lemma io_poll_cases (a : Z) (test : Z -> bool) (cond : M St bool) (fuel : nat)
    (w : world St) :
  (forall w, cond w = Done (negb (test (u32 (answer (history w) a))))
                           (emit [Read a (u32 (answer (history w) a))] w)) ->
  (exists vs v,
     while_loop fuel cond (ret tt) w = Done tt (emit (map (Read a) vs ++ [Read a v]) w) /\
     Forall (fun x => test x = false) vs /\ test v = true /\
     (length vs < fuel)%nat /\
     v = u32 (answer (history w ++ map (Read a) vs) a)) \/
  (exists vs,
     while_loop fuel cond (ret tt) w = Spin (emit (map (Read a) vs) w) /\
     Forall (fun x => test x = false) vs /\ length vs = fuel).
Proof.
  intros Hcond. revert w. induction fuel as [|n IH]; intros w.
  - right. exists []. simpl. rewrite io_emit_nil. done.
  - cbn [while_loop]. rewrite (io_bind_done _ _ _ _ _ (Hcond w)).
    set (v0 := u32 (answer (history w) a)).
    destruct (test v0) eqn:E; cbn [negb].
    + left. exists [], v0. simpl. rewrite app_nil_r.
      split; [done|]. split; [constructor|]. split; [done|]. split; [lia | done].
    + rewrite io_bind_ret.
      destruct (IH (emit [Read a v0] w)) as [(vs & v & Hrun & Hall & Hv & Hlen & Hval)
                                            | (vs & Hrun & Hall & Hlen)].
      * left. exists (v0 :: vs), v. rewrite Hrun, io_emit_emit.
        split; [done|]. split; [by constructor|]. split; [done|].
        split; [simpl; lia|]. rewrite Hval. simpl. by rewrite <- app_assoc.
      * right. exists (v0 :: vs). rewrite Hrun, io_emit_emit.
        split; [done|]. split; [by constructor | simpl; lia].
Qed.

End IoLemmas.

Section UartProperties.
Import Io Hi16xxUart.
Context {D : Device}.
Variable io_pa_or_va : Z -> Z.

Lemma nonzero_land_2 (v : Z) : nonzero (Z.land v 2) = Z.testbit v 1.
Proof. change 2 with (2 ^ 1). by apply nonzero_land_pow2. Qed.

Lemma nonzero_land_3 (v : Z) : nonzero (Z.land v 3) = Z.testbit v 0 || Z.testbit v 1.
Proof.
  assert (H3 : forall n, Z.testbit 3 n = (0 <=? n) && (n <? 2))
    by (intros n; change 3 with (Z.ones 2); by apply Z.testbit_ones).
  destruct (Z.testbit v 0 || Z.testbit v 1) eqn:E.
  - apply nonzero_true. intros H0. apply orb_true_iff in E as [E | E].
    + assert (Hb : Z.testbit (Z.land v 3) 0 = true) by (by rewrite Z.land_spec, E, H3).
      by rewrite H0, Z.bits_0 in Hb.
    + assert (Hb : Z.testbit (Z.land v 3) 1 = true) by (by rewrite Z.land_spec, E, H3).
      by rewrite H0, Z.bits_0 in Hb.
  - apply orb_false_iff in E as [E0 E1]. apply nonzero_false.
    apply Z.bits_inj'. intros n Hn. rewrite Z.land_spec, H3, Z.bits_0.
    destruct (decide (n = 0)) as [-> | N0]; [by rewrite E0|].
    destruct (decide (n = 1)) as [-> | N1]; [by rewrite E1|].
    replace (n <? 2) with false by (symmetry; apply Z.ltb_ge; lia).
    by rewrite !andb_false_r.
Qed.

Lemma u32_low_byte (x : Z) : u32 (Z.land x 0xFF) = x mod 256.
Proof.
  change 0xFF with (Z.ones 8). rewrite Z.land_ones by lia.
  change (2 ^ 8) with 256. unfold u32. change (2 ^ 32) with 4294967296.
  apply Z.mod_small.
  assert (0 <= x mod 256 < 256) by (apply Z.mod_pos_bound; lia). lia.
Qed.

(** X12. Every run of [hi16xx_uart_putc].  The function samples the
    status register until a sample has bit 1 set -- the macro
    [UART_USR_TFE_BIT] is a bit number, and the code uses its value 2 as
    the mask -- and then writes the character reduced modulo 256 to the
    transmit register, once.  While no sample shows the bit it keeps
    sampling without bound and nothing is written. *)
Theorem hi16xx_uart_putc_cases (fuel : nat) (chip : hi16xx_uart_data) (ch : Z)
    (w : world unit) :
  let usr := chip_to_base io_pa_or_va chip + UART_USR in
  let thr := chip_to_base io_pa_or_va chip + UART_THR in
  (exists vs v,
     hi16xx_uart_putc io_pa_or_va fuel chip ch w =
       Done tt (emit (map (Read usr) vs ++ [Read usr v; Write thr (ch mod 256)]) w) /\
     Forall (fun x => Z.testbit x 1 = false) vs /\ Z.testbit v 1 = true /\
     (length vs < fuel)%nat /\ 0 <= ch mod 256 < 256) \/
  (exists vs,
     hi16xx_uart_putc io_pa_or_va fuel chip ch w = Spin (emit (map (Read usr) vs) w) /\
     Forall (fun x => Z.testbit x 1 = false) vs /\ length vs = fuel).
Proof.
  intros usr thr. unfold hi16xx_uart_putc. fold usr thr.
  destruct (io_poll_cases usr (fun x => Z.testbit x 1)
              (bind (read32 usr)
                 (fun v => ret (negb (nonzero (Z.land v UART_USR_TFE_BIT))))) fuel w)
    as [(vs & v & Hrun & Hall & Hv & Hlen & _) | (vs & Hrun & Hall & Hlen)].
  - intros w0. rewrite io_bind_read32. unfold UART_USR_TFE_BIT.
    by rewrite nonzero_land_2.
  - left. exists vs, v. rewrite (io_bind_done _ _ _ _ _ Hrun).
    unfold write32. rewrite io_emit_emit, <- app_assoc, u32_low_byte.
    split; [done|]. split; [done|]. split; [done|]. split; [done|].
    apply Z.mod_pos_bound. lia.
  - right. exists vs. by rewrite (io_bind_spin _ _ _ _ Hrun).
Qed.

(** X13. What [hi16xx_uart_have_rx_data] answers.  It samples the status
    register once and answers whether bit 0 (busy) or bit 1 (transmit
    FIFO not full) of the sample is set: the macro [UART_USR_RFNE_BIT]
    is the bit number 3 and the code uses it as the mask 3.  Bit 3 of
    the sample, the receive-FIFO-not-empty bit, has no influence on the
    answer. *)
Theorem hi16xx_uart_have_rx_data_mask (chip : hi16xx_uart_data) (w : world unit) :
  let usr := chip_to_base io_pa_or_va chip + UART_USR in
  exists v,
    v = u32 (answer (history w) usr) /\
    hi16xx_uart_have_rx_data io_pa_or_va chip w =
      Done (Z.testbit v 0 || Z.testbit v 1) (emit [Read usr v] w) /\
    (Z.testbit v 0 || Z.testbit v 1 =
     Z.testbit (Z.lxor v 8) 0 || Z.testbit (Z.lxor v 8) 1).
Proof.
  intros usr. eexists. split; [reflexivity|]. split.
  - unfold hi16xx_uart_have_rx_data. fold usr. rewrite io_bind_read32.
    unfold UART_USR_RFNE_BIT. by rewrite nonzero_land_3.
  - rewrite !Z.lxor_spec. change 8 with (2 ^ 3). rewrite !Z.pow2_bits_eqb by lia.
    simpl. by rewrite !xorb_false_r.
Qed.

(** X14. Every run of [hi16xx_uart_getchar].  The function samples the
    status register until bit 0 or bit 1 of a sample is set, then reads
    the receive register once and returns its low byte, a value from 0
    to 255; it writes nothing.  While no sample shows one of the two
    bits it keeps sampling without bound. *)
Theorem hi16xx_uart_getchar_cases (fuel : nat) (chip : hi16xx_uart_data)
    (w : world unit) :
  let usr := chip_to_base io_pa_or_va chip + UART_USR in
  let rbr := chip_to_base io_pa_or_va chip + UART_RBR in
  (exists vs v x,
     hi16xx_uart_getchar io_pa_or_va fuel chip w =
       Done (x mod 256) (emit (map (Read usr) vs ++ [Read usr v; Read rbr x]) w) /\
     Forall (fun s => Z.testbit s 0 || Z.testbit s 1 = false) vs /\
     Z.testbit v 0 || Z.testbit v 1 = true /\
     (length vs < fuel)%nat /\ 0 <= x mod 256 < 256) \/
  (exists vs,
     hi16xx_uart_getchar io_pa_or_va fuel chip w = Spin (emit (map (Read usr) vs) w) /\
     Forall (fun s => Z.testbit s 0 || Z.testbit s 1 = false) vs /\ length vs = fuel).
Proof.
  intros usr rbr. unfold hi16xx_uart_getchar. fold usr rbr.
  destruct (io_poll_cases usr (fun s => Z.testbit s 0 || Z.testbit s 1)
              (bind (hi16xx_uart_have_rx_data io_pa_or_va chip)
                 (fun b => ret (negb b))) fuel w)
    as [(vs & v & Hrun & Hall & Hv & Hlen & _) | (vs & Hrun & Hall & Hlen)].
  - intros w0. unfold hi16xx_uart_have_rx_data. fold usr.
    rewrite io_bind_assoc, io_bind_read32, io_bind_ret.
    unfold UART_USR_RFNE_BIT. by rewrite nonzero_land_3.
  - left. exists vs, v. eexists. rewrite (io_bind_done _ _ _ _ _ Hrun).
    rewrite io_bind_read32. unfold ret. rewrite io_emit_emit, <- app_assoc.
    change 0xFF with (Z.ones 8). rewrite Z.land_ones by lia.
    split; [reflexivity|]. split; [done|]. split; [done|]. split; [done|].
    apply Z.mod_pos_bound. lia.
  - right. exists vs. by rewrite (io_bind_spin _ _ _ _ Hrun).
Qed.

(** X15. The divisor latch written by [hi16xx_uart_init].  For a
    divisor [16 * baud_rate] that is zero as a 32-bit number the
    division is undefined and the model faults before any access.
    Otherwise the first six accesses are the writes of the FIFO
    control, the line control with the latch-access bit, the two
    divisor bytes, the line control with 8 data bits and the interrupt
    enable; the divisor bytes are below 256 and combine to the quotient
    truncated to 16 bits -- a quotient of 65536 or more is silently
    reduced modulo 65536 -- and everything after the six writes is a
    sample of the status register. *)
Theorem hi16xx_uart_init_divisor (fuel : nat) (base uart_clk baud_rate : Z)
    (w : world unit) :
  let quotient := u32 uart_clk / u32 (16 * baud_rate) in
  (u32 (16 * baud_rate) = 0 ->
     hi16xx_uart_init io_pa_or_va fuel base uart_clk baud_rate w = Fault w) /\
  (u32 (16 * baud_rate) <> 0 ->
     exists dll dlh t,
       history (final (hi16xx_uart_init io_pa_or_va fuel base uart_clk baud_rate w)) =
         history w ++
         [Write (base + UART_FCR) 1; Write (base + UART_LCR) 0x80;
          Write (base + UART_DLL) dll; Write (base + UART_DLH) dlh;
          Write (base + UART_LCR) 3; Write (base + UART_IEL) 0] ++ t /\
       Forall (fun e => exists v, e = Read (io_pa_or_va base + UART_USR) v) t /\
       0 <= dll < 256 /\ 0 <= dlh < 256 /\
       dll + 256 * dlh = quotient mod 65536 /\
       (quotient < 65536 -> dll + 256 * dlh = quotient) /\
       (forall pd w', hi16xx_uart_init io_pa_or_va fuel base uart_clk baud_rate w = Done pd w' ->
                      pd = mk_hi16xx_uart_data base true)).
Proof.
  intros quotient. unfold hi16xx_uart_init. split.
  - intros ->. reflexivity.
  - intros Hd. replace (u32 (16 * baud_rate) =? 0) with false
      by (symmetry; by apply Z.eqb_neq).
    fold quotient. set (fd := u16 quotient).
    assert (Hfd : 0 <= fd < 65536) by (apply Z.mod_pos_bound; lia).
    assert (Hq : 0 <= quotient).
    { apply Z.div_pos; [apply Z.mod_pos_bound; lia|].
      assert (0 <= u32 (16 * baud_rate)) by (apply Z.mod_pos_bound; lia). lia. }
    assert (Hlo : u32 (Z.land fd 0xFF) = fd mod 256) by apply u32_low_byte.
    assert (Hhi : u32 (Z.land (Z.shiftr fd 8) 0xFF) = fd / 256).
    { rewrite u32_low_byte, Z.shiftr_div_pow2 by lia. change (2 ^ 8) with 256.
      apply Z.mod_small. split; [apply Z.div_pos; lia|].
      apply Z.div_lt_upper_bound; lia. }
    exists (fd mod 256), (fd / 256).
    rewrite !io_bind_write32, Hlo, Hhi.
    set (pd := mk_hi16xx_uart_data base true).
    match goal with |- context [bind (hi16xx_uart_flush _ _ _) _ ?w0] => set (w1 := w0) end.
    assert (Hw1 : history w1 = history w ++
              [Write (base + UART_FCR) 1; Write (base + UART_LCR) 0x80;
               Write (base + UART_DLL) (fd mod 256); Write (base + UART_DLH) (fd / 256);
               Write (base + UART_LCR) 3; Write (base + UART_IEL) 0]).
    { subst w1. rewrite !io_emit_emit. reflexivity. }
    clearbody w1.
    assert (Hflush : exists vs,
              final (hi16xx_uart_flush io_pa_or_va fuel pd w1) =
                emit (map (Read (io_pa_or_va base + UART_USR)) vs) w1 /\
              forall pd' w', bind (hi16xx_uart_flush io_pa_or_va fuel pd)
                                  (fun _ => ret pd) w1 = Done pd' w' -> pd' = pd).
    { unfold hi16xx_uart_flush, chip_to_base. simpl base_pa.
      destruct (io_poll_cases (io_pa_or_va base + UART_USR) (fun x => Z.testbit x 1)
                  (bind (read32 (io_pa_or_va base + UART_USR))
                     (fun v => ret (negb (nonzero (Z.land v UART_USR_TFE_BIT))))) fuel w1)
        as [(vs & v & Hrun & _) | (vs & Hrun & _)].
      - intros w0. rewrite io_bind_read32. unfold UART_USR_TFE_BIT.
        by rewrite nonzero_land_2.
      - exists (vs ++ [v]). rewrite Hrun, map_app. split; [done|].
        intros pd' w'. rewrite (io_bind_done _ _ _ _ _ Hrun). by intros [= <- _].
      - exists vs. rewrite Hrun. split; [done|].
        intros pd' w'. by rewrite (io_bind_spin _ _ _ _ Hrun). }
    destruct Hflush as (vs & Hfin & Hpd).
    exists (map (Read (io_pa_or_va base + UART_USR)) vs).
    split; [|split; [|split; [|split; [|split; [|split]]]]].
    + unfold bind at 1.
      destruct (hi16xx_uart_flush io_pa_or_va fuel pd w1) as [[] w2 | w2 | w2];
        simpl in Hfin; subst w2; simpl; by rewrite Hw1, <- app_assoc.
    + apply Forall_forall. intros e He. apply in_map_iff in He as (v & <- & _). by exists v.
    + apply Z.mod_pos_bound. lia.
    + split; [apply Z.div_pos; lia | apply Z.div_lt_upper_bound; lia].
    + unfold fd, u16. change (2 ^ 16) with 65536.
      rewrite (Z.div_mod (quotient mod 65536) 256) at 3 by lia. lia.
    + intros Hlt. unfold fd, u16. change (2 ^ 16) with 65536.
      rewrite (Z.mod_small quotient 65536) by lia.
      rewrite (Z.div_mod quotient 256) at 3 by lia. lia.
    + exact Hpd.
Qed.

End UartProperties.

Section RngProperties.
Import Io Dra7Rng.
Context {D : Device}.
Variable RNG_BASE : Z.
Variable cpu_mmu_enabled : bool.
Variable phys_to_virt : Z -> Z.

Lemma io_bind_get {St B} (k : St -> M St B) (w : world St) :
  bind get k w = k (statics w) w.
Proof. reflexivity. Qed.

Lemma io_bind_modify {St B} (f : St -> St) (k : unit -> M St B) (w : world St) :
  bind (modify f) k w = k tt (mk_world (f (statics w)) (history w)).
Proof. reflexivity. Qed.

Lemma io_bind_lock {St B} (k : unit -> M St B) (w : world St) :
  bind mutex_lock k w = k tt (emit [MutexLock] w).
Proof. reflexivity. Qed.

(** The address resolution at the head of [hw_get_random_byte] touches
    neither the buffer nor the device. *)
Lemma rng_resolve_spec (w : world rng_statics) :
  exists st1,
    (if rng (statics w) =? 0
     then bind (rng_base RNG_BASE cpu_mmu_enabled phys_to_virt) (fun b => modify (set_rng b))
     else ret tt) w = Done tt (mk_world st1 (history w)) /\
    pos st1 = pos (statics w) /\
    random_val st1 = random_val (statics w) /\
    (rng (statics w) <> 0 -> st1 = statics w).
Proof.
  destruct w as [st h]. cbn [statics history].
  destruct (rng st =? 0) eqn:E.
  - apply Z.eqb_eq in E. unfold rng_base.
    destruct cpu_mmu_enabled.
    + rewrite io_bind_assoc, io_bind_get. cbn [statics].
      destruct (va st =? 0).
      * rewrite io_bind_assoc, io_bind_modify, io_bind_assoc, io_bind_get, io_bind_ret.
        unfold modify. cbn [statics history].
        eexists. split; [reflexivity|]. by repeat split.
      * rewrite io_bind_assoc, io_bind_ret, io_bind_assoc, io_bind_get, io_bind_ret.
        unfold modify. cbn [statics history].
        eexists. split; [reflexivity|]. by repeat split.
    + rewrite io_bind_ret. unfold modify. cbn [statics history].
      eexists. split; [reflexivity|]. by repeat split.
  - exists st. by repeat split.
Qed.

Lemma random_byte_range (val i : Z) : 0 <= random_byte val i < 256.
Proof.
  unfold random_byte. change 0xff with (Z.ones 8). rewrite Z.land_ones by lia.
  change (2 ^ 8) with 256. apply Z.mod_pos_bound. lia.
Qed.

(** The refill loop, whatever the device does: it only accesses the
    device, and either leaves or is still waiting. *)
Lemma rng_ready_loop (fuel : nat) (a : Z) (w : world rng_statics) :
  exists t,
    Forall (fun e => io_is_access e = true) t /\
    (while_loop fuel
       (bind (read32 (a + RNG_STATUS))
          (fun v => ret (negb (nonzero (Z.land v RNG_READY)))))
       (bind (read32 (a + RNG_STATUS)) (fun v =>
          if nonzero (Z.land v SHUTDOWN_OFLO) then
            bind (read32 (a + RNG_ALARMSTOP)) (fun alarm =>
            bind (read32 (a + RNG_FRODETUNE)) (fun tuning =>
            bind (write32 0x0 (a + RNG_ALARMMASK)) (fun _ =>
            bind (write32 0x0 (a + RNG_ALARMSTOP)) (fun _ =>
            bind (write32 (Z.lxor tuning alarm) (a + RNG_FRODETUNE)) (fun _ =>
            bind (write32 RNG_FRO_MASK (a + RNG_FROENABLE)) (fun _ =>
            write32 SHUTDOWN_OFLO (a + RNG_INTACK)))))))
          else ret tt)) w = Done tt (emit t w) \/
     while_loop fuel
       (bind (read32 (a + RNG_STATUS))
          (fun v => ret (negb (nonzero (Z.land v RNG_READY)))))
       (bind (read32 (a + RNG_STATUS)) (fun v =>
          if nonzero (Z.land v SHUTDOWN_OFLO) then
            bind (read32 (a + RNG_ALARMSTOP)) (fun alarm =>
            bind (read32 (a + RNG_FRODETUNE)) (fun tuning =>
            bind (write32 0x0 (a + RNG_ALARMMASK)) (fun _ =>
            bind (write32 0x0 (a + RNG_ALARMSTOP)) (fun _ =>
            bind (write32 (Z.lxor tuning alarm) (a + RNG_FRODETUNE)) (fun _ =>
            bind (write32 RNG_FRO_MASK (a + RNG_FROENABLE)) (fun _ =>
            write32 SHUTDOWN_OFLO (a + RNG_INTACK)))))))
          else ret tt)) w = Spin (emit t w)).
Proof.
  revert w. induction fuel as [|n IH]; intros w.
  - exists []. split; [constructor|]. right. simpl. by rewrite io_emit_nil.
  - cbn [while_loop]. rewrite io_bind_assoc, io_bind_read32, io_bind_ret.
    destruct (nonzero (Z.land (u32 (answer (history w) (a + RNG_STATUS))) RNG_READY));
      cbn [negb].
    + eexists. split; [|left; reflexivity]. by repeat constructor.
    + rewrite io_bind_assoc, io_bind_read32.
      match goal with |- context [if nonzero ?c then _ else _] => destruct (nonzero c) end.
      * repeat first [ rewrite io_bind_assoc | rewrite io_bind_read32
                     | rewrite io_bind_write32 ].
        rewrite !io_emit_emit.
        match goal with |- context [while_loop n _ _ ?w1] =>
          destruct (IH w1) as (t & Ht & [Hrun | Hrun])
        end; rewrite Hrun, io_emit_emit;
          (eexists; split; [|first [left; reflexivity | right; reflexivity]]);
          repeat (apply Forall_app; split); try done; by repeat constructor.
      * rewrite io_bind_ret.
        rewrite !io_emit_emit.
        match goal with |- context [while_loop n _ _ ?w1] =>
          destruct (IH w1) as (t & Ht & [Hrun | Hrun])
        end; rewrite Hrun, io_emit_emit;
          (eexists; split; [|first [left; reflexivity | right; reflexivity]]);
          repeat (apply Forall_app; split); try done; by repeat constructor.
Qed.

(** X16. The lock discipline and the buffer position of
    [hw_get_random_byte].  From a position within the eight-byte buffer
    the call never indexes outside it.  When it returns it has taken
    the mutex first and released it last, with nothing but device
    accesses in between; the position has advanced by one modulo 8, and
    the byte returned is the byte of the buffer at the old position.
    With a non-zero position the device is not accessed at all and the
    buffer is unchanged.  The call can fail to return only at position
    0, waiting for the device with the mutex held. *)
Theorem hw_get_random_byte_discipline (fuel : nat) (w : world rng_statics) :
  let st := statics w in
  0 <= pos st < 8 ->
  (exists r w' mid,
     hw_get_random_byte RNG_BASE cpu_mmu_enabled phys_to_virt fuel w = Done r w' /\
     history w' = history w ++ [MutexLock] ++ mid ++ [MutexUnlock] /\
     Forall (fun e => io_is_access e = true) mid /\
     pos (statics w') = (pos st + 1) mod 8 /\
     0 <= r < 256 /\
     r = random_byte (random_val (statics w')) (pos st) /\
     (pos st <> 0 -> mid = [] /\ random_val (statics w') = random_val st)) \/
  (exists w' mid,
     hw_get_random_byte RNG_BASE cpu_mmu_enabled phys_to_virt fuel w = Spin w' /\
     pos st = 0 /\
     history w' = history w ++ [MutexLock] ++ mid /\
     Forall (fun e => io_is_access e = true) mid).
Proof.
  intros st Hpos. unfold hw_get_random_byte.
  rewrite io_bind_lock, io_bind_get.
  destruct (rng_resolve_spec (emit [MutexLock] w)) as (st1 & Hres & Hp1 & Hv1 & _).
  cbn [emit statics history] in Hres, Hp1, Hv1. fold st in Hp1, Hv1.
  unfold emit. cbn [statics history].
  rewrite (io_bind_done _ _ _ _ _ Hres), io_bind_get. cbn [statics]. clear Hres.
  assert (Hnext : forall p, 0 <= p < 8 -> (if p + 1 =? 8 then 0 else p + 1) = (p + 1) mod 8).
  { intros p Hp. destruct (Z.eqb_spec (p + 1) 8) as [-> | Hne]; [done|].
    symmetry. apply Z.mod_small. lia. }
  rewrite Hp1. destruct (Z.eqb_spec (pos st) 0) as [E0 | Hne].
  - destruct (rng_ready_loop fuel (rng st1) (mk_world st1 (history w ++ [MutexLock])))
      as (t & Ht & [Hrun | Hrun]).
    + left. rewrite !io_bind_assoc, (io_bind_done _ _ _ _ _ Hrun).
      rewrite !io_bind_assoc, io_bind_read32, !io_bind_assoc, io_bind_modify,
        !io_bind_assoc, io_bind_read32, !io_bind_assoc, io_bind_modify,
        io_bind_write32, io_bind_get.
      cbn [emit statics history pos random_val set_random_val set_pos].
      rewrite Hp1, E0. cbn [Z.leb Z.ltb Z.compare andb].
      rewrite io_bind_modify. unfold bind, mutex_unlock, ret, emit.
      cbn [statics history pos random_val set_random_val set_pos].
      eexists _, _, (t ++ [_; _; _]). split; [reflexivity|].
      cbn [statics history pos random_val].
      split; [rewrite <- !app_assoc; reflexivity|].
      split; [|split; [reflexivity | split; [apply random_byte_range | split; [reflexivity|]]]].
      * apply Forall_app; split; [done | by repeat constructor].
      * intros Hc. by destruct Hc.
    + right. rewrite !io_bind_assoc, (io_bind_spin _ _ _ _ Hrun).
      eexists _, t. split; [reflexivity|]. split; [done|].
      cbn [emit history]. by rewrite <- app_assoc.
  - left. rewrite io_bind_ret, io_bind_get. cbn [statics].
    rewrite Hp1.
    replace ((0 <=? pos st) && (pos st <? 8)) with true
      by (symmetry; apply andb_true_iff; split; [apply Z.leb_le | apply Z.ltb_lt]; lia).
    rewrite io_bind_modify. unfold bind, mutex_unlock, ret, emit.
    cbn [statics history pos random_val set_random_val set_pos].
    eexists _, _, []. split; [reflexivity|]. cbn [statics history pos random_val app].
    split; [by rewrite <- app_assoc|]. split; [constructor|].
    split; [by apply Hnext|]. split; [apply random_byte_range|].
    split; [reflexivity|]. intros _. split; [reflexivity | exact Hv1].
Qed.

Lemma random_byte_div (val i : Z) :
  0 <= i -> random_byte val i = (val / 2 ^ (8 * i)) mod 256.
Proof.
  intros Hi. unfold random_byte. change 0xff with (Z.ones 8).
  rewrite Z.land_ones, Z.shiftr_div_pow2 by lia. reflexivity.
Qed.

(** The bytes of a number, least significant first, combine to it. *)
Lemma le_combine_bytes (val : Z) (n k : nat) :
  le_combine (map (fun i => random_byte val (Z.of_nat i)) (seq k n)) =
  (val / 2 ^ (8 * Z.of_nat k)) mod 2 ^ (8 * Z.of_nat n).
Proof.
  revert k. induction n as [|n IH]; intros k.
  - simpl. by rewrite Z.mod_1_r.
  - cbn [seq map le_combine fold_right]. fold (le_combine
      (map (fun i => random_byte val (Z.of_nat i)) (seq (S k) n))).
    rewrite IH, random_byte_div by lia.
    set (y := val / 2 ^ (8 * Z.of_nat k)).
    replace (val / 2 ^ (8 * Z.of_nat (S k))) with (y / 256).
    2:{ subst y. rewrite Z.div_div by lia. f_equal.
        replace (8 * Z.of_nat (S k)) with (8 * Z.of_nat k + 8) by lia.
        rewrite Z.pow_add_r by lia. reflexivity. }
    replace (2 ^ (8 * Z.of_nat (S n))) with (256 * 2 ^ (8 * Z.of_nat n)).
    2:{ replace (8 * Z.of_nat (S n)) with (8 + 8 * Z.of_nat n) by lia.
        rewrite Z.pow_add_r by lia. reflexivity. }
    rewrite Z.rem_mul_r by lia. reflexivity.
Qed.

Lemma lor_halves (lo hi : Z) :
  0 <= lo < 2 ^ 32 -> 0 <= hi < 2 ^ 32 ->
  Z.lor lo (SHIFT_U64 hi 32) = lo + 2 ^ 32 * hi.
Proof.
  intros Hlo Hhi. unfold SHIFT_U64, u64.
  rewrite Z.shiftl_mul_pow2 by lia.
  rewrite Z.mod_small by (change (2 ^ 64) with (2 ^ 32 * 2 ^ 32); nia).
  rewrite <- Z.lxor_lor, <- Z.add_nocarry_lxor; [lia | |];
    (apply Z.bits_inj'; intros n Hn; rewrite Z.land_spec, Z.bits_0;
     destruct (Z.ltb_spec n 32);
     [ rewrite Z.mul_pow2_bits_low by lia; apply andb_false_r
     | replace (Z.testbit lo n) with false; [done|];
       symmetry; rewrite <- (Z.mod_small lo (2 ^ 32)) by lia;
       apply Z.mod_pow2_bits_high; lia ]).
Qed.

(** X17. Eight calls spend one sample.  With the buffer at position 0,
    the device address known and the first status sample showing the
    ready bit, eight consecutive calls of [hw_get_random_byte] read the
    two output words once, acknowledge once, and return eight bytes
    that are the little-endian bytes of the 64-bit sample: combined
    they give back low word + 2^32 * high word.  The last seven calls
    take and release the mutex without touching the device, and the
    buffer is back at position 0. *)
Theorem hw_get_random_bytes_sample (fuel : nat) (w : world rng_statics) :
  let st := statics w in
  let a := rng st in
  (0 < fuel)%nat -> pos st = 0 -> a <> 0 ->
  Z.testbit (answer (history w ++ [MutexLock]) (a + RNG_STATUS)) 0 = true ->
  exists v lo hi bs w',
    hw_get_random_bytes RNG_BASE cpu_mmu_enabled phys_to_virt fuel 8 w = Done bs w' /\
    history w' = history w ++
      [MutexLock; Read (a + RNG_STATUS) v; Read (a + RNG_OUTPUT_L) lo;
       Read (a + RNG_OUTPUT_H) hi; Write (a + RNG_INTACK) 1; MutexUnlock] ++
      concat (repeat [MutexLock; MutexUnlock] 7) /\
    length bs = 8%nat /\
    Forall (fun b => 0 <= b < 256) bs /\
    le_combine bs = lo + 2 ^ 32 * hi /\
    statics w' = set_random_val (lo + 2 ^ 32 * hi) st.
Proof.
  intros st a Hfuel Hpos Ha Hready.
  (* a call that finds the buffer at a non-zero position *)
  assert (Hserve : forall p val h, 0 < p < 8 ->
    hw_get_random_byte RNG_BASE cpu_mmu_enabled phys_to_virt fuel
      (mk_world (set_pos p (set_random_val val st)) h) =
    Done (random_byte val p)
         (mk_world (set_pos (if p + 1 =? 8 then 0 else p + 1) (set_random_val val st))
                   (h ++ [MutexLock; MutexUnlock]))).
  { intros p val h Hp. unfold hw_get_random_byte.
    rewrite io_bind_lock, io_bind_get.
    unfold emit. cbn [statics history rng set_pos set_random_val]. fold a.
    replace (a =? 0) with false by (symmetry; by apply Z.eqb_neq).
    rewrite io_bind_ret, io_bind_get. cbn [statics pos set_pos].
    replace (p =? 0) with false by (symmetry; apply Z.eqb_neq; lia).
    rewrite io_bind_ret, io_bind_get. cbn [statics pos set_pos].
    replace ((0 <=? p) && (p <? 8)) with true
      by (symmetry; apply andb_true_iff; split; [apply Z.leb_le | apply Z.ltb_lt]; lia).
    rewrite io_bind_modify. unfold bind, mutex_unlock, ret, emit.
    cbn [statics history pos random_val set_random_val set_pos rng va].
    by rewrite <- app_assoc. }
  set (v := u32 (answer (history w ++ [MutexLock]) (a + RNG_STATUS))).
  set (h1 := (history w ++ [MutexLock]) ++ [Read (a + RNG_STATUS) v]).
  set (lo := u32 (answer h1 (a + RNG_OUTPUT_L))).
  set (hi := u32 (answer (h1 ++ [Read (a + RNG_OUTPUT_L) lo]) (a + RNG_OUTPUT_H))).
  assert (Hlo : 0 <= lo < 2 ^ 32) by (apply Z.mod_pos_bound; lia).
  assert (Hhi : 0 <= hi < 2 ^ 32) by (apply Z.mod_pos_bound; lia).
  set (val := lo + 2 ^ 32 * hi).
  (* the call that refills the buffer *)
  assert (Hfill :
    hw_get_random_byte RNG_BASE cpu_mmu_enabled phys_to_virt fuel w =
    Done (random_byte val 0)
         (mk_world (set_pos 1 (set_random_val val st))
            (history w ++
             [MutexLock; Read (a + RNG_STATUS) v; Read (a + RNG_OUTPUT_L) lo;
              Read (a + RNG_OUTPUT_H) hi; Write (a + RNG_INTACK) 1; MutexUnlock]))).
  { unfold hw_get_random_byte.
    rewrite io_bind_lock, io_bind_get. unfold emit. cbn [statics history]. fold st a.
    replace (a =? 0) with false by (symmetry; by apply Z.eqb_neq).
    rewrite io_bind_ret, io_bind_get. cbn [statics]. fold st a. rewrite Hpos.
    cbn [Z.eqb].
    destruct fuel as [|n]; [lia|]. cbn [while_loop].
    rewrite !io_bind_assoc, io_bind_read32. cbn [history]. fold v.
    assert (Hv : nonzero (Z.land v RNG_READY) = true).
    { unfold RNG_READY, BIT. change (Z.shiftl 1 0) with (2 ^ 0).
      rewrite nonzero_land_pow2 by lia. subst v. by rewrite u32_spec_low by lia. }
    rewrite io_bind_ret, Hv. cbn [negb]. rewrite io_bind_ret.
    repeat first [ rewrite io_bind_assoc | rewrite io_bind_read32 | rewrite io_bind_modify
                 | rewrite io_bind_write32 | rewrite io_bind_get ].
    unfold emit. cbn [statics history pos random_val set_random_val set_pos].
    fold st. rewrite Hpos. cbn [Z.leb Z.ltb Z.compare andb].
    fold h1. fold lo. fold hi. rewrite (lor_halves lo hi Hlo Hhi). fold val.
    rewrite io_bind_modify. unfold bind, mutex_unlock, ret, emit.
    cbn [statics history].
    subst h1. rewrite <- !app_assoc. reflexivity. }
  exists v, lo, hi.
  exists (map (fun i => random_byte val (Z.of_nat i)) (seq 0 8)).
  eexists. split.
  - cbn [hw_get_random_bytes].
    rewrite (io_bind_done _ _ _ _ _ Hfill).
    rewrite ?io_bind_assoc, (io_bind_done _ _ _ _ _ (Hserve 1 val _ ltac:(lia))).
    cbn [Z.add Z.eqb Pos.add Pos.eqb Pos.succ].
    rewrite ?io_bind_assoc, (io_bind_done _ _ _ _ _ (Hserve 2 val _ ltac:(lia))).
    cbn [Z.add Z.eqb Pos.add Pos.eqb Pos.succ].
    rewrite ?io_bind_assoc, (io_bind_done _ _ _ _ _ (Hserve 3 val _ ltac:(lia))).
    cbn [Z.add Z.eqb Pos.add Pos.eqb Pos.succ].
    rewrite ?io_bind_assoc, (io_bind_done _ _ _ _ _ (Hserve 4 val _ ltac:(lia))).
    cbn [Z.add Z.eqb Pos.add Pos.eqb Pos.succ].
    rewrite ?io_bind_assoc, (io_bind_done _ _ _ _ _ (Hserve 5 val _ ltac:(lia))).
    cbn [Z.add Z.eqb Pos.add Pos.eqb Pos.succ].
    rewrite ?io_bind_assoc, (io_bind_done _ _ _ _ _ (Hserve 6 val _ ltac:(lia))).
    cbn [Z.add Z.eqb Pos.add Pos.eqb Pos.succ].
    rewrite ?io_bind_assoc, (io_bind_done _ _ _ _ _ (Hserve 7 val _ ltac:(lia))).
    cbn [Z.add Z.eqb Pos.add Pos.eqb Pos.succ].
    rewrite ?io_bind_assoc, !io_bind_ret. reflexivity.
  - cbn [history statics]. split; [|split; [reflexivity|split; [|split]]].
    + rewrite <- !app_assoc. reflexivity.
    + apply Forall_forall. intros b Hb. apply in_map_iff in Hb as (i & <- & _).
      apply random_byte_range.
    + rewrite le_combine_bytes. change (8 * Z.of_nat 0) with 0. change (2 ^ 0) with 1.
      rewrite Z.div_1_r. apply Z.mod_small.
      change (2 ^ (8 * Z.of_nat 8)) with (2 ^ 32 * 2 ^ 32). subst val. nia.
    + unfold set_pos, set_random_val. cbn [va rng pos random_val]. by rewrite Hpos.
Qed.

End RngProperties.

Section RngInit.
Import Io Dra7Rng.
Context {D : Device}.
Variable RNG_BASE : Z.
Variable cpu_mmu_enabled : bool.
Variable phys_to_virt : Z -> Z.
Variable TEE_SUCCESS : Z.

Lemma rng_base_spec (w : world rng_statics) :
  exists a st0,
    rng_base RNG_BASE cpu_mmu_enabled phys_to_virt w = Done a (mk_world st0 (history w)) /\
    rng st0 = rng (statics w) /\ pos st0 = pos (statics w) /\
    random_val st0 = random_val (statics w).
Proof.
  destruct w as [st h]. cbn [statics history]. unfold rng_base.
  destruct cpu_mmu_enabled.
  - rewrite io_bind_get. cbn [statics].
    destruct (va st =? 0).
    + rewrite io_bind_modify, io_bind_get. unfold ret. cbn [statics history].
      eexists _, _. split; [reflexivity|]. by repeat split.
    + rewrite io_bind_ret, io_bind_get. unfold ret. cbn [statics history].
      eexists _, _. split; [reflexivity|]. by repeat split.
  - unfold ret. eexists _, _. split; [reflexivity|]. by repeat split.
Qed.

(** X18. Every run of [dra7_rng_init].  The function writes the soft
    reset and then samples the reset register until a sample has bit 0
    clear, without bound: while the bit stays set nothing else is
    written.  Once the reset has completed it writes, in this order,
    the idle mode, the refill cycles 0x22 and 0x21 in the upper and
    lower half of the configuration word, a zero de-tune word, the
    enable of all 24 oscillators, the alarm word with shutdown
    threshold 4 over alarm threshold 0xff, and the control word with
    start-up cycles 0xff and the enable bit 10; then it returns
    [TEE_SUCCESS].  The byte buffer of [hw_get_random_byte] is not
    touched. *)
Theorem dra7_rng_init_cases (fuel : nat) (w : world rng_statics) :
  exists a st0,
    rng st0 = rng (statics w) /\ pos st0 = pos (statics w) /\
    random_val st0 = random_val (statics w) /\
    ((exists vs v,
        dra7_rng_init RNG_BASE cpu_mmu_enabled phys_to_virt TEE_SUCCESS fuel w =
          Done TEE_SUCCESS
            (mk_world st0
               (history w ++
                [Write (a + RNG_SOFT_RESET_REG) 1] ++
                map (Read (a + RNG_SOFT_RESET_REG)) vs ++
                [Read (a + RNG_SOFT_RESET_REG) v;
                 Write (a + RNG_SYS_CONFIG_REG) 1;
                 Write (a + RNG_CONFIG) 0x220021;
                 Write (a + RNG_FRODETUNE) 0;
                 Write (a + RNG_FROENABLE) 0xffffff;
                 Write (a + RNG_ALARMCNT) 0x400ff;
                 Write (a + RNG_CONTROL) 0xff0400])) /\
        Forall (fun x => Z.testbit x 0 = true) vs /\ Z.testbit v 0 = false /\
        (length vs < fuel)%nat) \/
     (exists vs,
        dra7_rng_init RNG_BASE cpu_mmu_enabled phys_to_virt TEE_SUCCESS fuel w =
          Spin (mk_world st0
                  (history w ++ [Write (a + RNG_SOFT_RESET_REG) 1] ++
                   map (Read (a + RNG_SOFT_RESET_REG)) vs)) /\
        Forall (fun x => Z.testbit x 0 = true) vs /\ length vs = fuel)).
Proof.
  destruct (rng_base_spec w) as (a & st0 & Hbase & Hr & Hp & Hv).
  exists a, st0. split; [done|]. split; [done|]. split; [done|].
  unfold dra7_rng_init. rewrite (io_bind_done _ _ _ _ _ Hbase), io_bind_write32.
  assert (Hall : forall vs, Forall (fun x => negb (Z.testbit x 0) = false) vs ->
                            Forall (fun x => Z.testbit x 0 = true) vs).
  { intros vs. apply List.Forall_impl. intros x Hx. by apply negb_false_iff in Hx. }
  match goal with |- context [bind (while_loop _ _ _) _ ?w0] => set (w1 := w0) end.
  destruct (io_poll_cases (a + RNG_SOFT_RESET_REG) (fun x => negb (Z.testbit x 0))
              (bind (read32 (a + RNG_SOFT_RESET_REG))
                 (fun v => ret (nonzero (Z.land v RNG_SOFT_RESET)))) fuel w1)
    as [(vs & v & Hrun & Hvs & Hlast & Hlen & _) | (vs & Hrun & Hvs & Hlen)].
  - intros w0. rewrite io_bind_read32, negb_involutive.
    unfold RNG_SOFT_RESET, BIT. change (Z.shiftl 1 0) with (2 ^ 0).
    by rewrite nonzero_land_pow2 by lia.
  - left. exists vs, v. rewrite (io_bind_done _ _ _ _ _ Hrun).
    rewrite !io_bind_write32. unfold ret. subst w1. rewrite !io_emit_emit.
    split; [|split; [by apply Hall | split; [by apply negb_true_iff in Hlast | done]]].
    unfold emit. cbn [statics history]. rewrite <- !app_assoc. reflexivity.
  - right. exists vs. rewrite (io_bind_spin _ _ _ _ Hrun).
    subst w1. rewrite !io_emit_emit.
    split; [|split; [by apply Hall | done]].
    reflexivity.
Qed.

End RngInit.

(** * The further properties on concrete runs *)

Lemma psci_cpu_on_success_state_witness :
  (500 < 501)%nat /\
  @psci_cpu_on rk322x parked_device 501 2 0x80100000 0 (boot_machine 0)
    = Done PSCI_RET_SUCCESS core2_started /\
  isram core2_started BOOT_ADDR_OFFSET = @CFG_TEE_LOAD_ADDR rk322x /\
  isram core2_started LOCK_ADDR_OFFSET = @LOCK_TAG rk322x.
Proof.
  assert (H1 : (500 < 501)%nat) by lia.
  assert (H2 : @psci_cpu_on rk322x parked_device 501 2 0x80100000 0 (boot_machine 0)
               = Done PSCI_RET_SUCCESS core2_started) by (vm_compute; reflexivity).
  split; [exact H1|]. split; [exact H2|].
  destruct (@psci_cpu_on_success_state rk322x parked_device 501 2 0x80100000 0
              (boot_machine 0) core2_started H1 H2) as (Hb & Hl & _).
  split; [exact Hb | exact Hl].
Defined.

Lemma psci_cpu_on_reset_mask_correct_witness :
  Z.land 2 (@MPIDR_CPU_MASK rk322x) <> 0 /\
  Z.land 2 (@MPIDR_CPU_MASK rk322x) < @CFG_TEE_CORE_NB_CORE rk322x /\
  0 <= Z.land 2 (@MPIDR_CPU_MASK rk322x) <= 11 /\
  @softrst_layout rk322x (Z.land 2 (@MPIDR_CPU_MASK rk322x)) /\
  (500 < 501)%nat /\
  exists r s' new,
    @psci_cpu_on rk322x parked_device 501 2 0x80100000 0 (boot_machine 0) = Done r s' /\
    trace s' = trace (boot_machine 0) ++ new /\
    (r = PSCI_RET_SUCCESS -> existsb is_softrst_write new = true).
Proof.
  assert (H1 : Z.land 2 (@MPIDR_CPU_MASK rk322x) <> 0) by (vm_compute; congruence).
  assert (H2 : Z.land 2 (@MPIDR_CPU_MASK rk322x) < @CFG_TEE_CORE_NB_CORE rk322x)
    by (vm_compute; congruence).
  assert (H3 : 0 <= Z.land 2 (@MPIDR_CPU_MASK rk322x) <= 11)
    by (split; vm_compute; congruence).
  assert (H4 : @softrst_layout rk322x (Z.land 2 (@MPIDR_CPU_MASK rk322x)))
    by (repeat split; vm_compute; reflexivity).
  assert (H5 : (500 < 501)%nat) by lia.
  split; [exact H1|]. split; [exact H2|]. split; [exact H3|]. split; [exact H4|].
  split; [exact H5|].
  destruct (@psci_cpu_on_reset_mask_correct rk322x parked_device 501 2 0x80100000 0
              (boot_machine 0) H1 H2 H3 H4 H5)
    as (r & s' & new & Hrun & Htr & _ & _ & Hs).
  exists r, s', new. split; [exact Hrun|]. split; [exact Htr | exact Hs].
Defined.

Lemma cpu_on_after_reset_nonboot_cores_witness :
  Z.land 2 (@MPIDR_CPU_MASK rk322x) <> 0 /\
  Z.land 2 (@MPIDR_CPU_MASK rk322x) < @CFG_TEE_CORE_NB_CORE rk322x /\
  (500 < 501)%nat /\
  0 <= 6 /\
  @CORE_HELD_IN_RESET rk322x (Z.land 2 (@MPIDR_CPU_MASK rk322x)) = 2 ^ 6 /\
  Z.testbit (wmask_of (@NONBOOT_CORES_SOFT_RESET rk322x_boot)) 6 = true /\
  Z.testbit (@NONBOOT_CORES_SOFT_RESET rk322x_boot) 6 = true /\
  exists s1,
    @reset_nonboot_cores rk322x_boot (running_machine 0)
      = Done (@TEE_SUCCESS rk322x_boot) s1 /\
    cru s1 (CRU_SOFTRST_CON 0) =
      masked_write (cru (running_machine 0) (CRU_SOFTRST_CON 0))
                   (@NONBOOT_CORES_SOFT_RESET rk322x_boot).
Proof.
  assert (H1 : Z.land 2 (@MPIDR_CPU_MASK rk322x) <> 0) by (vm_compute; congruence).
  assert (H2 : Z.land 2 (@MPIDR_CPU_MASK rk322x) < @CFG_TEE_CORE_NB_CORE rk322x)
    by (vm_compute; congruence).
  assert (H3 : (500 < 501)%nat) by lia.
  assert (H4 : 0 <= 6) by lia.
  assert (H5 : @CORE_HELD_IN_RESET rk322x (Z.land 2 (@MPIDR_CPU_MASK rk322x)) = 2 ^ 6)
    by reflexivity.
  assert (H6 : Z.testbit (wmask_of (@NONBOOT_CORES_SOFT_RESET rk322x_boot)) 6 = true)
    by reflexivity.
  assert (H7 : Z.testbit (@NONBOOT_CORES_SOFT_RESET rk322x_boot) 6 = true) by reflexivity.
  split; [exact H1|]. split; [exact H2|]. split; [exact H3|]. split; [exact H4|].
  split; [exact H5|]. split; [exact H6|]. split; [exact H7|].
  destruct (@cpu_on_after_reset_nonboot_cores rk322x wedged_device rk322x_boot 501 2
              0x80100000 0 6 (running_machine 0) H1 H2 H3 H4 H5 H6 H7)
    as (s1 & Hrun & Hcru & _).
  exists s1. split; [exact Hrun | exact Hcru].
Defined.

Lemma wait_core_wfe_i_exact_witness :
  (500 < 501)%nat /\
  exists vs v v',
    @wait_core_wfe_i rk322x parked_device 501 2 (boot_machine 0) =
      Done (nonzero (Z.land v' (@CORE_WFE_I_MASK rk322x 2)))
           (emit (poll_rounds (GRF_BASE GRF_CPU_STATUS1) vs ++
                  [EvRead (GRF_BASE GRF_CPU_STATUS1) v;
                   EvRead (GRF_BASE GRF_CPU_STATUS1) v']) (boot_machine 0)) /\
    (length vs <= 500)%nat.
Proof.
  assert (H : (500 < 501)%nat) by lia.
  split; [exact H|].
  destruct (@wait_core_wfe_i_exact rk322x parked_device 501 2 (boot_machine 0) H)
    as (vs & v & v' & Hrun & _ & Hle & _).
  exists vs, v, v'. split; [exact Hrun | exact Hle].
Defined.

Lemma wait_core_wfe_i_times_out_witness :
  (500 < 501)%nat /\
  (forall h, Z.land (@grf_cpu_status1 wedged_device h) (@CORE_WFE_I_MASK rk322x 2) = 0) /\
  exists t,
    @wait_core_wfe_i rk322x wedged_device 501 2 (running_machine 0)
      = Done false (emit t (running_machine 0)) /\
    Forall (fun e => is_poll (GRF_BASE GRF_CPU_STATUS1) e = true) t /\
    count_udelay t = 500%nat /\
    length t = 1002%nat /\
    total_delay t = 1000.
Proof.
  assert (H1 : (500 < 501)%nat) by lia.
  assert (H2 : forall h,
    Z.land (@grf_cpu_status1 wedged_device h) (@CORE_WFE_I_MASK rk322x 2) = 0)
    by (intros; reflexivity).
  split; [exact H1|]. split; [exact H2|].
  exact (@wait_core_wfe_i_times_out rk322x wedged_device 501 2 (running_machine 0) H1 H2).
Defined.

Lemma psci_cpu_on_delay_bound_witness :
  Z.land 2 (@MPIDR_CPU_MASK rk322x) <> 0 /\
  Z.land 2 (@MPIDR_CPU_MASK rk322x) < @CFG_TEE_CORE_NB_CORE rk322x /\
  (500 < 501)%nat /\
  exists r s' new,
    @psci_cpu_on rk322x wedged_device 501 2 0x80100000 0 (running_machine 0) = Done r s' /\
    trace s' = trace (running_machine 0) ++ new /\
    0 <= total_delay new <= 2002.
Proof.
  assert (H1 : Z.land 2 (@MPIDR_CPU_MASK rk322x) <> 0) by (vm_compute; congruence).
  assert (H2 : Z.land 2 (@MPIDR_CPU_MASK rk322x) < @CFG_TEE_CORE_NB_CORE rk322x)
    by (vm_compute; congruence).
  assert (H3 : (500 < 501)%nat) by lia.
  split; [exact H1|]. split; [exact H2|]. split; [exact H3|].
  destruct (@psci_cpu_on_delay_bound rk322x wedged_device 501 2 0x80100000 0
              (running_machine 0) H1 H2 H3) as (r & s' & new & Hrun & Htr & Hb & _).
  exists r, s', new. split; [exact Hrun|]. split; [exact Htr | exact Hb].
Defined.

Lemma clks_disable_gates_exactly_witness :
  length (cru_clkgate (dram_d (boot_machine 0))) = CRU_CLKGATE_CON_CNT /\
  exists s1,
    @clks_disable parked_device (boot_machine 0) = Done tt s1 /\
    length (cru_clkgate (dram_d s1)) = CRU_CLKGATE_CON_CNT.
Proof.
  assert (H : length (cru_clkgate (dram_d (boot_machine 0))) = CRU_CLKGATE_CON_CNT)
    by reflexivity.
  split; [exact H|].
  destruct (@clks_disable_gates_exactly parked_device (boot_machine 0) H)
    as (s1 & Hrun & _ & _ & Hlen & _).
  exists s1. split; [exact Hrun | exact Hlen].
Defined.

Lemma plls_power_down_effect_witness :
  @pll_mode_layout rk322x /\
  Forall (fun id => @PLL_MODE_BIT rk322x id < 16)
         [@APLL_ID rk322x; @CPLL_ID rk322x; @GPLL_ID rk322x] /\
  exists s',
    @plls_power_down rk322x parked_device (boot_machine 0) = Done tt s' /\
    Z.land (cru s' (CRU_CLKSEL_CON 0)) 0x1f1f = 0.
Proof.
  assert (H1 : @pll_mode_layout rk322x) by (repeat constructor; vm_compute; congruence).
  assert (H2 : Forall (fun id => @PLL_MODE_BIT rk322x id < 16)
                 [@APLL_ID rk322x; @CPLL_ID rk322x; @GPLL_ID rk322x])
    by (repeat constructor; vm_compute; reflexivity).
  split; [exact H1|]. split; [exact H2|].
  destruct (@plls_power_down_effect rk322x parked_device (boot_machine 0) H1 H2)
    as (s' & Hrun & _ & (Hz & _) & _).
  exists s'. split; [exact Hrun | exact Hz].
Defined.

Lemma psci_system_suspend_log_shape_witness :
  (500 < 501)%nat /\
  exists t1 t2,
    trace (final (@psci_system_suspend rk322x wedged_device 501 0 0 (boot_machine 0))) =
      trace (boot_machine 0) ++ t1 ++ [EvCacheOp; EvWfi] ++ t2 /\
    0 <= total_delay t2 <= 3200.
Proof.
  assert (H : (500 < 501)%nat) by lia.
  split; [exact H|].
  destruct (@psci_system_suspend_log_shape rk322x wedged_device 501 0 0 (boot_machine 0) H)
    as (t1 & t2 & Htr & _ & _ & _ & Hb).
  exists t1, t2. split; [exact Htr | exact Hb].
Defined.

Lemma hi16xx_uart_init_divisor_witness :
  u32 (16 * 115200) <> 0 /\
  exists dll dlh,
    0 <= dll < 256 /\ 0 <= dlh < 256 /\
    dll + 256 * dlh = (u32 200000000 / u32 (16 * 115200)) mod 65536.
Proof.
  assert (H : u32 (16 * 115200) <> 0) by (vm_compute; congruence).
  split; [exact H|].
  destruct (proj2 (@hi16xx_uart_init_divisor ready_device (fun pa => pa) 1
                     0x602b0000 200000000 115200 (Io.mk_world tt [])) H)
    as (dll & dlh & t & _ & _ & Hl & Hh & Hsum & _).
  exists dll, dlh. split; [exact Hl|]. split; [exact Hh | exact Hsum].
Defined.

Lemma hw_get_random_byte_discipline_witness :
  0 <= Dra7Rng.pos (Io.statics idle_rng) < 8 /\
  ((exists r w' mid,
      @Dra7Rng.hw_get_random_byte ready_device 0x48090000 false (fun pa => pa) 1 idle_rng
        = Io.Done r w' /\
      Io.history w' =
        Io.history idle_rng ++ [Io.MutexLock] ++ mid ++ [Io.MutexUnlock] /\
      0 <= r < 256) \/
   (exists w',
      @Dra7Rng.hw_get_random_byte ready_device 0x48090000 false (fun pa => pa) 1 idle_rng
        = Io.Spin w')).
Proof.
  assert (H : 0 <= Dra7Rng.pos (Io.statics idle_rng) < 8) by (vm_compute; split; congruence).
  split; [exact H|].
  destruct (@hw_get_random_byte_discipline ready_device 0x48090000 false (fun pa => pa) 1
              idle_rng H)
    as [(r & w' & mid & Hrun & Hh & _ & _ & Hr & _) | (w' & mid & Hrun & _)].
  - left. exists r, w', mid. split; [exact Hrun|]. split; [exact Hh | exact Hr].
  - right. exists w'. exact Hrun.
Defined.

Lemma hw_get_random_bytes_sample_witness :
  (0 < 1)%nat /\
  Dra7Rng.pos (Io.statics idle_rng) = 0 /\
  Dra7Rng.rng (Io.statics idle_rng) <> 0 /\
  Z.testbit (@Io.answer ready_device (Io.history idle_rng ++ [Io.MutexLock])
               (Dra7Rng.rng (Io.statics idle_rng) + Dra7Rng.RNG_STATUS)) 0 = true /\
  exists lo hi bs w',
    @Dra7Rng.hw_get_random_bytes ready_device 0x48090000 false (fun pa => pa) 1 8 idle_rng
      = Io.Done bs w' /\
    length bs = 8%nat /\
    Dra7Rng.le_combine bs = lo + 2 ^ 32 * hi.
Proof.
  assert (H1 : (0 < 1)%nat) by lia.
  assert (H2 : Dra7Rng.pos (Io.statics idle_rng) = 0) by reflexivity.
  assert (H3 : Dra7Rng.rng (Io.statics idle_rng) <> 0) by (vm_compute; congruence).
  assert (H4 : Z.testbit (@Io.answer ready_device (Io.history idle_rng ++ [Io.MutexLock])
                 (Dra7Rng.rng (Io.statics idle_rng) + Dra7Rng.RNG_STATUS)) 0 = true)
    by reflexivity.
  split; [exact H1|]. split; [exact H2|]. split; [exact H3|]. split; [exact H4|].
  destruct (@hw_get_random_bytes_sample ready_device 0x48090000 false (fun pa => pa) 1
              idle_rng H1 H2 H3 H4)
    as (v & lo & hi & bs & w' & Hrun & _ & Hlen & _ & Hsum & _).
  exists lo, hi, bs, w'. split; [exact Hrun|]. split; [exact Hlen | exact Hsum].
Defined.

Lemma entry_stored_before_reset_release_witness :
  Z.land 2 (@MPIDR_CPU_MASK rk322x) <> 0 /\
  Z.land 2 (@MPIDR_CPU_MASK rk322x) < @CFG_TEE_CORE_NB_CORE rk322x /\
  (500 < 501)%nat /\
  Z.land (cru (boot_machine 0) (CRU_SOFTRST_CON 0))
         (@CORE_HELD_IN_RESET rk322x (Z.land 2 (@MPIDR_CPU_MASK rk322x))) <> 0 /\
  (Z.to_nat (Z.land 2 (@MPIDR_CPU_MASK rk322x))
   < length (ns_entry_addrs (boot_machine 0)))%nat /\
  exists r s' pre post,
    @psci_cpu_on rk322x parked_device 501 2 0x80100000 0 (boot_machine 0) = Done r s' /\
    trace s' = trace (boot_machine 0) ++
      EvStoreEntry (Z.land 2 (@MPIDR_CPU_MASK rk322x)) 0x80100000 :: pre ++
      [ EvWrite (CRU_BASE (CRU_SOFTRST_CON 0))
                (@CORE_SOFT_RESET rk322x (Z.land 2 (@MPIDR_CPU_MASK rk322x)));
        EvDsb; EvUdelay 2;
        EvWrite (CRU_BASE (CRU_SOFTRST_CON 0))
                (@CORE_SOFT_RELEASE rk322x (Z.land 2 (@MPIDR_CPU_MASK rk322x))) ] ++ post /\
    Forall (fun e => is_write e = false) pre /\
    Forall (fun e => is_softrst_write e = false) post /\
    ns_entry_addrs s' !! Z.to_nat (Z.land 2 (@MPIDR_CPU_MASK rk322x)) = Some 0x80100000.
Proof.
  assert (H1 : Z.land 2 (@MPIDR_CPU_MASK rk322x) <> 0) by (vm_compute; congruence).
  assert (H2 : Z.land 2 (@MPIDR_CPU_MASK rk322x) < @CFG_TEE_CORE_NB_CORE rk322x)
    by (vm_compute; congruence).
  assert (H3 : (500 < 501)%nat) by lia.
  assert (H4 : Z.land (cru (boot_machine 0) (CRU_SOFTRST_CON 0))
                 (@CORE_HELD_IN_RESET rk322x (Z.land 2 (@MPIDR_CPU_MASK rk322x))) <> 0)
    by (vm_compute; congruence).
  assert (H5 : (Z.to_nat (Z.land 2 (@MPIDR_CPU_MASK rk322x))
                < length (ns_entry_addrs (boot_machine 0)))%nat) by (vm_compute; lia).
  split; [exact H1|]. split; [exact H2|]. split; [exact H3|]. split; [exact H4|].
  split; [exact H5|].
  destruct (@entry_stored_before_reset_release rk322x parked_device 501 2 0x80100000 0
              (boot_machine 0) H1 H2 H3)
    as (r & s' & rest & Hrun & Htr & _ & Hlook & Hcase & _).
  destruct Hcase as [(_ & Hz & _) | (pre & post & Hrest & Hpre & Hpost & _)].
  - exfalso. exact (H4 Hz).
  - exists r, s', pre, post. split; [exact Hrun|].
    split; [rewrite Htr, Hrest; reflexivity|].
    split; [exact Hpre|]. split; [exact Hpost | exact (Hlook H5)].
Defined.

